(** * http-fp: fingerprint generation, header composition, retry and
      session persistence

    A shallow embedding of the Python package [http_client]
    (src/http_client/...) and the properties of its natural-language
    specification.

    Conventions of the embedding:
    - Python [int] is [Z]; Python [float] is idealised as an exact rational
      [Q] (no rounding, no overflow to infinity);
    - Python [str] is [string]; [list] is [list]; a [dict] whose order matters
      is an association list in insertion order;
    - the module-level generator of [random] is an explicit state: the
      sequence of raw draws it is going to deliver;
    - a function that can raise returns a [res]; state changed before a raise
      stays changed, as in Python. *)

From Stdlib Require Import ZArith QArith Qpower Ascii.
From stdpp Require Import base option list strings pretty gmap.

Local Open Scope Z_scope.

(** ** Exceptions and the effect monad *)

Inductive exn :=
  | IndexError
  | KeyError (key : string)
  | TypeError
  | AttributeError
  | ValueError
  | RuntimeError (msg : string)
  | JSONDecodeError
  | RequestsError (kind : string)  (* curl_cffi.requests.exceptions.<kind> *)
  | KeyboardInterrupt.             (* a BaseException that is no Exception *)

(** [isinstance(e, Exception)]: what [except Exception] catches. *)
Definition is_Exception (e : exn) : bool :=
  match e with
  | KeyboardInterrupt => false
  | _ => true
  end.

Inductive res (A : Type) :=
  | Ok (a : A)
  | Raise (e : exn).
Arguments Ok {A} a.
Arguments Raise {A} e.

(** A computation over a state [S] that returns or raises. *)
Definition Eff (S A : Type) : Type := S → res A * S.

Definition eff_ret {S A} (a : A) : Eff S A := λ s, (Ok a, s).
Definition eff_bind {S A B} (m : Eff S A) (k : A → Eff S B) : Eff S B :=
  λ s, match m s with
       | (Ok a, s') => k a s'
       | (Raise e, s') => (Raise e, s')
       end.
Definition raise {S A} (e : exn) : Eff S A := λ s, (Raise e, s).
Definition get_state {S} : Eff S S := λ s, (Ok s, s).
Definition modify {S} (f : S → S) : Eff S unit := λ s, (Ok tt, f s).

(** Run [m] on the component of the state selected by [get]/[set]. *)
Definition zoom {S T A} (get : S → T) (set : T → S → S) (m : Eff T A) : Eff S A :=
  λ s, let '(a, t) := m (get s) in (a, set t s).

Declare Scope eff_scope.
Delimit Scope eff_scope with eff.
Notation "x <- m ;; k" := (eff_bind m (λ x, k))
  (at level 100, m at next level, right associativity) : eff_scope.
Notation "m ;;; k" := (eff_bind m (λ _, k))
  (at level 100, right associativity) : eff_scope.
Local Open Scope eff_scope.

(** ** Python strings *)

Module Py.

(** [needle in hay] on strings. *)
Fixpoint str_in (needle hay : string) : bool :=
  String.prefix needle hay ||
  match hay with
  | EmptyString => false
  | String _ hay' => str_in needle hay'
  end.

(** [sep.join(parts)]. *)
Fixpoint join (sep : string) (parts : list string) : string :=
  match parts with
  | [] => ""
  | [p] => p
  | p :: rest => p +:+ sep +:+ join sep rest
  end.

(** [s.split(c)] for a one-character separator. *)
Fixpoint split (c : ascii) (s : string) : list string :=
  match s with
  | EmptyString => [""]
  | String a s' =>
      if Ascii.eqb a c then "" :: split c s'
      else match split c s' with
           | h :: t => String a h :: t
           | [] => [String a ""]
           end
  end.

(** [c not in s] for a character. *)
Fixpoint free_of (c : ascii) (s : string) : bool :=
  match s with
  | EmptyString => true
  | String a s' => negb (Ascii.eqb a c) && free_of c s'
  end.

(** [str(n)] and [f"{n}"] on an int. *)
Definition str_of_int (n : Z) : string := pretty n.

(** An insertion-ordered [dict] with keys of type [K]. *)
Section Dict.
Context {K V : Type} `{EqDecision K}.

Fixpoint get (d : list (K * V)) (k : K) : option V :=
  match d with
  | [] => None
  | (k', v) :: d' => if decide (k' = k) then Some v else get d' k
  end.

(** [d[k] = v]: an existing key keeps its position. *)
Fixpoint set (d : list (K * V)) (k : K) (v : V) : list (K * V) :=
  match d with
  | [] => [(k, v)]
  | (k', v') :: d' =>
      if decide (k' = k) then (k, v) :: d' else (k', v') :: set d' k v
  end.

(** [d.update(other)]. *)
Definition update (d other : list (K * V)) : list (K * V) :=
  foldl (λ acc kv, set acc kv.1 kv.2) d other.
End Dict.

(** [d[k]] on a [dict] with string keys, raising [KeyError]. *)
Definition getitem {S V} (d : list (string * V)) (k : string) : Eff S V :=
  match get d k with
  | Some v => eff_ret v
  | None => raise (KeyError k)
  end.

End Py.

(** ** The [random] module *)

Module Random.

(** The generator state: the raw draws still to come (an exhausted
    sequence keeps delivering 0). *)
Definition rng := list N.
Definition Rand (A : Type) : Type := Eff rng A.

Definition draw : Rand N :=
  λ r, match r with
       | [] => (Ok 0%N, [])
       | d :: r' => (Ok d, r')
       end.

(** [_randbelow(n)] for [n > 0]: a value in [0, n). *)
Definition randbelow (n : nat) : Rand nat :=
  d <- draw ;; eff_ret (N.to_nat (d mod N.of_nat n)%N).

(** [random.random()]: [k / 2^53] for a 53-bit [k], in [0, 1). *)
Definition random : Rand Q :=
  d <- draw ;; eff_ret (Z.of_N (d mod 2 ^ 53)%N # 2 ^ 53).

(** [random.choice(seq)]. *)
Definition choice {A} (seq : list A) : Rand A :=
  match seq with
  | [] => raise IndexError
  | _ :: _ =>
      i <- randbelow (length seq) ;;
      match seq !! i with
      | Some a => eff_ret a
      | None => raise IndexError
      end
  end.

(** [x[i], x[j] = x[j], x[i]]. *)
Definition swap {A} (x : list A) (i j : nat) : list A :=
  match x !! i, x !! j with
  | Some a, Some b => <[j:=a]> (<[i:=b]> x)
  | _, _ => x
  end.

(** The loop of [random.shuffle]:
    [for i in reversed(range(1, len(x))): j = randbelow(i + 1); swap],
    entered at index [i]. *)
Fixpoint shuffle_from {A} (i : nat) (x : list A) : Rand (list A) :=
  match i with
  | O => eff_ret x
  | S i' =>
      j <- randbelow (S i) ;;
      shuffle_from i' (swap x i j)
  end.

(** [random.shuffle(x)], returning the shuffled list. *)
Definition shuffle {A} (x : list A) : Rand (list A) :=
  shuffle_from (length x - 1)%nat x.

End Random.
Import Random.

(** ** fingerprint/ja3.py *)

Module JA3Generator.

Definition TLS_VERSION : string := "771".

Definition CIPHERS : string :=
  "4865-4866-4867-49195-49199-49196-49200-52393-52392-49171-49172-156-157-47-53".

Definition BASE_EXTENSIONS : list string :=
  [ "0"; "5"; "10"; "11"; "13"; "16"; "18"; "23"; "27"; "35"; "43"; "45";
    "51"; "65037"; "65281" ].

Definition ECH_EXTENSION : string := "17613".

Definition CURVE_SETS : list (string * string) :=
  [ ("old", "29-23-24"); ("kyber", "4588-29-23-24") ].

Definition EC_POINT_FORMATS : string := "0".

Definition chromium_signature_algorithms : list string :=
  [ "ecdsa_secp256r1_sha256"; "rsa_pss_rsae_sha256"; "rsa_pkcs1_sha256";
    "ecdsa_secp384r1_sha384"; "rsa_pss_rsae_sha384"; "rsa_pkcs1_sha384";
    "rsa_pss_rsae_sha512"; "rsa_pkcs1_sha512" ].

Definition SIGNATURE_ALGORITHMS : list (string * list string) :=
  [ ("chrome", chromium_signature_algorithms);
    ("brave", chromium_signature_algorithms);
    ("edge", chromium_signature_algorithms) ].

Definition _permute_extensions (extensions : list string) : Rand (list string) :=
  let ext_copy := extensions in
  shuffle ext_copy.

Definition generate (version : Z) (browser_type : string) : Rand string :=
  let extensions := BASE_EXTENSIONS in
  let extensions :=
    if bool_decide (version >= 117) then extensions ++ [ECH_EXTENSION]
    else extensions in
  extensions <- _permute_extensions extensions ;;
  curves <- (if bool_decide (version >= 130)
             then Py.getitem CURVE_SETS "kyber"
             else Py.getitem CURVE_SETS "old") ;;
  let ext_str := Py.join "-" extensions in
  eff_ret (TLS_VERSION +:+ "," +:+ CIPHERS +:+ "," +:+ ext_str +:+ "," +:+
           curves +:+ "," +:+ EC_POINT_FORMATS).

(** The [extra_fp] dictionary handed to the transport. *)
Record extra_fp := {
  tls_signature_algorithms : list string;
  tls_grease : bool;
  tls_permute_extensions : bool;
  tls_cert_compression : string;
  http2_stream_weight : Z;
  http2_stream_exclusive : Z;
}.

Definition get_extra_fp (browser_type : string) : Rand extra_fp :=
  chrome_algs <- Py.getitem SIGNATURE_ALGORITHMS "chrome" ;;
  let sig_algs := default chrome_algs (Py.get SIGNATURE_ALGORITHMS browser_type) in
  stream_weight <- choice [220; 230; 240; 250; 256] ;;
  eff_ret {| tls_signature_algorithms := sig_algs;
             tls_grease := true;
             tls_permute_extensions := false;
             tls_cert_compression := "brotli";
             http2_stream_weight := stream_weight;
             http2_stream_exclusive := 1 |}.

(** The five comma-separated fields of a JA3 string. *)
Definition fields (ja3 : string) : list string := Py.split "," ja3.
Definition extension_field (ja3 : string) : list string :=
  Py.split "-" (default "" (fields ja3 !! 2%nat)).
Definition curve_field (ja3 : string) : list string :=
  Py.split "-" (default "" (fields ja3 !! 3%nat)).

End JA3Generator.

(** ** fingerprint/akamai.py *)

Module AkamaiGenerator.

Definition WINDOW_UPDATE_VALUES : list Z :=
  [ 15663105; 15728640; 15794175; 15859710; 15925245;
    15990780; 16056315; 16121850; 16187385; 16252920 ].

Definition PRIORITY_VALUES : list string := [ "0"; "0"; "0"; "1"; "3" ].

Definition PSEUDO_HEADER_ORDERS : list string :=
  [ "m,a,s,p"; "m,s,a,p"; "m,p,a,s" ].

Definition _generate_settings (browser_type : string) : Rand string :=
  let header_table_size := "1:65536" in
  let initial_window_size := "4:6291456" in
  let max_header_list_size := "6:262144" in
  if bool_decide (browser_type = "safari") then
    eff_ret "1:4096;4:4194304;6:262144"
  else
    let enable_push :=
      if bool_decide (browser_type ∈ ["chrome"; "brave"]) then Some "2:0"
      else None in
    x <- random ;;
    max_concurrent <-
      (if Qlt_le_dec x (4 # 10) then
         n <- choice [100; 200; 500; 1000] ;;
         eff_ret (Some ("3:" +:+ Py.str_of_int n))
       else eff_ret None) ;;
    let parts := [header_table_size] in
    let parts := match enable_push with Some s => parts ++ [s] | None => parts end in
    let parts := match max_concurrent with Some s => parts ++ [s] | None => parts end in
    let parts := parts ++ [initial_window_size; max_header_list_size] in
    eff_ret (Py.join ";" parts).

Definition generate (browser_type : string) : Rand string :=
  settings <- _generate_settings browser_type ;;
  window_update <- choice WINDOW_UPDATE_VALUES ;;
  priority <- choice PRIORITY_VALUES ;;
  pseudo_order <- choice PSEUDO_HEADER_ORDERS ;;
  eff_ret (settings +:+ "|" +:+ Py.str_of_int window_update +:+ "|" +:+
           priority +:+ "|" +:+ pseudo_order).

(** The four bar-separated fields of an Akamai string. *)
Definition fields (akamai : string) : list string := Py.split "|" akamai.
Definition settings_field (akamai : string) : string :=
  default EmptyString (fields akamai !! 0%nat).

End AkamaiGenerator.

(** ** fingerprint/user_agent.py *)

Module UserAgentGenerator.

Record UserAgentInfo := {
  ua : string;
  sec_ch_ua : option string;
  platform : string;
  mobile : bool;
}.

Definition PLATFORM_WEIGHTS : list (string * Q) :=
  [ ("Windows", 50 # 100); ("iOS", 30 # 100);
    ("Android", 20 # 100); ("macOS", 20 # 100) ].

(** The double-quote character that the client-hint literals contain. *)
Definition dq : string := String (ascii_of_nat 34) EmptyString.

(** A client-hint literal, written brand by brand because it contains
    double quotes: each pair [(b, v)] stands for ["b";v="v"], the entries
    joined by [", "]. *)
Definition brands (l : list (string * string)) : string :=
  Py.join ", " ((λ bv, dq +:+ bv.1 +:+ dq +:+ ";v=" +:+ dq +:+ bv.2 +:+ dq) <$> l).

Definition chrome_144 : string :=
  brands [("Not(A:Brand", "8"); ("Chromium", "144"); ("Google Chrome", "144")].
Definition chrome_143 : string :=
  brands [("Chromium", "143"); ("Not/A)Brand", "24"); ("Google Chrome", "143")].
Definition chrome_142 : string :=
  brands [("Chromium", "142"); ("Not/A)Brand", "24"); ("Google Chrome", "142")].
Definition chrome_141 : string :=
  brands [("Chromium", "141"); ("Not_A Brand", "24"); ("Google Chrome", "141")].
Definition brave_143 : string :=
  brands [("Brave", "143"); ("Chromium", "143"); ("Not/A)Brand", "24")].
Definition brave_142 : string :=
  brands [("Brave", "142"); ("Chromium", "142"); ("Not/A)Brand", "24")].
Definition edge_143 : string :=
  brands [("Chromium", "143"); ("Not/A)Brand", "24"); ("Microsoft Edge", "143")].
Definition edge_142 : string :=
  brands [("Chromium", "142"); ("Not/A)Brand", "24"); ("Microsoft Edge", "142")].

Definition mk (u : string) (ch : option string) (p : string) (m : bool) :=
  {| ua := u; sec_ch_ua := ch; platform := p; mobile := m |}.

Definition PROFILES : list UserAgentInfo :=
  [ (* Windows *)
  mk "Mozilla/5.0 (Windows NT 10.0; Win64; x64) AppleWebKit/537.36 (KHTML, like Gecko) Chrome/144.0.0.0 Safari/537.36"
       (Some chrome_144) "Windows" false;
  mk "Mozilla/5.0 (Windows NT 10.0; Win64; x64) AppleWebKit/537.36 (KHTML, like Gecko) Chrome/143.0.0.0 Safari/537.36"
       (Some chrome_143) "Windows" false;
  mk "Mozilla/5.0 (Windows NT 10.0; Win64; x64) AppleWebKit/537.36 (KHTML, like Gecko) Chrome/142.0.0.0 Safari/537.36"
       (Some chrome_142) "Windows" false;
  mk "Mozilla/5.0 (Windows NT 10.0; Win64; x64) AppleWebKit/537.36 (KHTML, like Gecko) Chrome/141.0.0.0 Safari/537.36"
       (Some chrome_141) "Windows" false;
  mk "Mozilla/5.0 (Windows NT 10.0; Win64; x64) AppleWebKit/537.36 (KHTML, like Gecko) Chrome/143.0.0.0 Safari/537.36"
       (Some brave_143) "Windows" false;
  mk "Mozilla/5.0 (Windows NT 10.0; Win64; x64) AppleWebKit/537.36 (KHTML, like Gecko) Chrome/142.0.0.0 Safari/537.36"
       (Some brave_142) "Windows" false;
  mk "Mozilla/5.0 (Windows NT 10.0; Win64; x64) AppleWebKit/537.36 (KHTML, like Gecko) Chrome/143.0.0.0 Safari/537.36 Edg/143.0.0.0"
       (Some edge_143) "Windows" false;
  mk "Mozilla/5.0 (Windows NT 10.0; Win64; x64) AppleWebKit/537.36 (KHTML, like Gecko) Chrome/142.0.0.0 Safari/537.36 Edg/142.0.0.0"
       (Some edge_142) "Windows" false;
  (* macOS *)
  mk "Mozilla/5.0 (Macintosh; Intel Mac OS X 10_15_7) AppleWebKit/537.36 (KHTML, like Gecko) Chrome/144.0.0.0 Safari/537.36"
       (Some chrome_144) "macOS" false;
  mk "Mozilla/5.0 (Macintosh; Intel Mac OS X 10_15_7) AppleWebKit/537.36 (KHTML, like Gecko) Chrome/143.0.0.0 Safari/537.36"
       (Some chrome_143) "macOS" false;
  mk "Mozilla/5.0 (Macintosh; Intel Mac OS X 10_15_7) AppleWebKit/537.36 (KHTML, like Gecko) Chrome/142.0.0.0 Safari/537.36"
       (Some chrome_142) "macOS" false;
  mk "Mozilla/5.0 (Macintosh; Intel Mac OS X 10_15_7) AppleWebKit/537.36 (KHTML, like Gecko) Chrome/141.0.0.0 Safari/537.36"
       (Some chrome_141) "macOS" false;
  mk "Mozilla/5.0 (Macintosh; Intel Mac OS X 10_15_7) AppleWebKit/537.36 (KHTML, like Gecko) Chrome/143.0.0.0 Safari/537.36"
       (Some brave_143) "macOS" false;
  mk "Mozilla/5.0 (Macintosh; Intel Mac OS X 10_15_7) AppleWebKit/605.1.15 (KHTML, like Gecko) Version/18.3 Safari/605.1.15"
       None "macOS" false;
  mk "Mozilla/5.0 (Macintosh; Intel Mac OS X 10_15_7) AppleWebKit/605.1.15 (KHTML, like Gecko) Version/17.6 Safari/605.1.15"
       None "macOS" false;
  (* iOS *)
  mk "Mozilla/5.0 (iPhone; CPU iPhone OS 18_3 like Mac OS X) AppleWebKit/605.1.15 (KHTML, like Gecko) Version/18.3 Mobile/15E148 Safari/604.1"
       None "iOS" true;
  mk "Mozilla/5.0 (iPhone; CPU iPhone OS 18_2 like Mac OS X) AppleWebKit/605.1.15 (KHTML, like Gecko) Version/18.2 Mobile/15E148 Safari/604.1"
       None "iOS" true;
  mk "Mozilla/5.0 (iPhone; CPU iPhone OS 17_7 like Mac OS X) AppleWebKit/605.1.15 (KHTML, like Gecko) Version/17.7 Mobile/15E148 Safari/604.1"
       None "iOS" true;
  mk "Mozilla/5.0 (iPhone; CPU iPhone OS 18_3 like Mac OS X) AppleWebKit/605.1.15 (KHTML, like Gecko) CriOS/144.0.6917.56 Mobile/15E148 Safari/604.1"
       None "iOS" true;
  mk "Mozilla/5.0 (iPhone; CPU iPhone OS 18_3 like Mac OS X) AppleWebKit/605.1.15 (KHTML, like Gecko) CriOS/143.0.6917.56 Mobile/15E148 Safari/604.1"
       None "iOS" true;
  mk "Mozilla/5.0 (iPhone; CPU iPhone OS 18_2 like Mac OS X) AppleWebKit/605.1.15 (KHTML, like Gecko) CriOS/142.0.6904.80 Mobile/15E148 Safari/604.1"
       None "iOS" true;
  (* Android *)
  mk "Mozilla/5.0 (Linux; Android 15; Pixel 9) AppleWebKit/537.36 (KHTML, like Gecko) Chrome/144.0.6917.65 Mobile Safari/537.36"
       (Some chrome_144) "Android" true;
  mk "Mozilla/5.0 (Linux; Android 15; Pixel 9) AppleWebKit/537.36 (KHTML, like Gecko) Chrome/143.0.6917.65 Mobile Safari/537.36"
       (Some chrome_143) "Android" true;
  mk "Mozilla/5.0 (Linux; Android 14; Pixel 8) AppleWebKit/537.36 (KHTML, like Gecko) Chrome/142.0.6904.111 Mobile Safari/537.36"
       (Some chrome_142) "Android" true;
  mk "Mozilla/5.0 (Linux; Android 15; SM-S936B) AppleWebKit/537.36 (KHTML, like Gecko) Chrome/143.0.6917.65 Mobile Safari/537.36"
       (Some chrome_143) "Android" true;
  mk "Mozilla/5.0 (Linux; Android 14; SM-S926B) AppleWebKit/537.36 (KHTML, like Gecko) Chrome/142.0.6904.111 Mobile Safari/537.36"
       (Some chrome_142) "Android" true;
  mk "Mozilla/5.0 (Linux; Android 15; Pixel 9) AppleWebKit/537.36 (KHTML, like Gecko) Chrome/143.0.6917.65 Mobile Safari/537.36"
       (Some brave_143) "Android" true ].

(** Truth value of an optional string: [None] and the empty string are
    false. *)
Definition truthy (s : option string) : bool :=
  match s with
  | Some (String _ _) => true
  | _ => false
  end.

(** [platform is None or p["platform"] == platform]. *)
Definition platform_ok (plat : option string) (p : UserAgentInfo) : bool :=
  match plat with
  | None => true
  | Some pl => bool_decide (p.(platform) = pl)
  end.

Definition get_random (plat : option string) : Rand UserAgentInfo :=
  let filtered :=
    if truthy plat
    then filter (λ p, Some p.(platform) = plat) PROFILES
    else [] in
  match filtered with
  | _ :: _ => choice filtered
  | [] => choice PROFILES
  end.

(** [bisect.bisect(a, x, 0, hi)] on a sorted [a]: the number of entries
    among the first [hi] that are [<= x]. *)
Definition bisect (a : list Q) (x : Q) (hi : nat) : nat :=
  length (filter (λ c, Qle_bool c x = true) (take hi a)).

(** [itertools.accumulate(weights)]. *)
Fixpoint accumulate (acc : Q) (weights : list Q) : list Q :=
  match weights with
  | [] => []
  | w :: ws => (acc + w)%Q :: accumulate (acc + w)%Q ws
  end.

(** [random.choices(population, weights=weights, k=1)[0]]. *)
Definition choices1 {A} (population : list A) (weights : list Q) : Rand A :=
  let n := length population in
  let cum_weights := accumulate 0 weights in
  if negb (length cum_weights =? n)%nat then raise ValueError
  else
    let total := default 0%Q (last cum_weights) in
    if Qle_bool total 0 then raise ValueError
    else
      let hi := (n - 1)%nat in
      x <- random ;;
      match population !! bisect cum_weights (x * total)%Q hi with
      | Some a => eff_ret a
      | None => raise IndexError
      end.

Definition get_weighted_random : Rand UserAgentInfo :=
  let platforms := PLATFORM_WEIGHTS.*1 in
  let weights := PLATFORM_WEIGHTS.*2 in
  chosen_platform <- choices1 platforms weights ;;
  get_random (Some chosen_platform).

(** [random.choice(l) if l else cls.get_random(platform)]. *)
Definition choice_or_random (l : list UserAgentInfo) (plat : option string)
    : Rand UserAgentInfo :=
  match l with
  | _ :: _ => choice l
  | [] => get_random plat
  end.

Definition has_brave (p : UserAgentInfo) : bool :=
  Py.str_in "Brave" (default EmptyString p.(sec_ch_ua)).

Definition get_chrome (plat : option string) : Rand UserAgentInfo :=
  let chrome_profiles :=
    filter (λ p, (Py.str_in "Chrome" p.(ua) || Py.str_in "CriOS" p.(ua))
                 && negb (Py.str_in "Edg" p.(ua))
                 && negb (has_brave p)
                 && platform_ok plat p = true) PROFILES in
  choice_or_random chrome_profiles plat.

Definition get_brave (plat : option string) : Rand UserAgentInfo :=
  let brave_profiles :=
    filter (λ p, has_brave p && platform_ok plat p = true) PROFILES in
  choice_or_random brave_profiles plat.

Definition get_edge (plat : option string) : Rand UserAgentInfo :=
  let edge_profiles :=
    filter (λ p, Py.str_in "Edg" p.(ua) && platform_ok plat p = true)
           PROFILES in
  choice_or_random edge_profiles plat.

Definition get_safari (plat : option string) : Rand UserAgentInfo :=
  let safari_profiles :=
    filter (λ p, bool_decide (p.(sec_ch_ua) = None)
                 && Py.str_in "Safari" p.(ua)
                 && platform_ok plat p = true) PROFILES in
  choice_or_random safari_profiles plat.

Definition get_version (version : Z) (plat : option string)
    : Rand UserAgentInfo :=
  let version_profiles :=
    filter (λ p, Py.str_in ("Chrome/" +:+ Py.str_of_int version) p.(ua)
                 && negb (Py.str_in "Edg" p.(ua))
                 && negb (has_brave p)
                 && platform_ok plat p = true) PROFILES in
  choice_or_random version_profiles plat.

End UserAgentGenerator.

(** ** config.py: [BrowserInfo] *)

Module BrowserInfo.
Import UserAgentGenerator.

Record t := {
  version : Z;
  browser_type : string;
  user_agent : string;
  sec_ch_ua : option string;
  sec_ch_ua_mobile : string;
  platform : string;
  mobile : bool;
}.

Definition is_digit (a : ascii) : bool :=
  let n := nat_of_ascii a in (48 <=? n)%nat && (n <=? 57)%nat.

(** The longest run of digits at the head of [s]: what [\d+] consumes. *)
Fixpoint digits (s : string) : string :=
  match s with
  | String a s' => if is_digit a then String a (digits s') else EmptyString
  | EmptyString => EmptyString
  end.

(** [s] without its prefix [p], when it has it. *)
Fixpoint strip_prefix (p s : string) : option string :=
  match p, s with
  | EmptyString, _ => Some s
  | String a p', String b s' =>
      if Ascii.eqb a b then strip_prefix p' s' else None
  | String _ _, EmptyString => None
  end.

(** [re.search(lit + r"(\d+)", s)]: group 1 of the leftmost match. *)
Fixpoint search_number (lit s : string) : option string :=
  let here :=
    match strip_prefix lit s with
    | Some rest =>
        match digits rest with
        | EmptyString => None
        | d => Some d
        end
    | None => None
    end in
  match here, s with
  | Some d, _ => Some d
  | None, String _ s' => search_number lit s'
  | None, EmptyString => None
  end.

(** [int(digits)]. *)
Definition int_of_digits (s : string) : Z :=
  foldl (λ acc a, 10 * acc + (Z.of_nat (nat_of_ascii a) - 48)) 0
        (String.list_ascii_of_string s).

Definition _detect_browser_type (ua : string) (sec_ch_ua : option string)
    : string :=
  let after_hints :=
    if Py.str_in "Safari" ua && negb (Py.str_in "Chrome" ua)
       && negb (Py.str_in "Edg" ua) then "safari"
    else if Py.str_in "Edg" ua then "edge"
    else "chrome" in
  match sec_ch_ua with
  | Some ((String _ _) as hints) =>
      if Py.str_in "Brave" hints then "brave"
      else if Py.str_in "Edge" hints || Py.str_in "Edg" ua then "edge"
      else if Py.str_in "Chrome" hints then "chrome"
      else after_hints
  | _ => after_hints
  end.

Definition patterns : list (string * string) :=
  [ ("chrome", "Chrome/"); ("brave", "Chrome/");
    ("edge", "Edg/"); ("safari", "Version/") ].

Definition _extract_version (ua browser_type : string) : Z :=
  let pattern := default "Chrome/" (Py.get patterns browser_type) in
  match search_number pattern ua with
  | Some d => int_of_digits d
  | None => 143
  end.

(** The four-way dispatch on the requested browser name. *)
Definition by_browser (browser : string) (chrome : Rand UserAgentInfo)
    (plat : option string) : Rand UserAgentInfo :=
  if bool_decide (browser = "chrome") then chrome
  else if bool_decide (browser = "brave") then get_brave plat
  else if bool_decide (browser = "edge") then get_edge plat
  else if bool_decide (browser = "safari") then get_safari plat
  else get_random plat.

Definition generate (plat browser : option string) (ver : option Z) : Rand t :=
  ua_info <-
    match ver, browser, plat with
    | Some v, Some b, _ => by_browser b (get_version v plat) plat
    | _, Some b, _ => by_browser b (get_chrome plat) plat
    | _, None, Some _ => get_random plat
    | _, None, None => get_weighted_random
    end ;;
  let browser_type :=
    _detect_browser_type ua_info.(ua) ua_info.(UserAgentGenerator.sec_ch_ua) in
  let version_num := _extract_version ua_info.(ua) browser_type in
  eff_ret {| version := version_num;
             browser_type := browser_type;
             user_agent := ua_info.(ua);
             sec_ch_ua := ua_info.(UserAgentGenerator.sec_ch_ua);
             sec_ch_ua_mobile :=
               if ua_info.(UserAgentGenerator.mobile) then "?1" else "?0";
             platform := ua_info.(UserAgentGenerator.platform);
             mobile := ua_info.(UserAgentGenerator.mobile) |}.

End BrowserInfo.

(** ** fingerprint/profile.py *)

Module FingerprintProfile.

Record t := {
  ja3 : string;
  akamai : string;
  extra_fp : JA3Generator.extra_fp;
  user_agent : string;
  sec_ch_ua : option string;
  sec_ch_ua_mobile : option string;
  sec_ch_ua_platform : option string;
  accept_language : option string;
  browser_type : string;
  platform : string;
  mobile : bool;
}.

End FingerprintProfile.

(** ** retry.py *)

Module Retry.

(** What the package reads of a [curl_cffi] response; a response object is
    true in a boolean context whatever its status. *)
Record Response := {
  status_code : Z;
  text : string;
}.

Record RetryConfig := {
  max_retries : Z;
  backoff_factor : Q;
  retry_on_status : list Z;
  retry_on_timeout : bool;
  jitter : bool;
}.

(** [RetryConfig()]: the defaults of the dataclass. *)
Definition default_config : RetryConfig :=
  {| max_retries := 3;
     backoff_factor := 1 # 2;
     retry_on_status := [429; 500; 502; 503; 504];
     retry_on_timeout := true;
     jitter := true |}.

Definition should_retry (self : RetryConfig)
    (response : option Response) (exception : option exn) : bool :=
  match exception with
  | Some _ => self.(retry_on_timeout)
  | None =>
      match response with
      | Some r => bool_decide (r.(status_code) ∈ self.(retry_on_status))
      | None => false
      end
  end.

Definition get_backoff_time (self : RetryConfig) (attempt : Z) : Rand Q :=
  let delay := (self.(backoff_factor) * (2 # 1) ^ attempt)%Q in
  if self.(jitter) then
    x <- random ;;
    eff_ret (delay * ((1 # 2) + x * (1 # 2)))%Q
  else eff_ret delay.

Section RetryMixin.
(** The state the wrapped request function works on. *)
Context {U : Type}.

(** What a retry loop touches: the generator, the clock (as the list of
    delays slept so far, latest first), the wrapped function's own state,
    and a count of how often the wrapped function has been entered. *)
Record World := {
  entropy : rng;
  slept : list Q;
  calls : nat;
  user : U;
}.

Definition set_entropy (r : rng) (w : World) : World :=
  {| entropy := r; slept := w.(slept); calls := w.(calls); user := w.(user) |}.
Definition set_user (u : U) (w : World) : World :=
  {| entropy := w.(entropy); slept := w.(slept); calls := w.(calls); user := u |}.
Definition add_sleep (d : Q) (w : World) : World :=
  {| entropy := w.(entropy); slept := d :: w.(slept);
     calls := w.(calls); user := w.(user) |}.
Definition count_call (w : World) : World :=
  {| entropy := w.(entropy); slept := w.(slept);
     calls := S w.(calls); user := w.(user) |}.

(** [time.sleep(secs)]: a negative length is a [ValueError]. *)
Definition time_sleep (secs : Q) : Eff World unit :=
  if Qlt_le_dec secs 0 then raise ValueError
  else modify (add_sleep secs).

(** One invocation of the wrapped request function. *)
Definition call (request_func : Eff U Response) : Eff World Response :=
  modify count_call ;;; zoom user set_user request_func.

(** [try: body  except Exception as e: handler e]. *)
Definition try_except {S A} (body : Eff S A) (handler : exn → Eff S A)
    : Eff S A :=
  λ s, match body s with
       | (Raise e, s') =>
           if is_Exception e then handler e s' else (Raise e, s')
       | done => done
       end.

(** How one pass through the loop body ends: [continue], carrying the
    value of [last_exception], or [return response]. *)
Inductive pass :=
  | Continue (last_exception : option exn)
  | Return (response : Response).

(** [backoff = get_backoff_time(attempt); time.sleep(backoff); continue]. *)
Definition back_off (cfg : RetryConfig) (attempt : Z)
    (last_exception : option exn) : Eff World pass :=
  backoff <- zoom entropy set_entropy (get_backoff_time cfg attempt) ;;
  time_sleep backoff ;;;
  eff_ret (Continue last_exception).

(** The body of the [for attempt in range(max_retries + 1)] loop. *)
Definition attempt_once (cfg : RetryConfig) (request_func : Eff U Response)
    (attempt : Z) (last_exception : option exn) : Eff World pass :=
  try_except
    (response <- call request_func ;;
     if should_retry cfg (Some response) None
        && bool_decide (attempt < cfg.(max_retries))
     then back_off cfg attempt last_exception
     else eff_ret (Return response))
    (λ e,
       let last_exception := Some e in
       if should_retry cfg None (Some e)
          && bool_decide (attempt < cfg.(max_retries))
       then back_off cfg attempt last_exception
       else raise e).

Fixpoint retry_loop (cfg : RetryConfig) (request_func : Eff U Response)
    (attempts : list Z) (last_exception : option exn)
    : Eff World Response :=
  match attempts with
  | attempt :: rest =>
      p <- attempt_once cfg request_func attempt last_exception ;;
      match p with
      | Continue last_exception =>
          retry_loop cfg request_func rest last_exception
      | Return response => eff_ret response
      end
  | [] =>
      (* All retries exhausted; [last_response] is never assigned. *)
      match last_exception with
      | Some e => raise e
      | None => raise (RuntimeError "All retries exhausted without response")
      end
  end.

Definition request_with_retry (cfg : RetryConfig)
    (request_func : Eff U Response) : Eff World Response :=
  retry_loop cfg request_func (seqZ 0 (cfg.(max_retries) + 1)) None.

End RetryMixin.
Arguments World : clear implicits.

End Retry.

(** ** session.py *)

Module SessionManager.

(** A decoded JSON document. *)
Unset Elimination Schemes.
Inductive json :=
  | JNull
  | JBool (b : bool)
  | JInt (n : Z)
  | JFloat (q : Q)
  | JStr (s : string)
  | JList (items : list json)
  | JDict (items : list (string * json)).
Set Elimination Schemes.

(** A file on disk, by what [json.load] makes of its bytes: it raises
    [JSONDecodeError], or it returns a document. *)
Inductive file :=
  | Malformed
  | Document (doc : json).

(** One [cookies.set(name=, value=, domain=, path=, secure=)]. *)
Record Cookie := {
  name : json;
  value : json;
  domain : json;
  path : json;
  secure : json;
}.

(** The [curl_cffi] session object, by what the package stores into it. The
    cookie jar and the header map are the transport library's; they are
    represented by the sequence of entries put into them, latest last. *)
Record Session := {
  ja3 : string;
  akamai : string;
  extra_fp : JA3Generator.extra_fp;
  cookies : list Cookie;
  headers : list (json * json);
}.

(** [requests.Session(ja3=, akamai=, extra_fp=)]. *)
Definition new_session (j a : string) (x : JA3Generator.extra_fp) : Session :=
  {| ja3 := j; akamai := a; extra_fp := x; cookies := []; headers := [] |}.

(** A session manager works on its session and on the file system. *)
Record Store := {
  _session : Session;
  disk : gmap string file;
}.

Definition cookies_set (c : Cookie) (st : Store) : Store :=
  let s := st.(_session) in
  {| _session := {| ja3 := s.(ja3); akamai := s.(akamai);
                    extra_fp := s.(extra_fp);
                    cookies := s.(cookies) ++ [c];
                    headers := s.(headers) |};
     disk := st.(disk) |}.

Definition headers_setitem (k v : json) (st : Store) : Store :=
  let s := st.(_session) in
  {| _session := {| ja3 := s.(ja3); akamai := s.(akamai);
                    extra_fp := s.(extra_fp);
                    cookies := s.(cookies);
                    headers := s.(headers) ++ [(k, v)] |};
     disk := st.(disk) |}.

(** [obj[key]] with a string key. *)
Definition subscript (obj : json) (key : string) : Eff Store json :=
  match obj with
  | JDict d => Py.getitem d key
  | _ => raise TypeError
  end.

(** [obj.get(key, dflt)]. *)
Definition dict_get (obj : json) (key : string) (dflt : json) : Eff Store json :=
  match obj with
  | JDict d => eff_ret (default dflt (Py.get d key))
  | _ => raise AttributeError
  end.

(** [obj.items()]. *)
Definition items (obj : json) : Eff Store (list (string * json)) :=
  match obj with
  | JDict d => eff_ret d
  | _ => raise AttributeError
  end.

(** [iter(obj)]: what a [for] loop over [obj] visits. *)
Definition iterate (obj : json) : Eff Store (list json) :=
  match obj with
  | JList l => eff_ret l
  | JDict d => eff_ret (JStr <$> d.*1)
  | JStr s => eff_ret ((λ a, JStr (String a EmptyString)) <$>
                       String.list_ascii_of_string s)
  | _ => raise TypeError
  end.

(** [for x in xs: body x]. *)
Fixpoint for_each {A} (xs : list A) (body : A → Eff Store unit)
    : Eff Store unit :=
  match xs with
  | [] => eff_ret tt
  | x :: xs' => body x ;;; for_each xs' body
  end.

(** [with path.open("r") as f: json.load(f)] on an existing path. *)
Definition json_load (f : file) : Eff Store json :=
  match f with
  | Malformed => raise JSONDecodeError
  | Document doc => eff_ret doc
  end.

(** The keyword arguments of [cookies.set] that both loaders read off a
    cookie record, after [name]. *)
Definition set_from (nm : json) (cookie_data : json) : Eff Store unit :=
  v <- subscript cookie_data "value" ;;
  d <- dict_get cookie_data "domain" (JStr EmptyString) ;;
  p <- dict_get cookie_data "path" (JStr "/") ;;
  s <- dict_get cookie_data "secure" (JBool false) ;;
  modify (cookies_set {| name := nm; value := v; domain := d;
                         path := p; secure := s |}).

Definition load_cookies (path : string) : Eff Store unit :=
  st <- get_state ;;
  match st.(disk) !! path with
  | None => (* Cookie file not found *) eff_ret tt
  | Some f =>
      cookies_dict <- json_load f ;;
      entries <- items cookies_dict ;;
      for_each entries (λ e, set_from (JStr e.1) e.2)
  end.

Definition import_session (path : string) : Eff Store unit :=
  st <- get_state ;;
  match st.(disk) !! path with
  | None => (* Session file not found *) eff_ret tt
  | Some f =>
      session_data <- json_load f ;;
      cookie_list <- dict_get session_data "cookies" (JList []) ;;
      cookie_list <- iterate cookie_list ;;
      for_each cookie_list
        (λ cookie_data,
           nm <- subscript cookie_data "name" ;;
           set_from nm cookie_data) ;;;
      hdrs <- dict_get session_data "headers" (JDict []) ;;
      hdrs <- items hdrs ;;
      for_each hdrs (λ kv, modify (headers_setitem (JStr kv.1) kv.2))
  end.

End SessionManager.

(** ** client.py *)

Module HTTPClient.
Import Retry.

Record t := {
  timeout : Z;
  randomize_per_request : bool;
  _platform : option string;
  _browser : option string;
  _browser_version : option Z;
  _profile : option FingerprintProfile.t;
  proxy_url : option string;
  _request_count : Z;
  _session : SessionManager.Session;
  _retry_config : RetryConfig;
}.

Definition set_profile (p : FingerprintProfile.t) (c : t) : t :=
  {| timeout := c.(timeout);
     randomize_per_request := c.(randomize_per_request);
     _platform := c.(_platform); _browser := c.(_browser);
     _browser_version := c.(_browser_version);
     _profile := Some p;
     proxy_url := c.(proxy_url);
     _request_count := c.(_request_count);
     _session := c.(_session);
     _retry_config := c.(_retry_config) |}.

Definition set_session (s : SessionManager.Session) (c : t) : t :=
  {| timeout := c.(timeout);
     randomize_per_request := c.(randomize_per_request);
     _platform := c.(_platform); _browser := c.(_browser);
     _browser_version := c.(_browser_version);
     _profile := c.(_profile);
     proxy_url := c.(proxy_url);
     _request_count := c.(_request_count);
     _session := s;
     _retry_config := c.(_retry_config) |}.

Definition set_request_count (n : Z) (c : t) : t :=
  {| timeout := c.(timeout);
     randomize_per_request := c.(randomize_per_request);
     _platform := c.(_platform); _browser := c.(_browser);
     _browser_version := c.(_browser_version);
     _profile := c.(_profile);
     proxy_url := c.(proxy_url);
     _request_count := n;
     _session := c.(_session);
     _retry_config := c.(_retry_config) |}.

(** The profile [_generate_profile] builds for the given selection. *)
Definition generate_profile (plat browser : option string) (ver : option Z)
    : Rand FingerprintProfile.t :=
  browser_info <- BrowserInfo.generate plat browser ver ;;
  j <- JA3Generator.generate browser_info.(BrowserInfo.version)
                             browser_info.(BrowserInfo.browser_type) ;;
  a <- AkamaiGenerator.generate browser_info.(BrowserInfo.browser_type) ;;
  x <- JA3Generator.get_extra_fp browser_info.(BrowserInfo.browser_type) ;;
  eff_ret {| FingerprintProfile.ja3 := j;
             FingerprintProfile.akamai := a;
             FingerprintProfile.extra_fp := x;
             FingerprintProfile.user_agent :=
               browser_info.(BrowserInfo.user_agent);
             FingerprintProfile.sec_ch_ua :=
               browser_info.(BrowserInfo.sec_ch_ua);
             FingerprintProfile.sec_ch_ua_mobile :=
               Some browser_info.(BrowserInfo.sec_ch_ua_mobile);
             FingerprintProfile.sec_ch_ua_platform :=
               Some (UserAgentGenerator.dq +:+ browser_info.(BrowserInfo.platform)
                     +:+ UserAgentGenerator.dq);
             FingerprintProfile.accept_language := None;
             FingerprintProfile.browser_type :=
               browser_info.(BrowserInfo.browser_type);
             FingerprintProfile.platform := browser_info.(BrowserInfo.platform);
             FingerprintProfile.mobile := browser_info.(BrowserInfo.mobile) |}.

Definition _generate_profile (self : t) : Rand FingerprintProfile.t :=
  generate_profile self.(_platform) self.(_browser) self.(_browser_version).

(** [HTTPClient(...)]; [proxy] is the proxy URL already resolved from the
    proxy configuration. *)
Definition __init__ (proxy : option string) (timeout_ : Z)
    (randomize_per_request_ : bool) (plat browser : option string)
    (browser_version : option Z) (retry_config : option RetryConfig) : Rand t :=
  p <- generate_profile plat browser browser_version ;;
  eff_ret {| timeout := timeout_;
             randomize_per_request := randomize_per_request_;
             _platform := plat; _browser := browser;
             _browser_version := browser_version;
             _profile := Some p;
             proxy_url := proxy;
             _request_count := 0;
             _session := SessionManager.new_session
                           p.(FingerprintProfile.ja3)
                           p.(FingerprintProfile.akamai)
                           p.(FingerprintProfile.extra_fp);
             _retry_config := default default_config retry_config |}.

(** A request as handed to [Session.request]. *)
Record Request := {
  method : string;
  url : string;
  headers : list (string * string);
  data : option string;
  json : option string;
  params : option string;
  proxy : option string;
  request_timeout : Z;
}.

Section Client.
(** The state of the network and the transport that executes a request
    on a session. *)
Context {U : Type}.
Variable transport : Request → Eff (SessionManager.Session * U) Response.

Record World := {
  self : t;
  entropy : rng;
  network : U;
}.

Definition set_self (c : t) (w : World) : World :=
  {| self := c; entropy := w.(entropy); network := w.(network) |}.
Definition set_entropy (r : rng) (w : World) : World :=
  {| self := w.(self); entropy := r; network := w.(network) |}.
Definition on_self (f : t → t) (w : World) : World :=
  set_self (f w.(self)) w.

(** The [profile] property. *)
Definition profile : Eff World FingerprintProfile.t :=
  w <- get_state ;;
  match w.(self).(_profile) with
  | Some p => eff_ret p
  | None =>
      p <- zoom entropy set_entropy (_generate_profile w.(self)) ;;
      modify (on_self (set_profile p)) ;;;
      eff_ret p
  end.

Definition randomize : Eff World FingerprintProfile.t :=
  w <- get_state ;;
  p <- zoom entropy set_entropy (_generate_profile w.(self)) ;;
  modify (on_self (set_profile p)) ;;;
  modify (on_self (set_session (SessionManager.new_session
                                  p.(FingerprintProfile.ja3)
                                  p.(FingerprintProfile.akamai)
                                  p.(FingerprintProfile.extra_fp)))) ;;;
  eff_ret p.

Definition _get_headers (extra_headers : option (list (string * string)))
    (request_type : string) : Eff World (list (string * string)) :=
  let headers : list (string * string) := [] in
  let is_navigate := bool_decide (request_type = "navigate") in
  p <- profile ;;
  let is_brave := bool_decide (p.(FingerprintProfile.browser_type) = "brave") in
  w <- get_state ;;
  let is_first_request := bool_decide (w.(self).(_request_count) = 0) in
  let headers :=
    Py.set headers "accept"
      (if is_navigate
       then "text/html,application/xhtml+xml,application/xml;q=0.9," +:+
            "image/avif,image/webp,image/apng,*/*;q=0.8," +:+
            "application/signed-exchange;v=b3;q=0.7"
       else "*/*") in
  let headers := Py.set headers "accept-language" "en-US,en;q=0.9" in
  let headers := Py.set headers "accept-encoding" "gzip, deflate, br, zstd" in
  let headers :=
    Py.set headers "cache-control"
      (if is_first_request then "no-cache" else "max-age=0") in
  let headers := Py.set headers "pragma" "no-cache" in
  let headers :=
    if is_brave
    then Py.set (Py.set headers "dnt" "1") "sec-gpc" "1"
    else headers in
  let headers :=
    Py.set headers "priority" (if is_navigate then "u=0, i" else "u=1, i") in
  let headers :=
    match p.(FingerprintProfile.sec_ch_ua) with
    | Some ((String _ _) as hints) =>
        let headers := Py.set headers "sec-ch-ua" hints in
        let headers :=
          Py.set headers "sec-ch-ua-mobile"
                 (if p.(FingerprintProfile.mobile) then "?1" else "?0") in
        Py.set headers "sec-ch-ua-platform"
               (UserAgentGenerator.dq +:+ p.(FingerprintProfile.platform)
                +:+ UserAgentGenerator.dq)
    | _ => headers
    end in
  let headers :=
    if is_navigate then
      let headers := Py.set headers "sec-fetch-dest" "document" in
      let headers := Py.set headers "sec-fetch-mode" "navigate" in
      let headers := Py.set headers "sec-fetch-site" "none" in
      Py.set headers "sec-fetch-user" "?1"
    else
      let headers := Py.set headers "sec-fetch-dest" "empty" in
      let headers := Py.set headers "sec-fetch-mode" "cors" in
      Py.set headers "sec-fetch-site" "same-site" in
  let headers :=
    if is_navigate then Py.set headers "upgrade-insecure-requests" "1"
    else headers in
  let headers := Py.set headers "user-agent" p.(FingerprintProfile.user_agent) in
  let headers :=
    match extra_headers with
    | Some ((_ :: _) as extra) => Py.update headers extra
    | _ => headers
    end in
  modify (on_self (λ c, set_request_count (c.(_request_count) + 1) c)) ;;;
  eff_ret headers.

(** [self._session.request(...)]: the transport works on the client's
    session and on the network. *)
Definition session_request (rq : Request) : Eff World Response :=
  zoom (λ w, (w.(self).(_session), w.(network)))
       (λ su w, {| self := set_session su.1 w.(self);
                   entropy := w.(entropy);
                   network := su.2 |})
       (transport rq).

Definition _make_request (method_ url_ : string)
    (headers_ : option (list (string * string)))
    (data_ json_ params_ : option string) (raw_headers : bool)
    (request_type : string) : Eff World Response :=
  w <- get_state ;;
  (if w.(self).(randomize_per_request)
   then randomize ;;; eff_ret tt else eff_ret tt) ;;;
  request_headers <-
    match raw_headers, headers_ with
    | true, Some ((_ :: _) as given) => eff_ret given
    | _, _ => _get_headers headers_ request_type
    end ;;
  w <- get_state ;;
  session_request {| method := method_; url := url_;
                     headers := request_headers;
                     data := data_; json := json_; params := params_;
                     proxy := w.(self).(proxy_url);
                     request_timeout := w.(self).(timeout) |}.

End Client.
Arguments World : clear implicits.

End HTTPClient.

(** ** config.py: [ProxyConfig], and the client's use of it *)

Module ProxyConfig.

Record t := {
  url : option string;
  username : option string;
  password : option string;
}.

(** [ProxyConfig()]: the defaults of the dataclass. *)
Definition empty : t := {| url := None; username := None; password := None |}.

(** [a or b] on optional strings: [a] when it is set and non-empty. *)
Definition or_else (a b : option string) : option string :=
  if UserAgentGenerator.truthy a then a else b.

(** The longest prefix of [s] whose characters satisfy [P], and the rest:
    what a greedy character class with [+] consumes first. *)
Fixpoint span (P : ascii → bool) (s : string) : string * string :=
  match s with
  | String a s' =>
      if P a then let '(x, y) := span P s' in (String a x, y)
      else (EmptyString, s)
  | EmptyString => (EmptyString, EmptyString)
  end.

Definition colon : ascii := ":"%char.
Definition at_sign : ascii := "@"%char.
Definition newline : ascii := ascii_of_nat 10.

(** [(https?://)?] taken: the scheme at the head of [s] and what follows. *)
Definition scheme (s : string) : option (string * string) :=
  match BrowserInfo.strip_prefix "https://" s with
  | Some rest => Some ("https://", rest)
  | None =>
      match BrowserInfo.strip_prefix "http://" s with
      | Some rest => Some ("http://", rest)
      | None => None
      end
  end.

(** [(?:([^:]+):([^@]+)@)] at the head of [s]: user name, password and what
    follows.  A run shorter than the longest one is followed by a character
    of the class, so only the longest run can be followed by the
    delimiter. *)
Definition credentials (s : string) : option (string * string * string) :=
  match span (λ a, negb (Ascii.eqb a colon)) s with
  | (String _ _ as user, String _ after_colon) =>
      match span (λ a, negb (Ascii.eqb a at_sign)) after_colon with
      | (String _ _ as pass, String _ after_at) => Some (user, pass, after_at)
      | _ => None
      end
  | _ => None
  end.

(** [(.+)$] on [s]: a non-empty run without a newline, up to the end of
    the string or to a newline that ends it. *)
Definition host_to_end (s : string) : option string :=
  match span (λ a, negb (Ascii.eqb a newline)) s with
  | (String _ _ as host, rest) =>
      if bool_decide (rest = EmptyString)
         || bool_decide (rest = String newline EmptyString)
      then Some host else None
  | _ => None
  end.

(** The groups of the pattern after its first group has been decided:
    the credentials are tried first, then left out. *)
Definition rest_groups (protocol : option string) (s : string)
    : option (option string * option string * option string * string) :=
  let without := (λ host, (protocol, None, None, host)) <$> host_to_end s in
  match credentials s with
  | Some (user, pass, after_at) =>
      match host_to_end after_at with
      | Some host => Some (protocol, Some user, Some pass, host)
      | None => without
      end
  | None => without
  end.

(** [re.match(r"^(https?://)?(?:([^:]+):([^@]+)@)?(.+)$", s).groups()]:
    the scheme is tried first, then left out. *)
Definition re_match (s : string)
    : option (option string * option string * option string * string) :=
  match scheme s with
  | Some (protocol, rest) =>
      match rest_groups (Some protocol) rest with
      | Some groups => Some groups
      | None => rest_groups None s
      end
  | None => rest_groups None s
  end.

(** The process environment is a map: [os.environ.get(name)] is a lookup. *)
Definition from_env (env : gmap string string) : t :=
  let proxy_url :=
    or_else (env !! "HTTPS_PROXY")
      (or_else (env !! "HTTP_PROXY")
         (or_else (env !! "https_proxy") (env !! "http_proxy"))) in
  match proxy_url with
  | Some ((String _ _) as proxy_url) =>
      match re_match proxy_url with
      | Some (protocol, user, pass, host) =>
          let protocol := default "http://" protocol in
          {| url := Some (protocol +:+ host);
             username := user;
             password := pass |}
      | None => {| url := Some proxy_url; username := None; password := None |}
      end
  | _ => empty
  end.

(** [s.split(sep, 1)] when [sep] occurs in [s]: the text before its first
    occurrence and the text after it. *)
Fixpoint split_once (sep s : string) : option (string * string) :=
  match BrowserInfo.strip_prefix sep s with
  | Some rest => Some (EmptyString, rest)
  | None =>
      match s with
      | String a s' =>
          match split_once sep s' with
          | Some (x, y) => Some (String a x, y)
          | None => None
          end
      | EmptyString => None
      end
  end.

Definition get_proxies_dict (self : t) : list (string * string) :=
  match self.(url) with
  | Some ((String _ _) as u) =>
      let proxy_url :=
        if UserAgentGenerator.truthy self.(username)
           && UserAgentGenerator.truthy self.(password)
        then
          let user := default EmptyString self.(username) in
          let pass := default EmptyString self.(password) in
          match split_once "://" u with
          | Some (protocol, rest) =>
              protocol +:+ "://" +:+ user +:+ ":" +:+ pass +:+ "@" +:+ rest
          | None => "http://" +:+ user +:+ ":" +:+ pass +:+ "@" +:+ u
          end
        else u in
      Py.set (Py.set [] "http" proxy_url) "https" proxy_url
  | _ => []
  end.

(** [HTTPClient._get_proxy_url], on [self.proxy_config]. *)
Definition _get_proxy_url (proxy_config : t) : option string :=
  let proxies := get_proxies_dict proxy_config in
  match proxies with
  | _ :: _ => Py.get proxies "http"
  | [] => None
  end.

(** [proxy_config or ProxyConfig.from_env()] followed by
    [_get_proxy_url()], as [HTTPClient.__init__] resolves its proxy; an
    instance of the dataclass is true in a boolean context. *)
Definition resolve (proxy_config : option t) (env : gmap string string)
    : option string :=
  _get_proxy_url (default (from_env env) proxy_config).

End ProxyConfig.

(** ** client.py: the static helper [HTTPClient._extract_between] *)

Module Extract.

(** [s.find(sub, start)], with [None] for -1: the library's [index] scans
    from [start] for the first position where [sub] begins. *)
Definition find (s sub : string) (start : nat) : option nat :=
  String.index start sub s.

(** [s[a:b]] for [a <= b]. *)
Definition slice (s : string) (a b : nat) : string :=
  String.substring a (b - a) s.

(** [s.replace(c, "")] for a one-character [c]. *)
Fixpoint remove_char (c : ascii) (s : string) : string :=
  match s with
  | EmptyString => EmptyString
  | String a s' =>
      if Ascii.eqb a c then remove_char c s' else String a (remove_char c s')
  end.

(** On strings no step of the body raises, so the handler of the
    [try] is not entered. *)
Definition _extract_between (text start_text end_text : string)
    : option string :=
  match find text start_text 0 with
  | None => None
  | Some start_index =>
      let start_index := (start_index + String.length start_text)%nat in
      match find text end_text start_index with
      | None => None
      | Some end_index =>
          let result := slice text start_index end_index in
          Some (remove_char ProxyConfig.newline (remove_char " " result))
      end
  end.

End Extract.

(** * Notions used in the statements *)

(** The extension ids that enter the permutation for a version. *)
Definition ja3_extensions (version : Z) : list string :=
  JA3Generator.BASE_EXTENSIONS ++
  (if bool_decide (version >= 117) then [JA3Generator.ECH_EXTENSION] else []).

(** The curve string selected for a version. *)
Definition ja3_curves (version : Z) : string :=
  if bool_decide (version >= 130) then "4588-29-23-24" else "29-23-24".

(** The id of the hybrid post-quantum group (X25519Kyber768). *)
Definition hybrid_group_id : string := "4588".

(** The serialisation at the end of [JA3Generator.generate], with its
    separators made explicit. *)
Definition ja3_string (exts : list string) (curves : string) : string :=
  JA3Generator.TLS_VERSION +:+ String ","
    (JA3Generator.CIPHERS +:+ String ","
      (Py.join "-" exts +:+ String ","
        (curves +:+ String "," JA3Generator.EC_POINT_FORMATS))).

(** The settings triplet of Safari. *)
Definition safari_settings : string := "1:4096;4:4194304;6:262144".

(** The identity [BrowserInfo.generate] builds from a catalogued profile. *)
Definition browser_info_of (p : UserAgentGenerator.UserAgentInfo) : BrowserInfo.t :=
  let bt := BrowserInfo._detect_browser_type
              p.(UserAgentGenerator.ua) p.(UserAgentGenerator.sec_ch_ua) in
  {| BrowserInfo.version := BrowserInfo._extract_version p.(UserAgentGenerator.ua) bt;
     BrowserInfo.browser_type := bt;
     BrowserInfo.user_agent := p.(UserAgentGenerator.ua);
     BrowserInfo.sec_ch_ua := p.(UserAgentGenerator.sec_ch_ua);
     BrowserInfo.sec_ch_ua_mobile :=
       if p.(UserAgentGenerator.mobile) then "?1" else "?0";
     BrowserInfo.platform := p.(UserAgentGenerator.platform);
     BrowserInfo.mobile := p.(UserAgentGenerator.mobile) |}.

(** What the caller's overrides say about a header name. *)
Definition overrides (extra_headers : option (list (string * string)))
    (name : string) : option string :=
  match extra_headers with
  | Some extra => Py.get extra name
  | None => None
  end.

(** The entry the composer itself writes for [cache-control]. *)
Definition own_cache_control (count : Z) : string :=
  if bool_decide (count = 0) then "no-cache" else "max-age=0".

(** A run of header compositions on one client, one per entry of [requests]
    (overrides and request type), collecting the composed header sets. *)
Fixpoint compose_all {U} (requests : list (option (list (string * string)) * string))
    : Eff (HTTPClient.World U) (list (list (string * string))) :=
  match requests with
  | [] => eff_ret []
  | rq :: rest =>
      hs <- HTTPClient._get_headers rq.1 rq.2 ;;
      hss <- compose_all rest ;;
      eff_ret (hs :: hss)
  end.

(** The [cache-control] entry of a composed header set, if the composition
    returned one. *)
Definition cache_control_of {S} (run : res (list (string * string)) * S)
    : option string :=
  match run.1 with
  | Ok hs => Py.get hs "cache-control"
  | Raise _ => None
  end.

(** * Sample inputs *)

(** A request function over a call counter that answers 503 every time, the
    body of the response telling the calls apart. *)
Definition always_503 : Eff nat Retry.Response :=
  λ n, (Ok {| Retry.status_code := 503; Retry.text := Py.str_of_int (Z.of_nat n) |},
        S n).

(** A request function that fails every time with an exception that is not
    a timeout. *)
Definition always_value_error : Eff nat Retry.Response :=
  λ n, (Raise ValueError, S n).

(** [RetryConfig(max_retries=2, backoff_factor=0.1)], as in the test
    fixtures. *)
Definition two_retries : Retry.RetryConfig :=
  {| Retry.max_retries := 2;
     Retry.backoff_factor := 1 # 10;
     Retry.retry_on_status := [429; 500; 502; 503; 504];
     Retry.retry_on_timeout := true;
     Retry.jitter := true |}.

(** The same policy with the timeout-retry flag off. *)
Definition two_retries_no_timeout : Retry.RetryConfig :=
  {| Retry.max_retries := 2;
     Retry.backoff_factor := 1 # 10;
     Retry.retry_on_status := [429; 500; 502; 503; 504];
     Retry.retry_on_timeout := false;
     Retry.jitter := true |}.

Definition fresh_world : Retry.World nat :=
  {| Retry.entropy := [7%N; 11%N]; Retry.slept := [];
     Retry.calls := 0; Retry.user := 0%nat |}.

(** The profile and the client that
    [HTTPClient(platform="Windows", browser="chrome")] builds when every draw
    of the generator is 0. *)
Definition sample_profile : FingerprintProfile.t :=
  {| FingerprintProfile.ja3 :=
       "771,4865-4866-4867-49195-49199-49196-49200-52393-52392-49171-49172-156-157-47-53,5-10-11-13-16-18-23-27-35-43-45-51-65037-65281-17613-0,4588-29-23-24,0";
     FingerprintProfile.akamai := "1:65536;2:0;3:100;4:6291456;6:262144|15663105|0|m,a,s,p";
     FingerprintProfile.extra_fp :=
       {| JA3Generator.tls_signature_algorithms :=
            JA3Generator.chromium_signature_algorithms;
          JA3Generator.tls_grease := true;
          JA3Generator.tls_permute_extensions := false;
          JA3Generator.tls_cert_compression := "brotli";
          JA3Generator.http2_stream_weight := 220;
          JA3Generator.http2_stream_exclusive := 1 |};
     FingerprintProfile.user_agent :=
       "Mozilla/5.0 (Windows NT 10.0; Win64; x64) AppleWebKit/537.36 (KHTML, like Gecko) Chrome/144.0.0.0 Safari/537.36";
     FingerprintProfile.sec_ch_ua := Some UserAgentGenerator.chrome_144;
     FingerprintProfile.sec_ch_ua_mobile := Some "?0";
     FingerprintProfile.sec_ch_ua_platform :=
       Some (UserAgentGenerator.dq +:+ "Windows" +:+ UserAgentGenerator.dq);
     FingerprintProfile.accept_language := None;
     FingerprintProfile.browser_type := "chrome";
     FingerprintProfile.platform := "Windows";
     FingerprintProfile.mobile := false |}.

Definition sample_session : SessionManager.Session :=
  SessionManager.new_session sample_profile.(FingerprintProfile.ja3) sample_profile.(FingerprintProfile.akamai)
    sample_profile.(FingerprintProfile.extra_fp).

Definition sample_client : HTTPClient.t :=
  {| HTTPClient.timeout := 30;
     HTTPClient.randomize_per_request := false;
     HTTPClient._platform := Some "Windows";
     HTTPClient._browser := Some "chrome";
     HTTPClient._browser_version := None;
     HTTPClient._profile := Some sample_profile;
     HTTPClient.proxy_url := None;
     HTTPClient._request_count := 0;
     HTTPClient._session := sample_session;
     HTTPClient._retry_config := Retry.default_config |}.

(** The client in a world whose generator keeps drawing 0 and that has no
    network state. *)
Definition sample_world : HTTPClient.World unit :=
  {| HTTPClient.self := sample_client;
     HTTPClient.entropy := [];
     HTTPClient.network := tt |}.

(** A transport that is offline. *)
Definition offline : HTTPClient.Request → Eff (SessionManager.Session * unit) Retry.Response :=
  λ _, raise (RequestsError "ConnectionError").


(** * Further notions *)

(** The state of a request function after [n] calls from state [u]. *)
Fixpoint after_calls {U A} (f : Eff U A) (u : U) (n : nat) : U :=
  match n with
  | O => u
  | S n' => after_calls f (f u).2 n'
  end.


(** The world of a retry loop after a pass that entered the request function
    (leaving it in state [u']), slept [delay] and left the generator at
    [r']. *)
Definition after_pass {U} (u' : U) (delay : Q) (r' : rng) (w : Retry.World U)
    : Retry.World U :=
  Retry.add_sleep delay (Retry.set_entropy r' (Retry.set_user u' (Retry.count_call w))).



(** A request function that answers 404 every time. *)
Definition always_404 : Eff nat Retry.Response :=
  λ n, (Ok {| Retry.status_code := 404; Retry.text := "not found" |}, S n).

(** The profiles [UserAgentGenerator.get_random] chooses among. *)
Definition random_pool (plat : option string)
    : list UserAgentGenerator.UserAgentInfo :=
  match (if UserAgentGenerator.truthy plat
         then filter (λ p, Some p.(UserAgentGenerator.platform) = plat)
                     UserAgentGenerator.PROFILES
         else []) with
  | [] => UserAgentGenerator.PROFILES
  | l => l
  end.

(** The profiles a selector chooses among, its own candidates being [l]. *)
Definition pool_or_random (l : list UserAgentGenerator.UserAgentInfo)
    (plat : option string) : list UserAgentGenerator.UserAgentInfo :=
  match l with
  | [] => random_pool plat
  | _ => l
  end.

(** The platforms and the browsers of the catalogue. *)
Definition known_platforms : list string := ["Windows"; "macOS"; "iOS"; "Android"].
Definition known_browsers : list string := ["chrome"; "brave"; "edge"; "safari"].

(** The browser type [BrowserInfo] reads off a catalogued profile. *)
Definition classified (p : UserAgentGenerator.UserAgentInfo) : string :=
  BrowserInfo._detect_browser_type
    p.(UserAgentGenerator.ua) p.(UserAgentGenerator.sec_ch_ua).

(** The environment variables [ProxyConfig.from_env] reads, in the order in
    which it reads them. *)
Definition proxy_variables : list string :=
  ["HTTPS_PROXY"; "HTTP_PROXY"; "https_proxy"; "http_proxy"].

(** A proxy URL with embedded credentials. *)
Definition proxy_url_with_credentials (scheme user pass host : string) : string :=
  scheme +:+ user +:+ String ":" (pass +:+ String "@" host).










(** * Properties *)

(** ** The effect monad *)

Lemma eff_bind_ok {S A B} (m : Eff S A) (k : A → Eff S B) s a s' :
  m s = (Ok a, s') → eff_bind m k s = k a s'.
Proof. unfold eff_bind. by intros ->. Qed.

Lemma eff_bind_raise {S A B} (m : Eff S A) (k : A → Eff S B) s e s' :
  m s = (Raise e, s') → eff_bind m k s = (Raise e, s').
Proof. unfold eff_bind. by intros ->. Qed.

(** ** Strings *)

Section StringFacts.
Implicit Types (c : ascii) (s x : string) (l : list string).

Lemma free_of_app c x s :
  Py.free_of c (x +:+ s) = Py.free_of c x && Py.free_of c s.
Proof.
  induction x as [|a x IH]; simpl; [done|].
  rewrite IH. by rewrite andb_assoc.
Qed.

Lemma split_free c s : Py.free_of c s = true → Py.split c s = [s].
Proof.
  induction s as [|a s IH]; simpl; [done|].
  intros [Ha Hs]%andb_true_iff. apply negb_true_iff in Ha.
  by rewrite Ha, IH.
Qed.

Lemma split_app c x s :
  Py.free_of c x = true → Py.split c (x +:+ String c s) = x :: Py.split c s.
Proof.
  induction x as [|a x IH]; simpl.
  - intros _. by rewrite Ascii.eqb_refl.
  - intros [Ha Hx]%andb_true_iff. apply negb_true_iff in Ha.
    by rewrite Ha, IH.
Qed.

Lemma split_join c l :
  l ≠ [] → Forall (λ s, Py.free_of c s = true) l →
  Py.split c (Py.join (String c "") l) = l.
Proof.
  induction l as [|p [|q l] IH]; [done| |]; intros _ Hl.
  - simpl. apply split_free. by inversion Hl.
  - inversion Hl as [|? ? Hp Hl']; subst.
    change (Py.join (String c "") (p :: q :: l))
      with (p +:+ String c (Py.join (String c "") (q :: l))).
    rewrite split_app by done. f_equal. by apply IH.
Qed.

Lemma free_of_join c sep l :
  Py.free_of c sep = true → Forall (λ s, Py.free_of c s = true) l →
  Py.free_of c (Py.join sep l) = true.
Proof.
  intros Hsep. induction l as [|p [|q l] IH]; intros Hl; [done| |].
  - by inversion Hl.
  - inversion Hl as [|? ? Hp Hl']; subst.
    change (Py.join sep (p :: q :: l))
      with (p +:+ sep +:+ Py.join sep (q :: l)).
    rewrite !free_of_app, Hp, Hsep. simpl. by apply IH.
Qed.
End StringFacts.

(** ** The generator *)

Lemma randbelow_spec n r :
  (0 < n)%nat → ∃ j r', randbelow n r = (Ok j, r') ∧ (j < n)%nat.
Proof.
  intros Hn. unfold randbelow, eff_bind, draw, eff_ret.
  destruct r as [|d r]; eexists _, _; (split; [reflexivity|]).
  - rewrite N.Div0.mod_0_l. simpl. lia.
  - assert (d mod N.of_nat n < N.of_nat n)%N by (apply N.mod_lt; lia). lia.
Qed.

Lemma swap_Permutation {A} (x : list A) i j : swap x i j ≡ₚ x.
Proof.
  unfold swap. destruct (x !! i) as [a|] eqn:Hi; [|done].
  destruct (x !! j) as [b|] eqn:Hj; [|done].
  by apply Permutation_insert_swap.
Qed.

Lemma swap_length {A} (x : list A) i j : length (swap x i j) = length x.
Proof. apply Permutation_length, swap_Permutation. Qed.

Lemma shuffle_from_spec {A} i (x : list A) r :
  ∃ y r', shuffle_from i x r = (Ok y, r') ∧ y ≡ₚ x.
Proof.
  revert x r. induction i as [|i IH]; intros x r; simpl.
  - by eexists _, _.
  - destruct (randbelow_spec (S (S i)) r) as (j & r1 & Hj & _); [lia|].
    unfold eff_bind at 1. rewrite Hj.
    destruct (IH (swap x (S i) j) r1) as (y & r' & Hy & Hp).
    exists y, r'. split; [done|]. by rewrite Hp, swap_Permutation.
Qed.

Lemma shuffle_spec {A} (x : list A) r :
  ∃ y r', shuffle x r = (Ok y, r') ∧ y ≡ₚ x.
Proof. apply shuffle_from_spec. Qed.

(** ** JA3 *)

Lemma ja3_extensions_free c :
  c = ","%char ∨ c = "-"%char →
  ∀ version, Forall (λ s, Py.free_of c s = true) (ja3_extensions version).
Proof.
  intros Hc version. unfold ja3_extensions.
  case_bool_decide; destruct Hc as [-> | ->];
    repeat (constructor; [reflexivity|]); constructor.
Qed.

Lemma ja3_generate_shape version browser_type r :
  ∃ exts r',
    exts ≡ₚ ja3_extensions version ∧
    JA3Generator.generate version browser_type r =
      (Ok (ja3_string exts (ja3_curves version)), r').
Proof.
  unfold JA3Generator.generate, JA3Generator._permute_extensions.
  assert ((if bool_decide (version >= 117)
           then JA3Generator.BASE_EXTENSIONS ++ [JA3Generator.ECH_EXTENSION]
           else JA3Generator.BASE_EXTENSIONS) = ja3_extensions version) as ->.
  { unfold ja3_extensions. case_bool_decide; [done|]. by rewrite app_nil_r. }
  destruct (shuffle_spec (ja3_extensions version) r) as (exts & r' & Hs & Hp).
  exists exts, r'. split; [done|].
  unfold eff_bind at 1. rewrite Hs.
  unfold ja3_curves. case_bool_decide; reflexivity.
Qed.

Lemma ja3_fields exts curves :
  Forall (λ s, Py.free_of "," s = true) exts →
  Py.free_of "," curves = true →
  JA3Generator.fields (ja3_string exts curves)
  = ["771"; JA3Generator.CIPHERS; Py.join "-" exts; curves; "0"].
Proof.
  intros Hfree Hcurves. unfold JA3Generator.fields, ja3_string.
  rewrite split_app by reflexivity. f_equal.
  rewrite split_app by reflexivity. f_equal.
  rewrite split_app by (by apply free_of_join). f_equal.
  by rewrite split_app.
Qed.

Lemma ja3_curves_free version : Py.free_of "," (ja3_curves version) = true.
Proof. unfold ja3_curves. by case_bool_decide. Qed.

(** C3: for every version, browser type and state of the generator,
    [generate] returns a JA3 string whose extension field is a permutation of
    the base extension ids, with the ECH id added exactly when
    [version >= 117]; no id occurs twice and none is missing. *)
Theorem ja3_extension_field_permutation version browser_type r :
  ∃ ja3 r',
    JA3Generator.generate version browser_type r = (Ok ja3, r') ∧
    JA3Generator.extension_field ja3 ≡ₚ
      JA3Generator.BASE_EXTENSIONS ++
      (if bool_decide (version >= 117) then [JA3Generator.ECH_EXTENSION] else []) ∧
    NoDup (JA3Generator.extension_field ja3) ∧
    length (JA3Generator.extension_field ja3) =
      (if bool_decide (version >= 117) then 16%nat else 15%nat).
Proof.
  destruct (ja3_generate_shape version browser_type r) as (exts & r' & Hp & Hg).
  exists (ja3_string exts (ja3_curves version)), r'. split; [done|].
  assert (JA3Generator.extension_field (ja3_string exts (ja3_curves version)) = exts)
    as ->.
  { unfold JA3Generator.extension_field.
    rewrite ja3_fields.
    - simpl. apply split_join.
      + intros ->. apply Permutation_nil_l in Hp. unfold ja3_extensions in Hp.
        by case_bool_decide.
      + rewrite Hp. apply ja3_extensions_free. by right.
    - rewrite Hp. apply ja3_extensions_free. by left.
    - apply ja3_curves_free. }
  split; [done|]. split.
  - rewrite Hp. unfold ja3_extensions.
    case_bool_decide; simpl; (eapply bool_decide_unpack; vm_compute; exact I).
  - rewrite Hp. unfold ja3_extensions. by case_bool_decide.
Qed.

(** C8: for every version, browser type and state of the generator, the curve
    field of the generated JA3 string contains the hybrid group id exactly
    when [version >= 130]: from 130 on it is the hybrid group followed by the
    classic curves, below 130 it is the classic curves only. *)
Theorem ja3_curve_field_hybrid version browser_type r :
  ∃ ja3 r',
    JA3Generator.generate version browser_type r = (Ok ja3, r') ∧
    (hybrid_group_id ∈ JA3Generator.curve_field ja3 ↔ version >= 130) ∧
    JA3Generator.curve_field ja3 =
      if bool_decide (version >= 130)
      then [hybrid_group_id; "29"; "23"; "24"]
      else ["29"; "23"; "24"].
Proof.
  destruct (ja3_generate_shape version browser_type r) as (exts & r' & Hp & Hg).
  exists (ja3_string exts (ja3_curves version)), r'. split; [done|].
  assert (JA3Generator.curve_field (ja3_string exts (ja3_curves version))
          = Py.split "-" (ja3_curves version)) as ->.
  { unfold JA3Generator.curve_field. rewrite ja3_fields; [done| |].
    - rewrite Hp. apply ja3_extensions_free. by left.
    - apply ja3_curves_free. }
  unfold ja3_curves. case_bool_decide as Hv.
  - split; [|done].
    split; [done|]. intros _. vm_compute. apply list_elem_of_here.
  - split; [|done].
    split; [|done]. intros Hin. vm_compute in Hin.
    apply list_elem_of_In in Hin. simpl in Hin.
    repeat destruct Hin as [Hin|Hin]; try discriminate Hin; done.
Qed.

Lemma ja3_curve_field_hybrid_witness :
  (∃ ja3 r', JA3Generator.generate 143 "chrome" [3%N; 7%N] = (Ok ja3, r') ∧
             hybrid_group_id ∈ JA3Generator.curve_field ja3) ∧
  (∃ ja3 r', JA3Generator.generate 129 "chrome" [3%N; 7%N] = (Ok ja3, r') ∧
             hybrid_group_id ∉ JA3Generator.curve_field ja3).
Proof.
  split.
  - destruct (ja3_curve_field_hybrid 143 "chrome" [3%N; 7%N])
      as (ja3 & r' & Hg & [_ Hin] & _).
    exists ja3, r'. split; [exact Hg|]. apply Hin. lia.
  - destruct (ja3_curve_field_hybrid 129 "chrome" [3%N; 7%N])
      as (ja3 & r' & Hg & [Hout _] & _).
    exists ja3, r'. split; [exact Hg|]. intros Hin. apply Hout in Hin. lia.
Defined.

(** ** Choices *)

Lemma choice_spec {A} (seq : list A) r :
  seq ≠ [] → ∃ a r', choice seq r = (Ok a, r') ∧ a ∈ seq.
Proof.
  intros Hne. destruct seq as [|a0 seq]; [done|].
  unfold choice.
  destruct (randbelow_spec (length (a0 :: seq)) r) as (i & r' & Hi & Hlt);
    [simpl; lia|].
  unfold eff_bind. rewrite Hi.
  destruct (lookup_lt_is_Some_2 (a0 :: seq) i Hlt) as [a Ha].
  rewrite Ha. exists a, r'. split; [done|].
  by eapply list_elem_of_lookup_2.
Qed.

Lemma random_spec r :
  ∃ k r', random r = (Ok (k # 2 ^ 53), r') ∧ 0 <= k < 2 ^ 53.
Proof.
  unfold random, eff_bind, draw, eff_ret.
  destruct r as [|d r]; eexists _, _; (split; [reflexivity|]).
  - done.
  - pose proof (N.mod_lt d (2 ^ 53) ltac:(done)) as Hlt.
    apply N2Z.inj_lt in Hlt. split; [apply N2Z.is_nonneg|exact Hlt].
Qed.

(** ** Akamai *)

Lemma akamai_safari_settings r :
  AkamaiGenerator._generate_settings "safari" r = (Ok safari_settings, r).
Proof. reflexivity. Qed.

Lemma akamai_safari_shape r :
  ∃ window_update priority pseudo_order r',
    window_update ∈ AkamaiGenerator.WINDOW_UPDATE_VALUES ∧
    priority ∈ AkamaiGenerator.PRIORITY_VALUES ∧
    pseudo_order ∈ AkamaiGenerator.PSEUDO_HEADER_ORDERS ∧
    AkamaiGenerator.generate "safari" r =
      (Ok (safari_settings +:+ String "|"
             (Py.str_of_int window_update +:+ "|" +:+ priority +:+ "|" +:+
              pseudo_order)), r').
Proof.
  unfold AkamaiGenerator.generate.
  destruct (choice_spec AkamaiGenerator.WINDOW_UPDATE_VALUES r)
    as (wu & r1 & H1 & Hwu); [done|].
  destruct (choice_spec AkamaiGenerator.PRIORITY_VALUES r1)
    as (pr & r2 & H2 & Hpr); [done|].
  destruct (choice_spec AkamaiGenerator.PSEUDO_HEADER_ORDERS r2)
    as (po & r3 & H3 & Hpo); [done|].
  exists wu, pr, po, r3. repeat (split; [done|]).
  unfold eff_bind at 1. rewrite akamai_safari_settings.
  unfold eff_bind at 1. rewrite H1.
  unfold eff_bind at 1. rewrite H2.
  unfold eff_bind at 1. rewrite H3.
  reflexivity.
Qed.

(** C1, as the specification states it, fails: two states of the generator
    give two different JA3 strings for safari, and two different Akamai
    strings. *)
Lemma safari_fingerprints_vary :
  (JA3Generator.generate 18 "safari" []).1 ≠
    (JA3Generator.generate 18 "safari" [1%N]).1 ∧
  (AkamaiGenerator.generate "safari" []).1 ≠
    (AkamaiGenerator.generate "safari" [1%N]).1.
Proof. split; vm_compute; intros [=]. Qed.

(** C1, amended: for safari the settings field of the Akamai string is a fixed
    constant, produced without touching the generator, whatever its state;
    the JA3 string is the one [generate] produces for any other browser type
    from the same version and generator state, its extension field being a
    permutation driven by the generator. *)
Theorem safari_fixed_settings_generic_ja3 version browser_type r :
  AkamaiGenerator._generate_settings "safari" r = (Ok safari_settings, r) ∧
  (∃ akamai r',
     AkamaiGenerator.generate "safari" r = (Ok akamai, r') ∧
     AkamaiGenerator.settings_field akamai = safari_settings) ∧
  JA3Generator.generate version "safari" r =
    JA3Generator.generate version browser_type r ∧
  (∃ exts r',
     JA3Generator._permute_extensions (ja3_extensions version) r = (Ok exts, r') ∧
     JA3Generator.generate version "safari" r =
       (Ok (ja3_string exts (ja3_curves version)), r')).
Proof.
  split; [apply akamai_safari_settings|]. split; [|split].
  - destruct (akamai_safari_shape r) as (wu & pr & po & r' & _ & _ & _ & Hg).
    eexists _, r'. split; [exact Hg|].
    unfold AkamaiGenerator.settings_field, AkamaiGenerator.fields.
    by rewrite split_app.
  - reflexivity.
  - unfold JA3Generator.generate.
    assert ((if bool_decide (version >= 117)
             then JA3Generator.BASE_EXTENSIONS ++ [JA3Generator.ECH_EXTENSION]
             else JA3Generator.BASE_EXTENSIONS) = ja3_extensions version) as ->.
    { unfold ja3_extensions. case_bool_decide; [done|]. by rewrite app_nil_r. }
    destruct (shuffle_spec (ja3_extensions version) r) as (exts & r' & Hs & Hp).
    exists exts, r'. split; [exact Hs|].
    unfold eff_bind at 1. unfold JA3Generator._permute_extensions. rewrite Hs.
    unfold ja3_curves. case_bool_decide; reflexivity.
Qed.

(** ** Identity selection always delivers a catalogued profile *)

Import UserAgentGenerator.

Lemma bisect_le a x hi : (bisect a x hi <= hi)%nat.
Proof.
  unfold bisect. etrans; [apply length_filter|].
  rewrite length_take. lia.
Qed.

Lemma length_accumulate acc weights :
  length (accumulate acc weights) = length weights.
Proof.
  revert acc. induction weights as [|q qs IH]; intros acc; simpl; [done|].
  by rewrite IH.
Qed.

Lemma choices1_spec {A} (population : list A) weights r :
  length weights = length population →
  Qle_bool (default 0%Q (last (accumulate 0 weights))) 0 = false →
  ∃ a r', choices1 population weights r = (Ok a, r') ∧ a ∈ population.
Proof.
  intros Hlen Htotal. unfold choices1.
  cbv zeta. rewrite length_accumulate, Hlen, Nat.eqb_refl, Htotal. cbn [negb].
  destruct (random_spec r) as (k & r' & Hr & _).
  erewrite eff_bind_ok by exact Hr.
  set (i := bisect _ _ _).
  assert (i < length population)%nat as Hi.
  { pose proof (bisect_le (accumulate 0 weights)
                  ((k # 2 ^ 53) * default 0%Q (last (accumulate 0 weights)))
                  (length population - 1)).
    destruct population; simpl in *; [|unfold i; lia].
    destruct weights; [done|discriminate Hlen]. }
  destruct (lookup_lt_is_Some_2 _ _ Hi) as [a Ha]. rewrite Ha.
  exists a, r'. split; [done|]. by eapply list_elem_of_lookup_2.
Qed.

Lemma get_random_spec plat r :
  ∃ p r', get_random plat r = (Ok p, r') ∧ p ∈ PROFILES.
Proof.
  unfold get_random.
  destruct (if truthy plat then _ else _) as [|p0 l] eqn:Hf.
  - by apply choice_spec.
  - destruct (choice_spec (p0 :: l) r) as (p & r' & Hc & Hin); [done|].
    exists p, r'. split; [done|].
    destruct (truthy plat); [|done].
    rewrite <-Hf in Hin. by apply list_elem_of_filter in Hin as [_ ?].
Qed.

Lemma choice_or_random_spec l plat r :
  l ⊆ PROFILES →
  ∃ p r', choice_or_random l plat r = (Ok p, r') ∧ p ∈ PROFILES.
Proof.
  intros Hsub. destruct l as [|p0 l]; simpl.
  - apply get_random_spec.
  - destruct (choice_spec (p0 :: l) r) as (p & r' & Hc & Hin); [done|].
    exists p, r'. split; [done|]. by apply Hsub.
Qed.

Lemma filter_PROFILES (P : UserAgentInfo → Prop) `{∀ p, Decision (P p)} :
  filter P PROFILES ⊆ PROFILES.
Proof. intros p Hp. by apply list_elem_of_filter in Hp as [_ ?]. Qed.

Lemma get_weighted_random_spec r :
  ∃ p r', get_weighted_random r = (Ok p, r') ∧ p ∈ PROFILES.
Proof.
  unfold get_weighted_random.
  destruct (choices1_spec (PLATFORM_WEIGHTS.*1) (PLATFORM_WEIGHTS.*2) r)
    as (pl & r1 & Hc & _); [done|done|].
  unfold eff_bind. rewrite Hc. apply get_random_spec.
Qed.

Lemma by_browser_spec browser chrome plat r :
  (∀ r, ∃ p r', chrome r = (Ok p, r') ∧ p ∈ PROFILES) →
  ∃ p r', BrowserInfo.by_browser browser chrome plat r = (Ok p, r') ∧ p ∈ PROFILES.
Proof.
  intros Hchrome. unfold BrowserInfo.by_browser.
  repeat case_bool_decide; [done|..].
  - apply choice_or_random_spec, filter_PROFILES.
  - apply choice_or_random_spec, filter_PROFILES.
  - apply choice_or_random_spec, filter_PROFILES.
  - apply get_random_spec.
Qed.

Lemma browser_info_generate_spec plat browser ver r :
  ∃ p r', BrowserInfo.generate plat browser ver r = (Ok (browser_info_of p), r') ∧
          p ∈ PROFILES.
Proof.
  unfold BrowserInfo.generate.
  assert (∃ p r',
    match ver, browser, plat with
    | Some v, Some b, _ => BrowserInfo.by_browser b (get_version v plat) plat
    | _, Some b, _ => BrowserInfo.by_browser b (get_chrome plat) plat
    | _, None, Some _ => get_random plat
    | _, None, None => get_weighted_random
    end r = (Ok p, r') ∧ p ∈ PROFILES) as (p & r' & Hsel & Hin).
  { destruct ver as [v|], browser as [b|], plat as [pl|];
      first [ apply by_browser_spec; intros r0;
              apply choice_or_random_spec, filter_PROFILES
            | apply get_random_spec
            | apply get_weighted_random_spec ]. }
  exists p, r'. split; [|done].
  by erewrite eff_bind_ok by exact Hsel.
Qed.

(** ** The other generators return for every browser type *)

Lemma akamai_settings_total browser_type r :
  ∃ settings r', AkamaiGenerator._generate_settings browser_type r = (Ok settings, r').
Proof.
  unfold AkamaiGenerator._generate_settings.
  case_bool_decide; [by eexists _, _|].
  destruct (random_spec r) as (k & r1 & Hr & _).
  unfold eff_bind at 1. rewrite Hr.
  destruct (Qlt_le_dec _ _).
  - destruct (choice_spec [100; 200; 500; 1000] r1) as (n & r2 & Hc & _); [done|].
    unfold eff_bind. rewrite Hc. by eexists _, _.
  - by eexists _, _.
Qed.

Lemma akamai_generate_total browser_type r :
  ∃ akamai r', AkamaiGenerator.generate browser_type r = (Ok akamai, r').
Proof.
  unfold AkamaiGenerator.generate.
  destruct (akamai_settings_total browser_type r) as (s & r0 & H0).
  destruct (choice_spec AkamaiGenerator.WINDOW_UPDATE_VALUES r0)
    as (wu & r1 & H1 & _); [done|].
  destruct (choice_spec AkamaiGenerator.PRIORITY_VALUES r1)
    as (pr & r2 & H2 & _); [done|].
  destruct (choice_spec AkamaiGenerator.PSEUDO_HEADER_ORDERS r2)
    as (po & r3 & H3 & _); [done|].
  unfold eff_bind. rewrite H0, H1, H2, H3. by eexists _, _.
Qed.

Lemma get_extra_fp_total browser_type r :
  ∃ x r', JA3Generator.get_extra_fp browser_type r = (Ok x, r').
Proof.
  unfold JA3Generator.get_extra_fp.
  destruct (choice_spec [220; 230; 240; 250; 256] r) as (n & r1 & Hc & _); [done|].
  erewrite eff_bind_ok by reflexivity.
  erewrite eff_bind_ok by exact Hc.
  by eexists _, _.
Qed.

(** What [generate_profile] does, call by call. *)
Lemma generate_profile_spec plat browser ver r :
  ∃ info ja3 akamai x r1 r2 r3 r',
    BrowserInfo.generate plat browser ver r = (Ok info, r1) ∧
    JA3Generator.generate info.(BrowserInfo.version)
      info.(BrowserInfo.browser_type) r1 = (Ok ja3, r2) ∧
    AkamaiGenerator.generate info.(BrowserInfo.browser_type) r2 = (Ok akamai, r3) ∧
    JA3Generator.get_extra_fp info.(BrowserInfo.browser_type) r3 = (Ok x, r') ∧
    info.(BrowserInfo.browser_type) =
      BrowserInfo._detect_browser_type info.(BrowserInfo.user_agent)
        info.(BrowserInfo.sec_ch_ua) ∧
    HTTPClient.generate_profile plat browser ver r =
      (Ok {| FingerprintProfile.ja3 := ja3;
             FingerprintProfile.akamai := akamai;
             FingerprintProfile.extra_fp := x;
             FingerprintProfile.user_agent := info.(BrowserInfo.user_agent);
             FingerprintProfile.sec_ch_ua := info.(BrowserInfo.sec_ch_ua);
             FingerprintProfile.sec_ch_ua_mobile := Some info.(BrowserInfo.sec_ch_ua_mobile);
             FingerprintProfile.sec_ch_ua_platform :=
               Some (dq +:+ info.(BrowserInfo.platform) +:+ dq);
             FingerprintProfile.accept_language := None;
             FingerprintProfile.browser_type := info.(BrowserInfo.browser_type);
             FingerprintProfile.platform := info.(BrowserInfo.platform);
             FingerprintProfile.mobile := info.(BrowserInfo.mobile) |}, r').
Proof.
  destruct (browser_info_generate_spec plat browser ver r)
    as (p & r1 & Hinfo & _).
  set (info := browser_info_of p) in *.
  destruct (ja3_generate_shape info.(BrowserInfo.version)
              info.(BrowserInfo.browser_type) r1) as (exts & r2 & _ & Hja3).
  destruct (akamai_generate_total info.(BrowserInfo.browser_type) r2)
    as (akamai & r3 & Hak).
  destruct (get_extra_fp_total info.(BrowserInfo.browser_type) r3)
    as (x & r' & Hx).
  eexists info, _, akamai, x, r1, r2, r3, r'.
  split; [exact Hinfo|]. split; [exact Hja3|]. split; [exact Hak|].
  split; [exact Hx|]. split; [reflexivity|].
  unfold HTTPClient.generate_profile.
  erewrite eff_bind_ok by exact Hinfo.
  erewrite eff_bind_ok by exact Hja3.
  erewrite eff_bind_ok by exact Hak.
  erewrite eff_bind_ok by exact Hx.
  reflexivity.
Qed.

(** C7: whatever platform, browser and version the client forces or leaves
    open, and whatever the state of the generator, [_generate_profile] returns
    a profile; the browser type re-derived from its user-agent and client-hint
    fields is the browser type of the identity it was built from, which is
    the [browser_type] argument of the JA3 call and of the Akamai call that
    produced the profile's two fingerprints. *)
Theorem profile_browser_type_consistent (self : HTTPClient.t) r :
  ∃ info ja3 akamai profile r1 r2 r3 r',
    BrowserInfo.generate self.(HTTPClient._platform) self.(HTTPClient._browser)
      self.(HTTPClient._browser_version) r = (Ok info, r1) ∧
    JA3Generator.generate info.(BrowserInfo.version)
      info.(BrowserInfo.browser_type) r1 = (Ok ja3, r2) ∧
    AkamaiGenerator.generate info.(BrowserInfo.browser_type) r2 = (Ok akamai, r3) ∧
    HTTPClient._generate_profile self r = (Ok profile, r') ∧
    profile.(FingerprintProfile.ja3) = ja3 ∧
    profile.(FingerprintProfile.akamai) = akamai ∧
    BrowserInfo._detect_browser_type profile.(FingerprintProfile.user_agent) profile.(FingerprintProfile.sec_ch_ua)
      = info.(BrowserInfo.browser_type) ∧
    profile.(FingerprintProfile.browser_type) = info.(BrowserInfo.browser_type).
Proof.
  destruct (generate_profile_spec self.(HTTPClient._platform)
              self.(HTTPClient._browser) self.(HTTPClient._browser_version) r)
    as (info & ja3 & akamai & x & r1 & r2 & r3 & r' &
        Hinfo & Hja3 & Hak & Hx & Hbt & Hgen).
  eexists info, ja3, akamai, _, r1, r2, r3, r'.
  split; [exact Hinfo|]. split; [exact Hja3|]. split; [exact Hak|].
  split; [exact Hgen|]. simpl. by rewrite <-Hbt.
Qed.

(** ** Backoff *)

Import Retry.

Lemma random_unit r :
  ∃ x r', random r = (Ok x, r') ∧ (0 <= x)%Q ∧ (x < 1)%Q.
Proof.
  destruct (random_spec r) as (k & r' & Hr & Hk0 & Hk1).
  exists (k # 2 ^ 53), r'. split; [done|].
  unfold Qle, Qlt; simpl. split; [lia|].
  rewrite Z.mul_1_r. exact Hk1.
Qed.

Lemma jitter_factor_bounds x :
  (0 <= x)%Q → (x < 1)%Q →
  ((1 # 2) <= (1 # 2) + x * (1 # 2))%Q ∧ ((1 # 2) + x * (1 # 2) <= 1)%Q.
Proof.
  intros H0 H1. split.
  - rewrite <-(Qplus_0_r (1 # 2)) at 1. apply Qplus_le_r.
    by apply Qmult_le_0_compat.
  - apply Qle_trans with ((1 # 2) + 1 * (1 # 2))%Q; [|by compute].
    apply Qplus_le_r, Qmult_le_compat_r; [by apply Qlt_le_weak|done].
Qed.

Lemma power_of_two_pos (attempt : Z) : (0 < (2 # 1) ^ attempt)%Q.
Proof. by apply Qpower_0_lt. Qed.

Lemma get_backoff_time_nonneg cfg attempt r :
  (0 <= cfg.(backoff_factor))%Q →
  ∃ delay r', get_backoff_time cfg attempt r = (Ok delay, r') ∧ (0 <= delay)%Q.
Proof.
  intros Hb. unfold get_backoff_time.
  assert (0 <= cfg.(backoff_factor) * (2 # 1) ^ attempt)%Q as Hd.
  { apply Qmult_le_0_compat; [done|]. apply Qlt_le_weak, power_of_two_pos. }
  destruct cfg.(jitter).
  - destruct (random_unit r) as (x & r' & Hr & H0 & H1).
    erewrite eff_bind_ok by exact Hr.
    eexists _, r'. split; [reflexivity|].
    apply Qmult_le_0_compat; [done|].
    destruct (jitter_factor_bounds x H0 H1) as [Hlo _].
    eapply Qle_trans; [|exact Hlo]. done.
  - by eexists _, r.
Qed.



(** ** The retry loop *)

Section RetryLoop.
Context {U : Type}.
Implicit Types (cfg : RetryConfig) (f : Eff U Response) (w : World U).

Lemma call_ok f w resp u' :
  f w.(user) = (Ok resp, u') →
  call f w = (Ok resp, set_user u' (count_call w)).
Proof.
  intros Hf. unfold call. erewrite eff_bind_ok by reflexivity.
  unfold zoom. simpl. by rewrite Hf.
Qed.

Lemma call_raise f w e u' :
  f w.(user) = (Raise e, u') →
  call f w = (Raise e, set_user u' (count_call w)).
Proof.
  intros Hf. unfold call. erewrite eff_bind_ok by reflexivity.
  unfold zoom. simpl. by rewrite Hf.
Qed.

Lemma back_off_ok cfg attempt last_exception w :
  (0 <= cfg.(backoff_factor))%Q →
  ∃ delay r',
    back_off cfg attempt last_exception w =
      (Ok (Continue last_exception), add_sleep delay (set_entropy r' w)).
Proof.
  intros Hb.
  destruct (get_backoff_time_nonneg cfg attempt w.(entropy) Hb)
    as (delay & r' & Hg & Hd).
  exists delay, r'. unfold back_off.
  erewrite eff_bind_ok; [|unfold zoom; by rewrite Hg].
  unfold time_sleep. destruct (Qlt_le_dec delay 0) as [Hneg|_].
  - by apply Qlt_not_le in Hneg.
  - by erewrite eff_bind_ok by reflexivity.
Qed.


(** A response on the last attempt, or one that is not retryable, is
    returned. *)
Lemma attempt_final_response cfg f attempt last_exception w resp u' :
  f w.(user) = (Ok resp, u') →
  resp.(status_code) ∉ cfg.(retry_on_status) ∨ ¬ attempt < cfg.(max_retries) →
  attempt_once cfg f attempt last_exception w =
    (Ok (Return resp), set_user u' (count_call w)).
Proof.
  intros Hf Hnot. unfold attempt_once, try_except.
  erewrite eff_bind_ok by (by apply call_ok).
  unfold should_retry.
  destruct Hnot as [Hst|Hlast].
  - by rewrite (bool_decide_eq_false_2 _ Hst).
  - by rewrite (bool_decide_eq_false_2 _ Hlast), andb_false_r.
Qed.

(** An exception that is not retried is raised again. *)
Lemma attempt_fatal_exception cfg f attempt last_exception w e u' :
  f w.(user) = (Raise e, u') →
  cfg.(retry_on_timeout) = false ∨ is_Exception e = false
    ∨ ¬ attempt < cfg.(max_retries) →
  attempt_once cfg f attempt last_exception w =
    (Raise e, set_user u' (count_call w)).
Proof.
  intros Hf Hnot. unfold attempt_once, try_except.
  erewrite eff_bind_raise by (by apply call_raise).
  destruct (is_Exception e) eqn:He; [|done].
  unfold should_retry. destruct Hnot as [Hflag|[?|Hlast]]; [|done|].
  - by rewrite Hflag.
  - by rewrite (bool_decide_eq_false_2 _ Hlast), andb_false_r.
Qed.

(** A retried exception with attempts left: remember it, sleep, go round
    again. *)
Lemma attempt_retryable_exception cfg f attempt last_exception w e u' :
  f w.(user) = (Raise e, u') →
  cfg.(retry_on_timeout) = true → is_Exception e = true →
  attempt < cfg.(max_retries) →
  (0 <= cfg.(backoff_factor))%Q →
  ∃ delay r',
    attempt_once cfg f attempt last_exception w =
      (Ok (Continue (Some e)),
       add_sleep delay (set_entropy r' (set_user u' (count_call w)))).
Proof.
  intros Hf Hflag He Hlt Hb.
  destruct (back_off_ok cfg attempt (Some e)
              (set_user u' (count_call w)) Hb) as (delay & r' & Hbo).
  exists delay, r'. unfold attempt_once, try_except.
  erewrite eff_bind_raise by (by apply call_raise).
  rewrite He. unfold should_retry.
  by rewrite Hflag, bool_decide_eq_true_2.
Qed.

End RetryLoop.



(** C4, as the specification states it, fails: with the timeout-retry flag
    set, a request function that raises [ValueError], which is no timeout, is
    not given up after its first failure; it is entered three times under
    [max_retries = 2] before the exception reaches the caller. *)
Lemma non_timeout_exception_is_retried :
  let run := request_with_retry two_retries always_value_error fresh_world in
  run.1 = Raise ValueError ∧ run.2.(calls) = 3%nat ∧ run.2.(calls) ≠ 1%nat.
Proof. vm_compute. repeat split; discriminate. Qed.

(** C4, amended: a response is retryable exactly when its status code is in
    the configured set; an exception of any kind is retryable exactly when
    the timeout-retry flag is set; and with that flag unset (or for an
    exception that [except Exception] does not catch) the first exception of
    the request function reaches the caller after exactly one attempt. *)
Theorem retry_classification {U} (cfg : RetryConfig) :
  (∀ resp, should_retry cfg (Some resp) None = true
           ↔ resp.(status_code) ∈ cfg.(retry_on_status)) ∧
  (∀ e, should_retry cfg None (Some e) = cfg.(retry_on_timeout)) ∧
  (∀ (f : Eff U Response) (w : World U) e u',
     0 <= cfg.(max_retries) →
     f w.(user) = (Raise e, u') →
     cfg.(retry_on_timeout) = false ∨ is_Exception e = false →
     request_with_retry cfg f w = (Raise e, set_user u' (count_call w)) ∧
     (set_user u' (count_call w)).(calls) = S w.(calls)).
Proof.
  split; [|split].
  - intros resp. unfold should_retry. apply bool_decide_eq_true.
  - done.
  - intros f w e u' Hmax Hf Hfatal. split; [|done].
    unfold request_with_retry.
    assert (∃ rest, seqZ 0 (cfg.(max_retries) + 1) = 0 :: rest) as [rest ->].
    { exists (seqZ 1 cfg.(max_retries)).
      rewrite seqZ_cons by lia. do 2 f_equal; lia. }
    cbn [retry_loop].
    erewrite eff_bind_raise; [done|].
    apply attempt_fatal_exception; [done|]. destruct Hfatal; auto.
Qed.

Lemma retry_classification_witness :
  0 <= two_retries_no_timeout.(max_retries) ∧
  always_value_error fresh_world.(user) = (Raise ValueError, 1%nat) ∧
  request_with_retry two_retries_no_timeout always_value_error fresh_world
    = (Raise ValueError, set_user 1%nat (count_call fresh_world)).
Proof.
  split; [by vm_compute|]. split; [reflexivity|].
  apply (retry_classification two_retries_no_timeout);
    [by vm_compute|reflexivity|by left].
Defined.

(** ** Session persistence *)

Import SessionManager.


(** A file that is not valid JSON makes both loaders raise the decoding
    error before they touch the session. *)
Lemma malformed_file_propagates (path : string) (st : Store) :
  st.(disk) !! path = Some Malformed →
  load_cookies path st = (Raise JSONDecodeError, st) ∧
  import_session path st = (Raise JSONDecodeError, st).
Proof.
  intros Hfile. unfold load_cookies, import_session.
  erewrite !eff_bind_ok by reflexivity. by rewrite Hfile.
Qed.



(** ** Insertion-ordered dictionaries *)

Section DictFacts.
Context {K V : Type} `{EqDecision K}.
Implicit Types (d : list (K * V)) (k : K) (v : V).

Lemma get_set_eq d k v : Py.get (Py.set d k v) k = Some v.
Proof.
  induction d as [|[k' v'] d IH]; simpl.
  - by rewrite decide_True.
  - destruct (decide (k' = k)) as [->|Hne]; simpl.
    + by rewrite decide_True.
    + by rewrite decide_False.
Qed.

Lemma get_set_ne d k k' v : k' ≠ k → Py.get (Py.set d k' v) k = Py.get d k.
Proof.
  intros Hne. induction d as [|[k0 v0] d IH]; simpl.
  - by rewrite decide_False.
  - destruct (decide (k0 = k')) as [->|Hne']; simpl.
    + by rewrite !decide_False.
    + destruct (decide (k0 = k)); done.
Qed.

Lemma get_update_None d other k :
  Py.get other k = None → Py.get (Py.update d other) k = Py.get d k.
Proof.
  unfold Py.update. revert d.
  induction other as [|[k' v'] other IH]; intros d Hk; simpl in *; [done|].
  destruct (decide (k' = k)) as [->|Hne]; [done|].
  rewrite IH by done. by apply get_set_ne.
Qed.
End DictFacts.

(** ** The header composer *)

Import HTTPClient.

Section Composer.
Context {U : Type}.
Implicit Types (w : World U) (extra : option (list (string * string))).

Lemma profile_spec w :
  ∃ p r',
    profile w = (Ok p, on_self (set_profile p) (set_entropy r' w)) ∧
    (on_self (set_profile p) (set_entropy r' w)).(self).(_request_count)
      = w.(self).(_request_count) ∧
    (on_self (set_profile p) (set_entropy r' w)).(self).(randomize_per_request)
      = w.(self).(randomize_per_request).
Proof.
  unfold profile. erewrite eff_bind_ok by reflexivity.
  destruct w.(self).(_profile) as [p|] eqn:Hp.
  - exists p, w.(entropy). split; [|done].
    unfold eff_ret. f_equal. destruct w as [c r u]; destruct c; simpl in *.
    by subst.
  - destruct (generate_profile_spec w.(self).(_platform) w.(self).(_browser)
                w.(self).(_browser_version) w.(entropy))
      as (info & ja3 & akamai & x & r1 & r2 & r3 & r' & _ & _ & _ & _ & _ & Hgen).
    eexists _, r'. split; [|done].
    erewrite eff_bind_ok; [|unfold zoom, _generate_profile; by rewrite Hgen].
    by erewrite eff_bind_ok by reflexivity.
Qed.

Lemma get_headers_spec extra request_type w :
  ∃ hs w',
    _get_headers extra request_type w = (Ok hs, w') ∧
    w'.(self).(_request_count) = w.(self).(_request_count) + 1 ∧
    w'.(self).(randomize_per_request) = w.(self).(randomize_per_request) ∧
    (overrides extra "cache-control" = None →
     Py.get hs "cache-control"
       = Some (own_cache_control w.(self).(_request_count))).
Proof.
  destruct (profile_spec w) as (p & r' & Hp & Hcount & Hmode).
  unfold _get_headers. cbv zeta.
  erewrite eff_bind_ok by exact Hp.
  erewrite eff_bind_ok by reflexivity.
  erewrite eff_bind_ok by reflexivity.
  eexists _, _. split; [reflexivity|].
  split; [simpl; by rewrite <-Hcount|]. split; [done|].
  intros Hover. rewrite Hcount. unfold own_cache_control.
  assert (∀ hs : list (string * string),
    Py.get (match extra with
            | Some ((_ :: _) as e) => Py.update hs e
            | _ => hs
            end) "cache-control" = Py.get hs "cache-control") as ->.
  { intros hs. destruct extra as [[|kv e]|]; [done| |done].
    by apply get_update_None. }
  destruct (bool_decide (request_type = "navigate")),
    (bool_decide (p.(FingerprintProfile.browser_type) = "brave")),
    p.(FingerprintProfile.sec_ch_ua) as [[|a hints]|]; reflexivity.
Qed.
End Composer.

(** ** The request counter and [cache-control] *)

Section Counter.
Context {U : Type}.
Implicit Types (w : World U)
  (requests : list (option (list (string * string)) * string)).

(** Once the counter is positive every composed set says [max-age=0]. *)
Lemma compose_all_later requests w :
  0 < w.(self).(_request_count) →
  Forall (λ rq, overrides rq.1 "cache-control" = None) requests →
  ∃ outs w',
    compose_all requests w = (Ok outs, w') ∧
    w'.(self).(_request_count)
      = w.(self).(_request_count) + Z.of_nat (length requests) ∧
    length outs = length requests ∧
    Forall (λ hs, Py.get hs "cache-control" = Some "max-age=0") outs.
Proof.
  revert w. induction requests as [|[extra rt] requests IH]; intros w Hpos Hall.
  - exists [], w. simpl. repeat split; [lia|done].
  - inversion Hall as [|? ? Hextra Hrest]; subst.
    destruct (get_headers_spec extra rt w) as (hs & w1 & Hrun & Hcount & _ & Hcc).
    destruct (IH w1) as (outs & w' & Hruns & Hcount' & Hlen & Houts);
      [lia|done|].
    exists (hs :: outs), w'. cbn [compose_all].
    erewrite eff_bind_ok by exact Hrun.
    erewrite eff_bind_ok by exact Hruns.
    split; [done|]. split; [simpl length; lia|]. split; [simpl; lia|].
    constructor; [|done]. rewrite (Hcc Hextra). unfold own_cache_control.
    by rewrite bool_decide_eq_false_2 by lia.
Qed.
End Counter.

(** The sample client is the one the constructor builds. *)
Lemma sample_client_constructed :
  __init__ None 30 false (Some "Windows") (Some "chrome") None None []
    = (Ok sample_client, []).
Proof. vm_compute. reflexivity. Qed.

(** C6, as the specification states it, fails: the caller's overrides are
    merged last, so on a new client (counter 0) a first composition whose
    overrides carry [cache-control] maps it to the caller's value instead of
    [no-cache]. *)
Lemma override_replaces_cache_control :
  sample_world.(self).(_request_count) = 0 ∧
  cache_control_of
    (_get_headers (Some [("cache-control", "no-store")]) "navigate" sample_world)
    = Some "no-store" ∧
  cache_control_of
    (_get_headers (Some [("cache-control", "no-store")]) "navigate" sample_world)
    ≠ Some "no-cache".
Proof. split; [reflexivity|]. split; [vm_compute; reflexivity|vm_compute; discriminate]. Qed.

(** C6, amended: every call of the header composer returns and raises the
    request counter by exactly one; on a client whose counter is at its
    initial value 0, in a run of compositions none of whose overrides names
    [cache-control], the first composed set maps [cache-control] to
    [no-cache] and every later one to [max-age=0]. *)
Theorem cache_control_first_then_later {U} (w : World U) :
  (∀ extra request_type,
     ∃ hs w',
       _get_headers extra request_type w = (Ok hs, w') ∧
       w'.(self).(_request_count) = w.(self).(_request_count) + 1) ∧
  (∀ requests,
     w.(self).(_request_count) = 0 →
     Forall (λ rq, overrides rq.1 "cache-control" = None) requests →
     ∃ outs w',
       compose_all requests w = (Ok outs, w') ∧
       w'.(self).(_request_count) = Z.of_nat (length requests) ∧
       length outs = length requests ∧
       ∀ (i : nat) hs, outs !! i = Some hs →
         Py.get hs "cache-control"
           = Some (if bool_decide (i = 0%nat) then "no-cache" else "max-age=0")).
Proof.
  split.
  - intros extra rt.
    destruct (get_headers_spec extra rt w) as (hs & w' & Hrun & Hcount & _).
    by exists hs, w'.
  - intros requests Hzero Hall. destruct requests as [|[extra rt] requests].
    + exists [], w. simpl. repeat split; [done|]. intros i hs Hi. done.
    + inversion Hall as [|? ? Hextra Hrest]; subst.
      destruct (get_headers_spec extra rt w) as (hs & w1 & Hrun & Hcount & _ & Hcc).
      destruct (compose_all_later requests w1) as (outs & w' & Hruns & Hcount' & Hlen & Houts);
        [lia|done|].
      exists (hs :: outs), w'. cbn [compose_all].
      erewrite eff_bind_ok by exact Hrun.
      erewrite eff_bind_ok by exact Hruns.
      split; [done|]. split; [simpl length; lia|]. split; [simpl; lia|].
      intros [|i] hs' Hi; simpl in Hi.
      * injection Hi as <-. rewrite (Hcc Hextra), Hzero. reflexivity.
      * rewrite Forall_lookup in Houts. by apply (Houts i).
Qed.

Lemma cache_control_first_then_later_witness :
  sample_world.(self).(_request_count) = 0 ∧
  ∃ outs w',
    compose_all [(None, "navigate"); (Some [("x-requested-with", "fetch")], "api");
                 (None, "api")] sample_world = (Ok outs, w') ∧
    w'.(self).(_request_count) = 3 ∧
    (λ hs, Py.get hs "cache-control") <$> outs
      = [Some "no-cache"; Some "max-age=0"; Some "max-age=0"].
Proof.
  split; [reflexivity|].
  destruct (cache_control_first_then_later sample_world) as [_ Hrun].
  destruct (Hrun [(None, "navigate"); (Some [("x-requested-with", "fetch")], "api");
                  (None, "api")] eq_refl)
    as (outs & w' & Hall & Hcount & Hlen & Hcc).
  { repeat constructor. }
  exists outs, w'. split; [exact Hall|]. split; [exact Hcount|].
  destruct outs as [|hs1 [|hs2 [|hs3 [|]]]]; try discriminate Hlen.
  simpl. by rewrite (Hcc 0%nat hs1), (Hcc 1%nat hs2), (Hcc 2%nat hs3).
Defined.

(** ** Regenerating the profile *)

Section Randomize.
Context {U : Type}.
Variable transport : Request → Eff (SessionManager.Session * U) Retry.Response.
Implicit Types (w : World U) (extra : option (list (string * string))).

Lemma randomize_spec w :
  ∃ p w',
    randomize w = (Ok p, w') ∧
    w'.(self).(_profile) = Some p ∧
    w'.(self).(_request_count) = w.(self).(_request_count) ∧
    w'.(self).(randomize_per_request) = w.(self).(randomize_per_request).
Proof.
  destruct (generate_profile_spec w.(self).(_platform) w.(self).(_browser)
              w.(self).(_browser_version) w.(entropy))
    as (info & ja3 & akamai & x & r1 & r2 & r3 & r' & _ & _ & _ & _ & _ & Hgen).
  unfold randomize. erewrite eff_bind_ok by reflexivity.
  erewrite eff_bind_ok; [|unfold zoom, _generate_profile; by rewrite Hgen].
  erewrite eff_bind_ok by reflexivity.
  erewrite eff_bind_ok by reflexivity.
  by eexists _, _.
Qed.

(** Regeneration followed by a composition, on a client that has composed
    before. *)
Lemma randomize_then_compose w extra request_type :
  0 < w.(self).(_request_count) →
  overrides extra "cache-control" = None →
  ∃ p w1 hs w2,
    randomize w = (Ok p, w1) ∧
    w1.(self).(_request_count) = w.(self).(_request_count) ∧
    _get_headers extra request_type w1 = (Ok hs, w2) ∧
    w2.(self).(_request_count) = w.(self).(_request_count) + 1 ∧
    Py.get hs "cache-control" = Some "max-age=0".
Proof.
  intros Hpos Hextra.
  destruct (randomize_spec w) as (p & w1 & Hrand & _ & Hcount & _).
  destruct (get_headers_spec extra request_type w1)
    as (hs & w2 & Hrun & Hcount2 & _ & Hcc).
  exists p, w1, hs, w2. repeat (split; [done|]). split; [lia|].
  rewrite (Hcc Hextra). unfold own_cache_control.
  by rewrite bool_decide_eq_false_2 by lia.
Qed.
End Randomize.

(** C10, as stated, fails in its last clause: after a composed request and a
    regeneration, a composition whose overrides carry [cache-control] maps it
    to the caller's value, here [no-cache], not to [max-age=0]. *)
Lemma override_after_randomize :
  let composed := (_get_headers None "navigate" sample_world).2 in
  let regenerated := (randomize composed).2 in
  composed.(self).(_request_count) = 1 ∧
  regenerated.(self).(_request_count) = 1 ∧
  cache_control_of
    (_get_headers (Some [("cache-control", "no-cache")]) "navigate" regenerated)
    = Some "no-cache" ∧
  cache_control_of
    (_get_headers (Some [("cache-control", "no-cache")]) "navigate" regenerated)
    ≠ Some "max-age=0".
Proof. vm_compute. repeat split; discriminate. Qed.

(** C10, amended: in every state of a client [randomize] returns and leaves
    the request counter as it was.  So on a client that has composed a
    request (its counter, never negative before, is positive after), a
    regeneration, called directly or by [_make_request] in the per-request
    randomization mode, is followed by a composition that maps
    [cache-control] to [max-age=0], provided the caller's overrides do not
    name [cache-control] themselves. *)
Theorem randomize_keeps_request_count {U}
    (transport : Request → Eff (SessionManager.Session * U) Retry.Response)
    (w0 : World U) extra0 request_type0 :
  (∃ p w1, randomize w0 = (Ok p, w1) ∧
           w1.(self).(_request_count) = w0.(self).(_request_count)) ∧
  (0 <= w0.(self).(_request_count) →
   ∃ hs0 w,
     _get_headers extra0 request_type0 w0 = (Ok hs0, w) ∧
     ∀ extra request_type,
       overrides extra "cache-control" = None →
       ∃ p w1 hs w2,
         randomize w = (Ok p, w1) ∧
         w1.(self).(_request_count) = w.(self).(_request_count) ∧
         _get_headers extra request_type w1 = (Ok hs, w2) ∧
         Py.get hs "cache-control" = Some "max-age=0" ∧
         (w.(self).(randomize_per_request) = true →
          ∀ method_ url_ data_ json_ params_,
            _make_request transport method_ url_ extra data_ json_ params_
                          false request_type w
            = session_request transport
                {| method := method_; url := url_; headers := hs;
                   data := data_; json := json_; params := params_;
                   proxy := w2.(self).(proxy_url);
                   request_timeout := w2.(self).(timeout) |} w2)).
Proof.
  split.
  { destruct (randomize_spec w0) as (p & w1 & Hrand & _ & Hcount & _).
    by exists p, w1. }
  intros Hnonneg.
  destruct (get_headers_spec extra0 request_type0 w0)
    as (hs0 & w & Hrun0 & Hcount0 & _).
  exists hs0, w. split; [done|].
  intros extra request_type Hextra.
  destruct (randomize_then_compose w extra request_type)
    as (p & w1 & hs & w2 & Hrand & Hcount & Hrun & _ & Hcc); [lia|done|].
  exists p, w1, hs, w2. repeat (split; [done|]).
  intros Hmode method_ url_ data_ json_ params_.
  unfold _make_request.
  erewrite eff_bind_ok by reflexivity. rewrite Hmode.
  erewrite eff_bind_ok; [|by erewrite eff_bind_ok by exact Hrand].
  erewrite eff_bind_ok by exact Hrun.
  by erewrite eff_bind_ok by reflexivity.
Qed.

Lemma randomize_keeps_request_count_witness :
  0 <= sample_world.(self).(_request_count) ∧
  ∃ hs0 w p w1 hs w2,
    _get_headers None "navigate" sample_world = (Ok hs0, w) ∧
    randomize w = (Ok p, w1) ∧
    w1.(self).(_request_count) = w.(self).(_request_count) ∧
    _get_headers None "api" w1 = (Ok hs, w2) ∧
    Py.get hs "cache-control" = Some "max-age=0".
Proof.
  assert (0 <= sample_world.(self).(_request_count)) as Hnonneg by (by vm_compute).
  split; [exact Hnonneg|].
  destruct (randomize_keeps_request_count offline sample_world None "navigate")
    as [_ Hafter].
  destruct (Hafter Hnonneg) as (hs0 & w & Hrun0 & Hnext).
  destruct (Hnext None "api" eq_refl)
    as (p & w1 & hs & w2 & Hrand & Hcount & Hrun & Hcc & _).
  by exists hs0, w, p, w1, hs, w2.
Defined.

(** ** Spot checks on concrete inputs *)

Example ja3_143_all_draws_zero :
  JA3Generator.generate 143 "chrome" [] =
    (Ok "771,4865-4866-4867-49195-49199-49196-49200-52393-52392-49171-49172-156-157-47-53,5-10-11-13-16-18-23-27-35-43-45-51-65037-65281-17613-0,4588-29-23-24,0",
     []).
Proof. vm_compute. reflexivity. Qed.

Example ja3_safari_18 :
  JA3Generator.generate 18 "safari" [] =
    (Ok "771,4865-4866-4867-49195-49199-49196-49200-52393-52392-49171-49172-156-157-47-53,5-10-11-13-16-18-23-27-35-43-45-51-65037-65281-0,29-23-24,0",
     []).
Proof. vm_compute. reflexivity. Qed.

(** Edge omits the push setting; a first draw of 2^53 - 1 makes
    [random.random()] exceed 0.4, so no stream limit is included. *)
Example akamai_edge :
  AkamaiGenerator.generate "edge" [9007199254740991%N; 2%N; 3%N; 4%N] =
    (Ok "1:65536;4:6291456;6:262144|15794175|1|m,s,a,p", []).
Proof. vm_compute. reflexivity. Qed.

Example akamai_safari :
  AkamaiGenerator.generate "safari" [2%N; 3%N; 4%N] =
    (Ok "1:4096;4:4194304;6:262144|15794175|1|m,s,a,p", []).
Proof. vm_compute. reflexivity. Qed.

(** How the catalogue classifies: the Chrome-on-iOS agents carry no client
    hint and no "Chrome" token, and come out as safari. *)
Example catalogue_browser_types :
  (λ p, BrowserInfo._detect_browser_type p.(ua) p.(sec_ch_ua)) <$> PROFILES =
    [ "chrome"; "chrome"; "chrome"; "chrome"; "brave"; "brave"; "edge"; "edge";
      "chrome"; "chrome"; "chrome"; "chrome"; "brave"; "safari"; "safari";
      "safari"; "safari"; "safari"; "safari"; "safari"; "safari";
      "chrome"; "chrome"; "chrome"; "chrome"; "chrome"; "brave" ].
Proof. vm_compute. reflexivity. Qed.

Example catalogue_versions :
  (λ p, (browser_info_of p).(BrowserInfo.version)) <$> PROFILES =
    [ 144; 143; 142; 141; 143; 142; 143; 142;
      144; 143; 142; 141; 143; 18; 17;
      18; 18; 17; 143; 143; 143;
      144; 143; 142; 143; 142; 143 ].
Proof. vm_compute. reflexivity. Qed.

Example backoff_without_jitter r :
  get_backoff_time {| max_retries := 3; backoff_factor := 1 # 2;
                      retry_on_status := [503]; retry_on_timeout := true;
                      jitter := false |} 3 r
  = (Ok ((1 # 2) * (2 # 1) ^ 3)%Q, r).
Proof. reflexivity. Qed.

(** A status that is not retryable is returned after one attempt, without
    sleeping. *)
Example not_found_single_attempt :
  request_with_retry two_retries
    (λ n, (Ok {| status_code := 404; text := "" |}, S n)) fresh_world
  = (Ok {| status_code := 404; text := "" |},
     {| Retry.entropy := [7%N; 11%N]; slept := []; calls := 1; user := 1%nat |}).
Proof. vm_compute. reflexivity. Qed.

(** A negative [max_retries] leaves the loop without a single attempt. *)
Example negative_max_retries :
  (request_with_retry
     {| max_retries := -1; backoff_factor := 1 # 2; retry_on_status := [503];
        retry_on_timeout := true; jitter := false |}
     always_503 fresh_world).1
  = Raise (RuntimeError "All retries exhausted without response").
Proof. reflexivity. Qed.

(** A negative backoff base makes [time.sleep] raise inside the [try]; with
    the timeout-retry flag off that [ValueError] is raised again after the
    first attempt. *)
Example negative_backoff_base :
  let run :=
    request_with_retry
      {| max_retries := 2; backoff_factor := -1 # 2; retry_on_status := [503];
         retry_on_timeout := false; jitter := false |}
      always_503 fresh_world in
  run.1 = Raise ValueError ∧ run.2.(calls) = 1%nat.
Proof. vm_compute. done. Qed.

(** A cookie file of the right shape is loaded entry by entry; an entry
    without ["value"] stops the load half way with a [KeyError]. *)
Example load_cookies_partial :
  let doc := JDict [ ("sid", JDict [("value", JStr "1"); ("secure", JBool true)]);
                     ("broken", JDict [("domain", JStr "example.org")]) ] in
  let run := load_cookies "cookies.json"
               {| SessionManager._session := sample_session;
                  disk := {[ "cookies.json" := Document doc ]} |} in
  run.1 = Raise (KeyError "value") ∧
  run.2.(SessionManager._session).(cookies) =
    [ {| name := JStr "sid"; value := JStr "1"; domain := JStr EmptyString;
         path := JStr "/"; secure := JBool true |} ].
Proof. vm_compute. done. Qed.

Example first_headers_of_sample_client :
  (_get_headers None "api" sample_world).1 =
    Ok [ ("accept", "*/*");
         ("accept-language", "en-US,en;q=0.9");
         ("accept-encoding", "gzip, deflate, br, zstd");
         ("cache-control", "no-cache");
         ("pragma", "no-cache");
         ("priority", "u=1, i");
         ("sec-ch-ua", UserAgentGenerator.chrome_144);
         ("sec-ch-ua-mobile", "?0");
         ("sec-ch-ua-platform", dq +:+ "Windows" +:+ dq);
         ("sec-fetch-dest", "empty");
         ("sec-fetch-mode", "cors");
         ("sec-fetch-site", "same-site");
         ("user-agent", sample_profile.(FingerprintProfile.user_agent)) ].
Proof. vm_compute. reflexivity. Qed.

(** * Further properties *)

(** ** The retry loop in general *)

Section RetryGeneral.
Context {U : Type}.
Implicit Types (cfg : RetryConfig) (f : Eff U Response) (w : Retry.World U).

(** Every pass through the loop body enters the request function once and
    leaves it in the state that call produced; it sleeps exactly once when
    it ends in [continue], which needs an attempt left, and not at all
    otherwise. *)
Lemma attempt_once_frame cfg f attempt last_exception w :
  let run := attempt_once cfg f attempt last_exception w in
  run.2.(calls) = S w.(calls) ∧
  run.2.(user) = (f w.(user)).2 ∧
  match run.1 with
  | Ok (Continue _) =>
      length run.2.(slept) = S (length w.(slept)) ∧ attempt < cfg.(max_retries)
  | _ => run.2.(slept) = w.(slept)
  end.
Proof.
  assert (∀ le w0, let run := back_off cfg attempt le w0 in
            run.2.(calls) = w0.(calls) ∧
            run.2.(user) = w0.(user) ∧
            match run.1 with
            | Ok (Continue _) => length run.2.(slept) = S (length w0.(slept))
            | Ok (Return _) => False
            | Raise e => run.2.(slept) = w0.(slept) ∧ e = ValueError
            end) as Hback.
  { intros le w0. unfold back_off, eff_bind, zoom, time_sleep.
    destruct (get_backoff_time cfg attempt w0.(Retry.entropy)) as [[d|e] r'] eqn:Hg.
    - simpl. destruct (Qlt_le_dec d 0); simpl; done.
    - exfalso. unfold get_backoff_time in Hg.
      destruct cfg.(jitter); [|done].
      destruct (random_spec w0.(Retry.entropy)) as (k & r1 & Hr & _).
      by erewrite eff_bind_ok in Hg by exact Hr. }
  unfold attempt_once, try_except.
  destruct (f w.(user)) as [[resp|e] u'] eqn:Hf.
  - erewrite eff_bind_ok by (by apply call_ok).
    destruct (should_retry cfg (Some resp) None) eqn:Hretry; [|done].
    case_bool_decide as Hlt; [|done]. cbn [andb].
    pose proof (Hback last_exception (set_user u' (count_call w))) as H1.
    destruct (back_off cfg attempt last_exception (set_user u' (count_call w)))
      as [[[le|r]|e] w1]; cbn [fst snd] in *;
      [by destruct H1 as (? & ? & ?)|by destruct H1 as (_ & _ & ?)|].
    destruct H1 as (Hc & Hu & Hs & ->). cbn [is_Exception should_retry].
    simpl in Hc, Hu, Hs.
    destruct cfg.(retry_on_timeout); cbn [andb]; [|done].
    pose proof (Hback (Some ValueError) w1) as H2.
    destruct (back_off cfg attempt (Some ValueError) w1) as [[[le|r]|e] w2];
      cbn [fst snd] in *.
    + destruct H2 as (Hc2 & Hu2 & Hs2).
      repeat split; [congruence|congruence| |done]. by rewrite Hs2, Hs.
    + by destruct H2 as (_ & _ & ?).
    + destruct H2 as (Hc2 & Hu2 & Hs2 & _). repeat split; congruence.
  - erewrite eff_bind_raise by (by apply call_raise).
    destruct (is_Exception e); [|done].
    destruct (should_retry cfg None (Some e)); [|done].
    case_bool_decide as Hlt; [|done]. cbn [andb].
    pose proof (Hback (Some e) (set_user u' (count_call w))) as H1.
    destruct (back_off cfg attempt (Some e) (set_user u' (count_call w)))
      as [[[le|r]|e'] w1]; cbn [fst snd] in *;
      [by destruct H1 as (? & ? & ?)|by destruct H1 as (_ & _ & ?)|].
    by destruct H1 as (Hc & Hu & Hs & _).
Qed.

(** The loop over the attempts [k, k + m) that end at [max_retries]. *)
Lemma retry_loop_frame cfg f (m : nat) (k : Z) last_exception w :
  k + Z.of_nat m = cfg.(max_retries) + 1 →
  ∃ r w' (made : nat),
    retry_loop cfg f (seqZ k (Z.of_nat m)) last_exception w = (r, w') ∧
    w'.(calls) = (w.(calls) + made)%nat ∧
    (made <= m)%nat ∧
    (m ≠ O → (1 <= made)%nat) ∧
    w'.(user) = after_calls f w.(user) made ∧
    (if decide (made = O) then w'.(slept) = w.(slept)
     else (length w'.(slept) + 1 = length w.(slept) + made)%nat).
Proof.
  revert k last_exception w. induction m as [|m IH]; intros k le w Hk.
  - exists (match le with
            | Some e => Raise e
            | None => Raise (RuntimeError "All retries exhausted without response")
            end), w, O.
    split; [by destruct le|]. repeat split; [lia|done|done].
  - rewrite Nat2Z.inj_succ, seqZ_cons by lia.
    replace (Z.pred (Z.succ (Z.of_nat m))) with (Z.of_nat m) by lia.
    cbn [retry_loop]. unfold eff_bind.
    pose proof (attempt_once_frame cfg f k le w) as (Hc & Hu & Hs).
    destruct (attempt_once cfg f k le w) as [[[le'|resp]|e] w1];
      cbn [fst snd] in *.
    + destruct Hs as [Hs Hlt].
      destruct (IH (Z.succ k) le' w1 ltac:(lia))
        as (r & w' & made & Hrun & Hc' & Hle & Hpos & Hu' & Hs').
      specialize (Hpos ltac:(lia)).
      exists r, w', (S made). split; [done|].
      repeat split; [lia|lia|lia| |].
      * simpl. by rewrite <-Hu.
      * rewrite decide_False by lia. rewrite decide_False in Hs' by lia. lia.
    + exists (Ok resp), w1, 1%nat. split; [done|].
      repeat split; [lia|lia|done|by simpl|].
      rewrite decide_False by lia. rewrite Hs. lia.
    + exists (Raise e), w1, 1%nat. split; [done|].
      repeat split; [lia|lia|done|by simpl|].
      rewrite decide_False by lia. rewrite Hs. lia.
Qed.


Lemma after_pass_plain u' delay w :
  after_pass u' delay w.(Retry.entropy) w =
    {| Retry.entropy := w.(Retry.entropy); slept := delay :: w.(slept);
       calls := S w.(calls); user := u' |}.
Proof. reflexivity. Qed.



End RetryGeneral.

(** ** What a caller can rely on from [request_with_retry] *)

(** X1: whatever the request function does and whatever the policy says,
    [request_with_retry] enters the request function at most
    [max_retries + 1] times, at least once when [max_retries >= 0], leaves
    it in the state those calls produced, and sleeps exactly once between
    two consecutive attempts: one sleep less than attempts, none when no
    attempt was made. *)
Theorem retry_attempts_bounded {U} (cfg : RetryConfig) (f : Eff U Response)
    (w : Retry.World U) :
  ∃ r w' (made : nat),
    request_with_retry cfg f w = (r, w') ∧
    w'.(calls) = (w.(calls) + made)%nat ∧
    (made <= Z.to_nat (cfg.(max_retries) + 1))%nat ∧
    (if decide (0 <= cfg.(max_retries)) then (1 <= made)%nat else made = O) ∧
    w'.(user) = after_calls f w.(user) made ∧
    (if decide (made = O) then w'.(slept) = w.(slept)
     else (length w'.(slept) + 1 = length w.(slept) + made)%nat).
Proof.
  unfold request_with_retry.
  set (m := Z.to_nat (cfg.(max_retries) + 1)).
  set (k := cfg.(max_retries) + 1 - Z.of_nat m).
  assert (k + Z.of_nat m = cfg.(max_retries) + 1) as Hk by lia.
  destruct (retry_loop_frame cfg f m k None w Hk)
    as (r & w' & made & Hrun & Hc & Hle & Hpos & Hu & Hs).
  exists r, w', made.
  assert (seqZ 0 (cfg.(max_retries) + 1) = seqZ k (Z.of_nat m)) as ->.
  { destruct (decide (0 <= cfg.(max_retries) + 1)).
    - f_equal; lia.
    - rewrite !seqZ_nil by lia. done. }
  split; [done|]. split; [done|]. split; [done|]. split; [|done].
  destruct (decide (0 <= cfg.(max_retries))); [apply Hpos; lia|lia].
Qed.







(** X5: a negative [max_retries] leaves no attempt at all: the request
    function is never entered, nothing is slept, and the caller gets the
    [RuntimeError] of the exhausted loop. *)
Theorem retry_negative_max_retries {U} (cfg : RetryConfig)
    (f : Eff U Response) (w : Retry.World U) :
  cfg.(max_retries) < 0 →
  request_with_retry cfg f w =
    (Raise (RuntimeError "All retries exhausted without response"), w).
Proof.
  intros Hneg. unfold request_with_retry. by rewrite seqZ_nil by lia.
Qed.

Lemma retry_negative_max_retries_witness :
  -1 < 0 ∧
  request_with_retry
    {| max_retries := -1; backoff_factor := 1 # 2; retry_on_status := [503];
       retry_on_timeout := true; jitter := true |}
    always_503 fresh_world
  = (Raise (RuntimeError "All retries exhausted without response"), fresh_world).
Proof.
  split; [lia|].
  apply (retry_negative_max_retries
           {| max_retries := -1; backoff_factor := 1 # 2; retry_on_status := [503];
              retry_on_timeout := true; jitter := true |}).
  simpl. lia.
Defined.

(** X6: a response whose status is not in the retryable set is returned
    from the first attempt: one call, no sleep, the generator untouched,
    whatever the backoff settings. *)
Theorem retry_returns_first_final_response {U} (cfg : RetryConfig)
    (f : Eff U Response) (w : Retry.World U) resp u' :
  0 <= cfg.(max_retries) →
  f w.(user) = (Ok resp, u') →
  resp.(status_code) ∉ cfg.(retry_on_status) →
  request_with_retry cfg f w =
    (Ok resp,
     {| Retry.entropy := w.(Retry.entropy); slept := w.(slept);
        calls := S w.(calls); user := u' |}).
Proof.
  intros Hmax Hcall Hst. unfold request_with_retry.
  rewrite seqZ_cons by lia. cbn [retry_loop].
  by erewrite eff_bind_ok by (apply attempt_final_response; [exact Hcall|by left]).
Qed.

Lemma retry_returns_first_final_response_witness :
  0 <= two_retries.(max_retries) ∧
  (404 ∉ two_retries.(retry_on_status)) ∧
  request_with_retry two_retries always_404 fresh_world =
    (Ok {| status_code := 404; text := "not found" |},
     {| Retry.entropy := [7%N; 11%N]; slept := []; calls := 1; user := 1%nat |}).
Proof.
  assert (0 <= two_retries.(max_retries)) as Hmax by (by vm_compute).
  assert (404 ∉ two_retries.(retry_on_status)) as Hst
    by (eapply bool_decide_unpack; vm_compute; exact I).
  split; [exact Hmax|]. split; [exact Hst|].
  exact (retry_returns_first_final_response two_retries always_404 fresh_world
           _ _ Hmax eq_refl Hst).
Defined.

(** ** The shape of the generated fingerprints *)

(** X7: whatever the version, the browser type and the state of the
    generator, the JA3 string has exactly five comma-separated fields: the
    TLS version 771, the fixed cipher list, the extension field, the curve
    field, and the point format 0. *)
Theorem ja3_has_five_fields version browser_type r :
  ∃ ja3 r' exts curves,
    JA3Generator.generate version browser_type r = (Ok ja3, r') ∧
    JA3Generator.fields ja3 =
      [JA3Generator.TLS_VERSION; JA3Generator.CIPHERS; exts; curves;
       JA3Generator.EC_POINT_FORMATS] ∧
    Py.free_of "," exts = true ∧ Py.free_of "," curves = true.
Proof.
  destruct (ja3_generate_shape version browser_type r) as (exts & r' & Hp & Hg).
  assert (Forall (λ s, Py.free_of "," s = true) exts) as Hfree.
  { rewrite Hp. apply ja3_extensions_free. by left. }
  exists (ja3_string exts (ja3_curves version)), r',
         (Py.join "-" exts), (ja3_curves version).
  split; [done|]. split.
  - apply ja3_fields; [done|apply ja3_curves_free].
  - split; [by apply free_of_join|apply ja3_curves_free].
Qed.

Lemma signature_algorithms_default browser_type :
  default JA3Generator.chromium_signature_algorithms
    (Py.get JA3Generator.SIGNATURE_ALGORITHMS browser_type)
  = JA3Generator.chromium_signature_algorithms.
Proof.
  unfold JA3Generator.SIGNATURE_ALGORITHMS. cbn [Py.get].
  repeat case_decide; reflexivity.
Qed.

(** X8: for every browser type, listed in the signature-algorithm table or
    not, [get_extra_fp] returns, and the options it returns carry the one
    Chromium signature-algorithm list, GREASE on, the transport's own
    extension permutation off, brotli certificate compression, an exclusive
    stream and a stream weight out of 220, 230, 240, 250, 256. *)
Theorem extra_fp_options browser_type r :
  ∃ x r',
    JA3Generator.get_extra_fp browser_type r = (Ok x, r') ∧
    x.(JA3Generator.tls_signature_algorithms)
      = JA3Generator.chromium_signature_algorithms ∧
    x.(JA3Generator.tls_grease) = true ∧
    x.(JA3Generator.tls_permute_extensions) = false ∧
    x.(JA3Generator.tls_cert_compression) = "brotli" ∧
    x.(JA3Generator.http2_stream_weight) ∈ [220; 230; 240; 250; 256] ∧
    x.(JA3Generator.http2_stream_exclusive) = 1.
Proof.
  unfold JA3Generator.get_extra_fp.
  destruct (choice_spec [220; 230; 240; 250; 256] r) as (n & r1 & Hc & Hin); [done|].
  erewrite eff_bind_ok by reflexivity.
  erewrite eff_bind_ok by exact Hc.
  eexists _, r1. split; [reflexivity|]. cbn.
  split; [apply signature_algorithms_default|]. by repeat split.
Qed.

(** The settings string of the Chromium family: the stream limit there or
    not. *)
Lemma akamai_settings_chromium browser_type r :
  browser_type ≠ "safari" →
  ∃ settings r' limit,
    AkamaiGenerator._generate_settings browser_type r = (Ok settings, r') ∧
    limit ∈ [[]; ["3:100"]; ["3:200"]; ["3:500"]; ["3:1000"]] ∧
    Py.split ";" settings =
      ["1:65536"] ++
      (if bool_decide (browser_type ∈ ["chrome"; "brave"]) then ["2:0"] else []) ++
      limit ++ ["4:6291456"; "6:262144"] ∧
    Py.free_of "|" settings = true.
Proof.
  intros Hns. unfold AkamaiGenerator._generate_settings.
  rewrite bool_decide_eq_false_2 by done.
  destruct (random_spec r) as (k & r1 & Hr & _).
  erewrite eff_bind_ok by exact Hr.
  destruct (Qlt_le_dec _ _).
  - destruct (choice_spec [100; 200; 500; 1000] r1) as (n & r2 & Hc & Hin); [done|].
    erewrite eff_bind_ok; [|by erewrite eff_bind_ok by exact Hc].
    apply list_elem_of_In in Hin. simpl in Hin.
    exists (Py.join ";"
              (["1:65536"] ++
               (if bool_decide (browser_type ∈ ["chrome"; "brave"])
                then ["2:0"] else []) ++
               ["3:" +:+ Py.str_of_int n] ++ ["4:6291456"; "6:262144"])),
           r2, ["3:" +:+ Py.str_of_int n].
    split; [by destruct (bool_decide (browser_type ∈ ["chrome"; "brave"]))|].
    split.
    + destruct Hin as [<-|[<-|[<-|[<-|[]]]]];
        eapply bool_decide_unpack; vm_compute; exact I.
    + destruct (bool_decide (browser_type ∈ ["chrome"; "brave"]));
        destruct Hin as [<-|[<-|[<-|[<-|[]]]]]; split; vm_compute; reflexivity.
  - erewrite eff_bind_ok by reflexivity.
    exists (Py.join ";"
              (["1:65536"] ++
               (if bool_decide (browser_type ∈ ["chrome"; "brave"])
                then ["2:0"] else []) ++
               [] ++ ["4:6291456"; "6:262144"])),
           r1, [].
    split; [by destruct (bool_decide (browser_type ∈ ["chrome"; "brave"]))|].
    split; [by left|].
    destruct (bool_decide (browser_type ∈ ["chrome"; "brave"]));
      split; vm_compute; reflexivity.
Qed.

(** X9: for every browser type other than safari the settings field lists,
    in this order, the header-table size, the push setting (present for
    chrome and brave only, so absent for edge and for any unknown type),
    optionally a stream limit of 100, 200, 500 or 1000, the initial window
    size and the header-list size. *)
Theorem akamai_settings_of_chromium_family browser_type r :
  browser_type ≠ "safari" →
  ∃ settings r' limit,
    AkamaiGenerator._generate_settings browser_type r = (Ok settings, r') ∧
    limit ∈ [[]; ["3:100"]; ["3:200"]; ["3:500"]; ["3:1000"]] ∧
    Py.split ";" settings =
      ["1:65536"] ++
      (if bool_decide (browser_type ∈ ["chrome"; "brave"]) then ["2:0"] else []) ++
      limit ++ ["4:6291456"; "6:262144"].
Proof.
  intros Hns.
  destruct (akamai_settings_chromium browser_type r Hns)
    as (s & r' & limit & Hs & Hl & Hsplit & _).
  by exists s, r', limit.
Qed.

Lemma akamai_settings_of_chromium_family_witness :
  "edge" ≠ "safari" ∧
  ∃ settings r' limit,
    AkamaiGenerator._generate_settings "edge" [1%N; 2%N] = (Ok settings, r') ∧
    limit ∈ [[]; ["3:100"]; ["3:200"]; ["3:500"]; ["3:1000"]] ∧
    Py.split ";" settings =
      ["1:65536"] ++
      (if bool_decide ("edge" ∈ ["chrome"; "brave"]) then ["2:0"] else []) ++
      limit ++ ["4:6291456"; "6:262144"].
Proof.
  assert ("edge" ≠ "safari") as Hns by discriminate.
  split; [exact Hns|].
  exact (akamai_settings_of_chromium_family "edge" [1%N; 2%N] Hns).
Defined.

Lemma akamai_settings_bar_free browser_type r :
  ∃ settings r',
    AkamaiGenerator._generate_settings browser_type r = (Ok settings, r') ∧
    Py.free_of "|" settings = true.
Proof.
  destruct (decide (browser_type = "safari")) as [->|Hns].
  - by exists safari_settings, r.
  - destruct (akamai_settings_chromium browser_type r Hns)
      as (s & r' & _ & Hs & _ & _ & Hfree).
    by exists s, r'.
Qed.

(** X10: for every browser type and state of the generator the Akamai
    string has exactly four bar-separated fields: the settings string that
    [_generate_settings] gives, a window update out of the ten-value table,
    a priority out of 0, 1, 3, and one of the three pseudo-header orders. *)
Theorem akamai_has_four_fields browser_type r :
  ∃ akamai r' settings r0 window_update priority pseudo_order,
    AkamaiGenerator.generate browser_type r = (Ok akamai, r') ∧
    AkamaiGenerator._generate_settings browser_type r = (Ok settings, r0) ∧
    AkamaiGenerator.fields akamai =
      [settings; Py.str_of_int window_update; priority; pseudo_order] ∧
    window_update ∈ AkamaiGenerator.WINDOW_UPDATE_VALUES ∧
    priority ∈ ["0"; "1"; "3"] ∧
    pseudo_order ∈ ["m,a,s,p"; "m,s,a,p"; "m,p,a,s"].
Proof.
  destruct (akamai_settings_bar_free browser_type r) as (s & r0 & H0 & Hs).
  destruct (choice_spec AkamaiGenerator.WINDOW_UPDATE_VALUES r0)
    as (wu & r1 & H1 & Hwu); [done|].
  destruct (choice_spec AkamaiGenerator.PRIORITY_VALUES r1)
    as (pr & r2 & H2 & Hpr); [done|].
  destruct (choice_spec AkamaiGenerator.PSEUDO_HEADER_ORDERS r2)
    as (po & r3 & H3 & Hpo); [done|].
  exists (s +:+ String "|" (Py.str_of_int wu +:+ String "|"
            (pr +:+ String "|" po))), r3, s, r0, wu, pr, po.
  split.
  { unfold AkamaiGenerator.generate.
    erewrite eff_bind_ok by exact H0. erewrite eff_bind_ok by exact H1.
    erewrite eff_bind_ok by exact H2. erewrite eff_bind_ok by exact H3.
    reflexivity. }
  split; [done|].
  assert (Py.free_of "|" (Py.str_of_int wu) = true) as Hfwu.
  { apply list_elem_of_In in Hwu. simpl in Hwu.
    repeat (destruct Hwu as [<-|Hwu]; [vm_compute; reflexivity|]). done. }
  assert (Py.free_of "|" pr = true ∧ pr ∈ ["0"; "1"; "3"]) as [Hfpr Hpr'].
  { apply list_elem_of_In in Hpr. simpl in Hpr.
    repeat (destruct Hpr as [<-|Hpr];
            [split; [reflexivity|eapply bool_decide_unpack; vm_compute; exact I]|]).
    done. }
  assert (Py.free_of "|" po = true) as Hfpo.
  { apply list_elem_of_In in Hpo. simpl in Hpo.
    repeat (destruct Hpo as [<-|Hpo]; [reflexivity|]). done. }
  split; [|done].
  unfold AkamaiGenerator.fields.
  rewrite !split_app by done. by rewrite split_free.
Qed.

(** ** Every order is reachable *)

Lemma randbelow_exact n j rest :
  (j < n)%nat → randbelow n (N.of_nat j :: rest) = (Ok j, rest).
Proof.
  intros Hj. unfold randbelow, eff_bind, draw, eff_ret. do 2 f_equal.
  rewrite N.mod_small by lia. lia.
Qed.

Lemma swap_lookup_top {A} (x : list A) i j b :
  (j ≤ i)%nat → (i < length x)%nat → x !! j = Some b →
  swap x i j !! i = Some b ∧ drop (S i) (swap x i j) = drop (S i) x.
Proof.
  intros Hji Hi Hb. unfold swap.
  destruct (lookup_lt_is_Some_2 x i Hi) as [a Ha]. rewrite Ha, Hb. split.
  - destruct (decide (j = i)) as [->|Hne].
    + rewrite list_lookup_insert_eq by (rewrite length_insert; lia). congruence.
    + rewrite list_lookup_insert_ne by done.
      by rewrite list_lookup_insert_eq.
  - by rewrite !drop_insert_lt by lia.
Qed.

Lemma shuffle_from_reaches {A} i (x y : list A) :
  (i < length x)%nat →
  take (S i) x ≡ₚ take (S i) y → drop (S i) x = drop (S i) y →
  ∃ r, ∀ rest, shuffle_from i x (r ++ rest) = (Ok y, rest).
Proof.
  revert x. induction i as [|i IH]; intros x Hi Hp Hd.
  - exists []. intros rest. simpl. unfold eff_ret. f_equal. f_equal.
    rewrite <-(take_drop 1 x), <-(take_drop 1 y), Hd. f_equal.
    destruct x as [|a x]; [simpl in Hi; lia|].
    destruct y as [|b y]; simpl in *.
    + by apply Permutation_nil_r in Hp.
    + by apply Permutation_singleton_inj in Hp as ->.
  - assert (length y = length x) as Hlen.
    { rewrite <-(take_drop (S (S i)) y), <-(take_drop (S (S i)) x), <-Hd.
      rewrite !length_app. f_equal. symmetry. by apply Permutation_length. }
    destruct (lookup_lt_is_Some_2 y (S i) ltac:(lia)) as [b Hb].
    assert (b ∈ take (S (S i)) x) as Hin.
    { rewrite Hp. apply list_elem_of_lookup. exists (S i).
      by rewrite lookup_take_lt by lia. }
    apply list_elem_of_lookup in Hin as [j Hj].
    apply lookup_take_Some in Hj as [Hj Hlt].
    destruct (swap_lookup_top x (S i) j b ltac:(lia) Hi Hj) as [Htop Hdrop].
    assert (drop (S i) (swap x (S i) j) = drop (S i) y) as Hd'.
    { rewrite (drop_S _ _ _ Htop), (drop_S _ _ _ Hb). by rewrite Hdrop, Hd. }
    destruct (IH (swap x (S i) j)) as [r Hr].
    + rewrite swap_length. lia.
    + eapply (Permutation_app_inv_r (drop (S i) y)).
      rewrite <-Hd' at 1. rewrite !take_drop.
      rewrite swap_Permutation.
      by rewrite <-(take_drop (S (S i)) x), <-(take_drop (S (S i)) y), Hp, Hd.
    + done.
    + exists (N.of_nat j :: r). intros rest.
      change (shuffle_from (S i) x ((N.of_nat j :: r) ++ rest))
        with ((j' <- randbelow (S (S i)) ;; shuffle_from i (swap x (S i) j'))
                (N.of_nat j :: (r ++ rest))).
      erewrite eff_bind_ok by (by apply randbelow_exact). apply Hr.
Qed.

Lemma shuffle_reaches {A} (x y : list A) :
  y ≡ₚ x → ∃ r, ∀ rest, shuffle x (r ++ rest) = (Ok y, rest).
Proof.
  intros Hp. unfold shuffle. destruct x as [|a x].
  - apply Permutation_nil_r in Hp as ->. by exists [].
  - assert (length y = length (a :: x)) as Hlen by by apply Permutation_length.
    apply shuffle_from_reaches.
    + simpl. lia.
    + rewrite !firstn_all2 by lia. done.
    + rewrite !drop_ge by lia. done.
Qed.

(** X11: the shuffle can produce every order.  For each arrangement of the
    extension list of a version there is a sequence of draws on which
    [JA3Generator.generate] returns the JA3 string with exactly that
    arrangement in its extension field, consuming exactly those draws. *)
Theorem ja3_every_extension_order_reachable version browser_type target :
  target ≡ₚ ja3_extensions version →
  ∃ r, ∀ rest,
    JA3Generator.generate version browser_type (r ++ rest)
    = (Ok (ja3_string target (ja3_curves version)), rest) ∧
    JA3Generator.extension_field (ja3_string target (ja3_curves version))
    = target.
Proof.
  intros Hp.
  destruct (shuffle_reaches (ja3_extensions version) target Hp) as [r Hr].
  exists r. intros rest. split.
  - unfold JA3Generator.generate, JA3Generator._permute_extensions.
    assert ((if bool_decide (version >= 117)
             then JA3Generator.BASE_EXTENSIONS ++ [JA3Generator.ECH_EXTENSION]
             else JA3Generator.BASE_EXTENSIONS) = ja3_extensions version) as ->.
    { unfold ja3_extensions. case_bool_decide; [done|]. by rewrite app_nil_r. }
    erewrite eff_bind_ok by apply Hr.
    unfold ja3_curves. case_bool_decide; reflexivity.
  - assert (∀ c, c = ","%char ∨ c = "-"%char →
                 Forall (λ s, Py.free_of c s = true) target) as Hfree.
    { intros c Hc. rewrite Hp. by apply ja3_extensions_free. }
    unfold JA3Generator.extension_field.
    rewrite ja3_fields by (auto using ja3_curves_free). cbn [lookup list_lookup default id].
    apply split_join; [|auto].
    intros ->. apply Permutation_nil_l in Hp.
    unfold ja3_extensions, JA3Generator.BASE_EXTENSIONS in Hp. discriminate.
Qed.

Lemma ja3_every_extension_order_reachable_witness :
  reverse (ja3_extensions 144) ≡ₚ ja3_extensions 144 ∧
  ∃ r, ∀ rest,
    JA3Generator.generate 144 "chrome" (r ++ rest)
    = (Ok (ja3_string (reverse (ja3_extensions 144)) (ja3_curves 144)), rest) ∧
    JA3Generator.extension_field
      (ja3_string (reverse (ja3_extensions 144)) (ja3_curves 144))
    = reverse (ja3_extensions 144).
Proof.
  assert (reverse (ja3_extensions 144) ≡ₚ ja3_extensions 144) as Hp
    by apply reverse_Permutation.
  split; [exact Hp|].
  exact (ja3_every_extension_order_reachable 144 "chrome" _ Hp).
Defined.

(** ** Forced platform, browser and version *)

Section Selection.
Import UserAgentGenerator.

Lemma get_random_pool plat r :
  ∃ p r', get_random plat r = (Ok p, r') ∧ p ∈ random_pool plat.
Proof.
  unfold get_random, random_pool.
  destruct (if truthy plat then _ else _) as [|p0 l].
  - by apply choice_spec.
  - by apply choice_spec.
Qed.

Lemma choice_or_random_pool l plat r :
  ∃ p r', choice_or_random l plat r = (Ok p, r') ∧ p ∈ pool_or_random l plat.
Proof.
  destruct l as [|p0 l]; unfold choice_or_random, pool_or_random.
  - apply get_random_pool.
  - by apply choice_spec.
Qed.

Lemma random_pool_platform pl p :
  pl ∈ known_platforms → p ∈ random_pool (Some pl) → p.(platform) = pl.
Proof.
  intros Hpl. unfold random_pool.
  destruct (if truthy (Some pl) then _ else _) as [|p0 l] eqn:Hf.
  - exfalso. apply list_elem_of_In in Hpl. simpl in Hpl.
    destruct Hpl as [<-|[<-|[<-|[<-|[]]]]]; vm_compute in Hf; discriminate.
  - intros Hin. destruct (truthy (Some pl)); [|done].
    rewrite <-Hf in Hin. apply list_elem_of_filter in Hin as [Hp _]. congruence.
Qed.

Lemma pool_or_random_platform (X : UserAgentInfo → bool) pl p :
  pl ∈ known_platforms →
  p ∈ pool_or_random
        (filter (λ p, X p && platform_ok (Some pl) p = true) PROFILES) (Some pl) →
  p.(platform) = pl.
Proof.
  intros Hpl. unfold pool_or_random.
  destruct (filter _ PROFILES) as [|p0 l] eqn:Hf.
  - by apply random_pool_platform.
  - rewrite <-Hf. intros [Hp _]%list_elem_of_filter.
    apply andb_true_iff in Hp as [_ Hp]. by apply bool_decide_eq_true in Hp.
Qed.

(** The profile [BrowserInfo.generate] turns into an identity comes from the
    selector it dispatches to. *)
Lemma generate_from_selector plat browser ver r
    (pool : list UserAgentInfo) :
  (∃ p r',
     match ver, browser, plat with
     | Some v, Some b, _ => BrowserInfo.by_browser b (get_version v plat) plat
     | _, Some b, _ => BrowserInfo.by_browser b (get_chrome plat) plat
     | _, None, Some _ => get_random plat
     | _, None, None => get_weighted_random
     end r = (Ok p, r') ∧ p ∈ pool) →
  ∃ p r', BrowserInfo.generate plat browser ver r = (Ok (browser_info_of p), r') ∧
          p ∈ pool.
Proof.
  intros (p & r' & Hsel & Hin). exists p, r'. split; [|done].
  unfold BrowserInfo.generate. by erewrite eff_bind_ok by exact Hsel.
Qed.

Lemma mobile_platforms p :
  p ∈ PROFILES → p.(mobile) = bool_decide (p.(platform) ∈ ["iOS"; "Android"]).
Proof.
  revert p. apply Forall_forall.
  unfold PROFILES. repeat (constructor; [reflexivity|]). constructor.
Qed.

Lemma random_pool_sub plat : random_pool plat ⊆ PROFILES.
Proof.
  unfold random_pool.
  destruct (if truthy plat then _ else _) as [|p0 l] eqn:Hf; [done|].
  destruct (truthy plat); [|done].
  rewrite <-Hf. apply filter_PROFILES.
Qed.

Lemma pool_or_random_sub l plat :
  l ⊆ PROFILES → pool_or_random l plat ⊆ PROFILES.
Proof. destruct l; [intros _; apply random_pool_sub|done]. Qed.

Lemma selector_platform (X : UserAgentInfo → bool) pl r :
  pl ∈ known_platforms →
  ∃ p r',
    choice_or_random
      (filter (λ p, X p && platform_ok (Some pl) p = true) PROFILES) (Some pl) r
    = (Ok p, r') ∧ p ∈ PROFILES ∧ p.(platform) = pl.
Proof.
  intros Hpl.
  destruct (choice_or_random_pool
              (filter (λ p, X p && platform_ok (Some pl) p = true) PROFILES)
              (Some pl) r) as (p & r' & Hsel & Hin).
  exists p, r'. split; [done|]. split.
  - eapply pool_or_random_sub; [|exact Hin]. apply (filter_PROFILES _).
  - by eapply pool_or_random_platform.
Qed.

Lemma get_random_platform pl r :
  pl ∈ known_platforms →
  ∃ p r', get_random (Some pl) r = (Ok p, r') ∧ p ∈ PROFILES ∧ p.(platform) = pl.
Proof.
  intros Hpl. destruct (get_random_pool (Some pl) r) as (p & r' & Hsel & Hin).
  exists p, r'. split; [done|]. split.
  - by eapply random_pool_sub.
  - by apply random_pool_platform.
Qed.

Lemma pool_check (Q : UserAgentInfo → Prop) `{∀ p, Decision (Q p)} pool p :
  bool_decide (Forall Q pool) = true → p ∈ pool → Q p.
Proof.
  intros HQ%bool_decide_eq_true Hin. by eapply Forall_forall in HQ.
Qed.

End Selection.

(** X12: a forced platform out of Windows, macOS, iOS and Android is always
    honoured: whatever browser and version are requested with it, supported
    on that platform or not, [BrowserInfo.generate] returns an identity of
    that platform, mobile exactly for iOS and Android. *)
Theorem forced_platform_is_honoured pl browser ver r :
  pl ∈ known_platforms →
  ∃ info r',
    BrowserInfo.generate (Some pl) browser ver r = (Ok info, r') ∧
    info.(BrowserInfo.platform) = pl ∧
    info.(BrowserInfo.mobile) = bool_decide (pl ∈ ["iOS"; "Android"]) ∧
    info.(BrowserInfo.sec_ch_ua_mobile) =
      (if bool_decide (pl ∈ ["iOS"; "Android"]) then "?1" else "?0").
Proof.
  intros Hpl.
  destruct (generate_from_selector (Some pl) browser ver r
              (filter (λ p, p.(UserAgentGenerator.platform) = pl)
                      UserAgentGenerator.PROFILES))
    as (p & r' & Hgen & [Hp Hin]%list_elem_of_filter).
  { assert (∀ X r,
      ∃ p r',
        UserAgentGenerator.choice_or_random
          (filter (λ p, X p && UserAgentGenerator.platform_ok (Some pl) p = true)
                  UserAgentGenerator.PROFILES) (Some pl) r = (Ok p, r') ∧
        p ∈ filter (λ p, p.(UserAgentGenerator.platform) = pl)
                   UserAgentGenerator.PROFILES) as Hsel.
    { intros X r0.
      destruct (selector_platform X pl r0 Hpl) as (p & r' & Hs & Hin & Hp).
      exists p, r'. split; [done|]. by apply list_elem_of_filter. }
    assert (∀ r,
      ∃ p r',
        UserAgentGenerator.get_random (Some pl) r = (Ok p, r') ∧
        p ∈ filter (λ p, p.(UserAgentGenerator.platform) = pl)
                   UserAgentGenerator.PROFILES) as Hrand.
    { intros r0.
      destruct (get_random_platform pl r0 Hpl) as (p & r' & Hs & Hin & Hp).
      exists p, r'. split; [done|]. by apply list_elem_of_filter. }
    destruct ver as [v|], browser as [b|]; try apply Hrand;
      unfold BrowserInfo.by_browser;
      repeat case_bool_decide; first [apply Hrand | apply Hsel]. }
  exists (browser_info_of p), r'. split; [done|].
  cbn. rewrite (mobile_platforms p Hin), Hp. done.
Qed.

Lemma forced_platform_is_honoured_witness :
  "iOS" ∈ known_platforms ∧
  ∃ info r',
    BrowserInfo.generate (Some "iOS") (Some "edge") (Some 120) [7%N] = (Ok info, r') ∧
    info.(BrowserInfo.platform) = "iOS" ∧
    info.(BrowserInfo.mobile) = bool_decide ("iOS" ∈ ["iOS"; "Android"]) ∧
    info.(BrowserInfo.sec_ch_ua_mobile) =
      (if bool_decide ("iOS" ∈ ["iOS"; "Android"]) then "?1" else "?0").
Proof.
  assert ("iOS" ∈ known_platforms) as Hpl
    by (eapply bool_decide_unpack; vm_compute; exact I).
  split; [exact Hpl|].
  exact (forced_platform_is_honoured "iOS" (Some "edge") (Some 120) [7%N] Hpl).
Defined.

(** X13: on a forced platform a forced browser is honoured exactly when the
    catalogue has a profile of that platform that classifies as that
    browser; otherwise the request falls back, without an error, to another
    browser of the platform.  Chrome on iOS is such a case: its profiles
    classify as safari. *)
Theorem forced_browser_honoured_iff_catalogued pl b r :
  pl ∈ known_platforms → b ∈ known_browsers →
  ∃ info r',
    BrowserInfo.generate (Some pl) (Some b) None r = (Ok info, r') ∧
    (info.(BrowserInfo.browser_type) = b ↔
     Exists (λ q, q.(UserAgentGenerator.platform) = pl ∧ classified q = b)
            UserAgentGenerator.PROFILES).
Proof.
  intros Hpl Hb.
  enough (∃ pool,
    (∃ p r', BrowserInfo.by_browser b (UserAgentGenerator.get_chrome (Some pl))
               (Some pl) r = (Ok p, r') ∧ p ∈ pool) ∧
    bool_decide (Forall (λ p, classified p = b ↔
        Exists (λ q, q.(UserAgentGenerator.platform) = pl ∧ classified q = b)
               UserAgentGenerator.PROFILES) pool) = true)
    as (pool & Hsel & Hall).
  { destruct (generate_from_selector (Some pl) (Some b) None r pool Hsel)
      as (p & r' & Hgen & Hin).
    exists (browser_info_of p), r'. split; [done|].
    exact (pool_check _ pool p Hall Hin). }
  apply list_elem_of_In in Hpl, Hb. simpl in Hpl, Hb.
  destruct Hpl as [<-|[<-|[<-|[<-|[]]]]];
    destruct Hb as [<-|[<-|[<-|[<-|[]]]]];
    eexists; (split; [unfold BrowserInfo.by_browser;
                      repeat case_bool_decide; try done;
                      apply choice_or_random_pool
                     |vm_compute; reflexivity]).
Qed.

Lemma forced_browser_honoured_iff_catalogued_witness :
  "iOS" ∈ known_platforms ∧ "chrome" ∈ known_browsers ∧
  ∃ info r',
    BrowserInfo.generate (Some "iOS") (Some "chrome") None [3%N] = (Ok info, r') ∧
    (info.(BrowserInfo.browser_type) = "chrome" ↔
     Exists (λ q, q.(UserAgentGenerator.platform) = "iOS" ∧ classified q = "chrome")
            UserAgentGenerator.PROFILES).
Proof.
  assert ("iOS" ∈ known_platforms) as Hpl
    by (eapply bool_decide_unpack; vm_compute; exact I).
  assert ("chrome" ∈ known_browsers) as Hb
    by (eapply bool_decide_unpack; vm_compute; exact I).
  split; [exact Hpl|]. split; [exact Hb|].
  exact (forced_browser_honoured_iff_catalogued "iOS" "chrome" [3%N] Hpl Hb).
Defined.

(** X14: Chrome forced on iOS gives an identity that is classified as
    safari, carries no client hints, and reports version 143 whatever the
    CriOS version in its User-Agent. *)
Theorem chrome_on_ios_is_classified_safari r :
  ∃ info r',
    BrowserInfo.generate (Some "iOS") (Some "chrome") None r = (Ok info, r') ∧
    Py.str_in "CriOS" info.(BrowserInfo.user_agent) = true ∧
    info.(BrowserInfo.browser_type) = "safari" ∧
    info.(BrowserInfo.version) = 143 ∧
    info.(BrowserInfo.sec_ch_ua) = None.
Proof.
  destruct (generate_from_selector (Some "iOS") (Some "chrome") None r
              (pool_or_random
                 (filter (λ p, (Py.str_in "Chrome" p.(UserAgentGenerator.ua)
                                || Py.str_in "CriOS" p.(UserAgentGenerator.ua))
                               && negb (Py.str_in "Edg" p.(UserAgentGenerator.ua))
                               && negb (UserAgentGenerator.has_brave p)
                               && UserAgentGenerator.platform_ok (Some "iOS") p = true)
                         UserAgentGenerator.PROFILES) (Some "iOS")))
    as (p & r' & Hgen & Hin).
  { apply choice_or_random_pool. }
  exists (browser_info_of p), r'. split; [done|].
  eapply (pool_check
           (λ p, Py.str_in "CriOS" (browser_info_of p).(BrowserInfo.user_agent) = true ∧
                 (browser_info_of p).(BrowserInfo.browser_type) = "safari" ∧
                 (browser_info_of p).(BrowserInfo.version) = 143 ∧
                 (browser_info_of p).(BrowserInfo.sec_ch_ua) = None));
    [|exact Hin]; vm_compute; reflexivity.
Qed.

(** A forced version is read only together with browser chrome: with any
    other browser name, or with no browser, [BrowserInfo.generate] does what
    it does without the version. *)
Lemma version_ignored_unless_chrome plat browser v r :
  browser ≠ Some "chrome" →
  BrowserInfo.generate plat browser (Some v) r
  = BrowserInfo.generate plat browser None r.
Proof.
  intros Hb. unfold BrowserInfo.generate.
  destruct browser as [b|]; [|done].
  unfold BrowserInfo.by_browser.
  rewrite bool_decide_eq_false_2 by congruence. done.
Qed.

Lemma chrome_version_pool plat v r :
  bool_decide
    (Forall (λ p, classified p = "chrome" ∧
                  (browser_info_of p).(BrowserInfo.version) = v ∧
                  (plat = None ∨ plat = Some p.(UserAgentGenerator.platform)))
       (pool_or_random
          (filter (λ p, Py.str_in ("Chrome/" +:+ Py.str_of_int v)
                                  p.(UserAgentGenerator.ua)
                        && negb (Py.str_in "Edg" p.(UserAgentGenerator.ua))
                        && negb (UserAgentGenerator.has_brave p)
                        && UserAgentGenerator.platform_ok plat p = true)
                  UserAgentGenerator.PROFILES) plat)) = true →
  ∃ info r',
    BrowserInfo.generate plat (Some "chrome") (Some v) r = (Ok info, r') ∧
    info.(BrowserInfo.browser_type) = "chrome" ∧
    info.(BrowserInfo.version) = v ∧
    (plat = None ∨ plat = Some info.(BrowserInfo.platform)).
Proof.
  intros Hall.
  destruct (generate_from_selector plat (Some "chrome") (Some v) r _
              (choice_or_random_pool _ plat r)) as (p & r' & Hgen & Hin).
  exists (browser_info_of p), r'. split; [done|].
  exact (pool_check _ _ p Hall Hin).
Qed.

(** X16: a forced Chrome version is honoured whenever the catalogue has a
    Chrome profile of that version for the requested platform (or for any
    platform, when none is requested): the identity is a Chrome of exactly
    that version, on the requested platform. *)
Theorem forced_chrome_version_honoured plat v r :
  Exists (λ q, classified q = "chrome" ∧
               BrowserInfo._extract_version q.(UserAgentGenerator.ua) "chrome" = v ∧
               UserAgentGenerator.platform_ok plat q = true)
         UserAgentGenerator.PROFILES →
  ∃ info r',
    BrowserInfo.generate plat (Some "chrome") (Some v) r = (Ok info, r') ∧
    info.(BrowserInfo.browser_type) = "chrome" ∧
    info.(BrowserInfo.version) = v ∧
    (plat = None ∨ plat = Some info.(BrowserInfo.platform)).
Proof.
  intros (q & Hq & Hc & Hv & Hp)%Exists_exists.
  apply list_elem_of_In in Hq. unfold UserAgentGenerator.PROFILES in Hq.
  cbn [In] in Hq.
  repeat (destruct Hq as [<-|Hq];
    [vm_compute in Hc;
     first
       [ discriminate Hc
       | vm_compute in Hv; subst v;
         apply chrome_version_pool;
         destruct plat as [pl|];
           [apply bool_decide_eq_true in Hp; cbn in Hp; subst pl|];
         vm_compute; reflexivity ]|]).
  destruct Hq.
Qed.

Lemma forced_chrome_version_honoured_witness :
  Exists (λ q, classified q = "chrome" ∧
               BrowserInfo._extract_version q.(UserAgentGenerator.ua) "chrome" = 142 ∧
               UserAgentGenerator.platform_ok (Some "Android") q = true)
         UserAgentGenerator.PROFILES ∧
  ∃ info r',
    BrowserInfo.generate (Some "Android") (Some "chrome") (Some 142) [9%N]
      = (Ok info, r') ∧
    info.(BrowserInfo.browser_type) = "chrome" ∧
    info.(BrowserInfo.version) = 142 ∧
    (Some "Android" = None ∨ Some "Android" = Some info.(BrowserInfo.platform)).
Proof.
  assert (Exists (λ q, classified q = "chrome" ∧
               BrowserInfo._extract_version q.(UserAgentGenerator.ua) "chrome" = 142 ∧
               UserAgentGenerator.platform_ok (Some "Android") q = true)
         UserAgentGenerator.PROFILES) as Hex
    by (eapply bool_decide_unpack; vm_compute; exact I).
  split; [exact Hex|].
  exact (forced_chrome_version_honoured (Some "Android") 142 [9%N] Hex).
Defined.

(** X17: whatever platform, browser and version are requested, known or
    not, [BrowserInfo.generate] returns, and the identity it returns is on
    one of the four platforms, classified as one of the four browsers,
    mobile exactly on iOS and Android, without client hints exactly when it
    is classified as safari, and of version 17, 18 or 143 when classified as
    safari and 141 to 144 otherwise. *)
Theorem generated_identity_invariants plat browser ver r :
  ∃ info r',
    BrowserInfo.generate plat browser ver r = (Ok info, r') ∧
    info.(BrowserInfo.platform) ∈ known_platforms ∧
    info.(BrowserInfo.browser_type) ∈ known_browsers ∧
    (info.(BrowserInfo.mobile) = true ↔
     info.(BrowserInfo.platform) ∈ ["iOS"; "Android"]) ∧
    (info.(BrowserInfo.sec_ch_ua) = None ↔
     info.(BrowserInfo.browser_type) = "safari") ∧
    ((info.(BrowserInfo.browser_type) = "safari" ∧
      info.(BrowserInfo.version) ∈ [17; 18; 143]) ∨
     (info.(BrowserInfo.browser_type) ≠ "safari" ∧
      info.(BrowserInfo.version) ∈ [141; 142; 143; 144])).
Proof.
  destruct (browser_info_generate_spec plat browser ver r) as (p & r' & Hgen & Hin).
  exists (browser_info_of p), r'. split; [done|].
  eapply (pool_check
    (λ p, (browser_info_of p).(BrowserInfo.platform) ∈ known_platforms ∧
          (browser_info_of p).(BrowserInfo.browser_type) ∈ known_browsers ∧
          ((browser_info_of p).(BrowserInfo.mobile) = true ↔
           (browser_info_of p).(BrowserInfo.platform) ∈ ["iOS"; "Android"]) ∧
          ((browser_info_of p).(BrowserInfo.sec_ch_ua) = None ↔
           (browser_info_of p).(BrowserInfo.browser_type) = "safari") ∧
          (((browser_info_of p).(BrowserInfo.browser_type) = "safari" ∧
            (browser_info_of p).(BrowserInfo.version) ∈ [17; 18; 143]) ∨
           ((browser_info_of p).(BrowserInfo.browser_type) ≠ "safari" ∧
            (browser_info_of p).(BrowserInfo.version) ∈ [141; 142; 143; 144]))));
    [|exact Hin]; vm_compute; reflexivity.
Qed.

Lemma generated_identity_versions plat browser ver r :
  ∃ info r',
    BrowserInfo.generate plat browser ver r = (Ok info, r') ∧
    (info.(BrowserInfo.browser_type) = "safari" ∨
     141 <= info.(BrowserInfo.version)).
Proof.
  destruct (browser_info_generate_spec plat browser ver r) as (p & r' & Hgen & Hin).
  exists (browser_info_of p), r'. split; [done|].
  eapply (pool_check
    (λ p, (browser_info_of p).(BrowserInfo.browser_type) = "safari" ∨
          141 <= (browser_info_of p).(BrowserInfo.version)));
    [|exact Hin]; vm_compute; reflexivity.
Qed.

(** ** The composed headers *)

Section DictMore.
Context {K V : Type} `{EqDecision K}.
Implicit Types (d : list (K * V)) (k : K) (v : V).

Lemma get_not_in d k : k ∉ d.*1 → Py.get d k = None.
Proof.
  induction d as [|[k' v'] d IH]; simpl; [done|].
  intros Hk. apply not_elem_of_cons in Hk as [Hne Hk].
  rewrite decide_False by done. by apply IH.
Qed.

(** [d.update(other)] overlays [other] on [d]. *)
Lemma get_update d other k :
  NoDup other.*1 →
  Py.get (Py.update d other) k = from_option Some (Py.get d k) (Py.get other k).
Proof.
  unfold Py.update. revert d.
  induction other as [|[k' v'] other IH]; intros d Hnd; simpl in *; [done|].
  apply NoDup_cons in Hnd as [Hk' Hnd].
  destruct (decide (k' = k)) as [->|Hne]; simpl.
  - change (foldl _ ?a other) with (Py.update a other).
    rewrite get_update_None by by apply get_not_in.
    apply get_set_eq.
  - rewrite IH by done. by rewrite get_set_ne.
Qed.
End DictMore.

Section ComposerMore.
Context {U : Type}.
Implicit Types (w : World U) (extra : list (string * string)).

(** X18: the caller's overrides win for every header name.  The header set
    composed with overrides is the one composed without them, with each
    overridden name mapped to the caller's value and every other name left
    as composed; the client is left in the same state either way. *)
Theorem overrides_overlay_composed_headers w extra request_type :
  NoDup extra.*1 →
  ∃ hs hs0 w',
    _get_headers (Some extra) request_type w = (Ok hs, w') ∧
    _get_headers None request_type w = (Ok hs0, w') ∧
    ∀ name, Py.get hs name
            = from_option Some (Py.get hs0 name) (Py.get extra name).
Proof.
  intros Hnd.
  destruct (profile_spec w) as (p & r' & Hp & _).
  unfold _get_headers. cbv zeta.
  erewrite !eff_bind_ok by first [exact Hp|reflexivity].
  eexists _, _, _. split; [reflexivity|]. split; [reflexivity|].
  intros name. destruct extra as [|kv extra]; [done|].
  by apply get_update.
Qed.

(** X19: without overrides the header names come in one fixed order:
    accept, accept-language, accept-encoding, cache-control, pragma, then dnt
    and sec-gpc for a brave profile only, priority, the three client-hint
    headers only when the profile has a non-empty [sec_ch_ua], the three
    sec-fetch headers, sec-fetch-user and upgrade-insecure-requests for a
    navigation only, and user-agent last; no name occurs twice. *)
Theorem composed_header_order w request_type :
  ∃ p hs w',
    _get_headers None request_type w = (Ok hs, w') ∧
    w'.(self).(_profile) = Some p ∧
    hs.*1 =
      ["accept"; "accept-language"; "accept-encoding"; "cache-control"; "pragma"] ++
      (if bool_decide (p.(FingerprintProfile.browser_type) = "brave")
       then ["dnt"; "sec-gpc"] else []) ++
      ["priority"] ++
      (if UserAgentGenerator.truthy p.(FingerprintProfile.sec_ch_ua)
       then ["sec-ch-ua"; "sec-ch-ua-mobile"; "sec-ch-ua-platform"] else []) ++
      ["sec-fetch-dest"; "sec-fetch-mode"; "sec-fetch-site"] ++
      (if bool_decide (request_type = "navigate")
       then ["sec-fetch-user"; "upgrade-insecure-requests"] else []) ++
      ["user-agent"] ∧
    NoDup hs.*1.
Proof.
  destruct (profile_spec w) as (p & r' & Hp & _).
  unfold _get_headers. cbv zeta.
  erewrite !eff_bind_ok by first [exact Hp|reflexivity].
  eexists p, _, _. split; [reflexivity|]. split; [reflexivity|].
  destruct (bool_decide (request_type = "navigate")),
    (bool_decide (p.(FingerprintProfile.browser_type) = "brave")),
    p.(FingerprintProfile.sec_ch_ua) as [[|a hints]|];
    (split; [reflexivity|]); eapply bool_decide_unpack; vm_compute; exact I.
Qed.

(** X20: the identity headers are those of the profile in use: user-agent
    is its User-Agent; when the profile has client hints, sec-ch-ua is its
    hint string, sec-ch-ua-mobile is ?1 exactly for a mobile profile and
    sec-ch-ua-platform is its platform in double quotes; when it has none
    (or an empty one), none of the three headers is sent. *)
Theorem identity_headers_follow_profile w request_type :
  ∃ p hs w',
    _get_headers None request_type w = (Ok hs, w') ∧
    w'.(self).(_profile) = Some p ∧
    Py.get hs "user-agent" = Some p.(FingerprintProfile.user_agent) ∧
    (if UserAgentGenerator.truthy p.(FingerprintProfile.sec_ch_ua) then
       Py.get hs "sec-ch-ua" = p.(FingerprintProfile.sec_ch_ua) ∧
       Py.get hs "sec-ch-ua-mobile"
         = Some (if p.(FingerprintProfile.mobile) then "?1" else "?0") ∧
       Py.get hs "sec-ch-ua-platform"
         = Some (UserAgentGenerator.dq +:+ p.(FingerprintProfile.platform)
                 +:+ UserAgentGenerator.dq)
     else
       Py.get hs "sec-ch-ua" = None ∧
       Py.get hs "sec-ch-ua-mobile" = None ∧
       Py.get hs "sec-ch-ua-platform" = None).
Proof.
  destruct (profile_spec w) as (p & r' & Hp & _).
  unfold _get_headers. cbv zeta.
  erewrite !eff_bind_ok by first [exact Hp|reflexivity].
  eexists p, _, _. split; [reflexivity|]. split; [reflexivity|].
  destruct (bool_decide (request_type = "navigate")),
    (bool_decide (p.(FingerprintProfile.browser_type) = "brave")),
    p.(FingerprintProfile.sec_ch_ua) as [[|a hints]|];
    repeat split; reflexivity.
Qed.

(** X21: any request type other than navigate, known or not, is composed
    as an API call: accept is the wildcard, priority u=1, the sec-fetch
    triple is empty, cors, same-site, and neither sec-fetch-user nor
    upgrade-insecure-requests is sent. *)
Theorem other_request_types_are_api_calls w request_type :
  request_type ≠ "navigate" →
  ∃ hs w',
    _get_headers None request_type w = (Ok hs, w') ∧
    Py.get hs "accept" = Some "*/*" ∧
    Py.get hs "priority" = Some "u=1, i" ∧
    Py.get hs "sec-fetch-dest" = Some "empty" ∧
    Py.get hs "sec-fetch-mode" = Some "cors" ∧
    Py.get hs "sec-fetch-site" = Some "same-site" ∧
    Py.get hs "sec-fetch-user" = None ∧
    Py.get hs "upgrade-insecure-requests" = None.
Proof.
  intros Hrt.
  destruct (profile_spec w) as (p & r' & Hp & _).
  unfold _get_headers. cbv zeta.
  erewrite !eff_bind_ok by first [exact Hp|reflexivity].
  eexists _, _. split; [reflexivity|].
  rewrite (bool_decide_eq_false_2 (request_type = "navigate")) by done.
  destruct (bool_decide (p.(FingerprintProfile.browser_type) = "brave")),
    p.(FingerprintProfile.sec_ch_ua) as [[|a hints]|];
    repeat split; reflexivity.
Qed.
End ComposerMore.

Lemma overrides_overlay_composed_headers_witness :
  NoDup [("cache-control", "no-store"); ("x-requested-with", "XMLHttpRequest")].*1 ∧
  ∃ hs hs0 w',
    _get_headers (Some [("cache-control", "no-store");
                        ("x-requested-with", "XMLHttpRequest")])
                 "api" sample_world = (Ok hs, w') ∧
    _get_headers None "api" sample_world = (Ok hs0, w') ∧
    ∀ name, Py.get hs name
            = from_option Some (Py.get hs0 name)
                (Py.get [("cache-control", "no-store");
                         ("x-requested-with", "XMLHttpRequest")] name).
Proof.
  assert (NoDup [("cache-control", "no-store");
                 ("x-requested-with", "XMLHttpRequest")].*1) as Hnd
    by (eapply bool_decide_unpack; vm_compute; exact I).
  split; [exact Hnd|].
  exact (overrides_overlay_composed_headers sample_world _ "api" Hnd).
Defined.

Lemma other_request_types_are_api_calls_witness :
  "NAVIGATE" ≠ "navigate" ∧
  ∃ hs w',
    _get_headers None "NAVIGATE" sample_world = (Ok hs, w') ∧
    Py.get hs "accept" = Some "*/*" ∧
    Py.get hs "priority" = Some "u=1, i" ∧
    Py.get hs "sec-fetch-dest" = Some "empty" ∧
    Py.get hs "sec-fetch-mode" = Some "cors" ∧
    Py.get hs "sec-fetch-site" = Some "same-site" ∧
    Py.get hs "sec-fetch-user" = None ∧
    Py.get hs "upgrade-insecure-requests" = None.
Proof.
  assert ("NAVIGATE" ≠ "navigate") as Hrt by discriminate.
  split; [exact Hrt|].
  exact (other_request_types_are_api_calls sample_world "NAVIGATE" Hrt).
Defined.

(** ** Requests and regeneration *)

Section RequestsMore.
Context {U : Type}.
Variable transport : Request → Eff (SessionManager.Session * U) Retry.Response.
Implicit Types (w : World U).

(** X22: with [raw_headers] set and a non-empty header dictionary given, a
    client that does not regenerate per request hands the transport exactly
    the given headers, with its own proxy URL and timeout; the composer is
    not entered, so the request counter, the profile and the generator are
    left as they were, and only the session and the network change, as the
    transport leaves them. *)
Theorem raw_headers_bypass_composer w method_ url_ given data_ json_ params_
    request_type :
  w.(self).(randomize_per_request) = false →
  given ≠ [] →
  ∃ outcome session' network',
    transport {| method := method_; url := url_; headers := given;
                 data := data_; json := json_; params := params_;
                 proxy := w.(self).(proxy_url);
                 request_timeout := w.(self).(timeout) |}
              (w.(self).(_session), w.(network))
      = (outcome, (session', network')) ∧
    _make_request transport method_ url_ (Some given) data_ json_ params_
                  true request_type w
      = (outcome, {| self := set_session session' w.(self);
                     entropy := w.(entropy);
                     network := network' |}).
Proof.
  intros Hmode Hgiven. destruct given as [|h given]; [done|].
  destruct (transport _ (w.(self).(_session), w.(network)))
    as [outcome [session' network']] eqn:Hrun.
  exists outcome, session', network'. split; [reflexivity|].
  unfold _make_request.
  erewrite eff_bind_ok by reflexivity. rewrite Hmode.
  erewrite eff_bind_ok by reflexivity.
  erewrite eff_bind_ok by reflexivity.
  erewrite eff_bind_ok by reflexivity.
  unfold session_request, zoom. by rewrite Hrun.
Qed.

(** X23: [randomize] returns for every client; it installs the new profile
    and replaces the session by a fresh one carrying the new profile's
    fingerprints, so the cookies and the session headers collected so far
    are gone; the request counter, the forced platform, browser and version,
    the timeout, the proxy URL, the retry configuration and the network are
    left as they were. *)
Theorem randomize_replaces_session w :
  ∃ p w',
    randomize w = (Ok p, w') ∧
    w'.(self).(_profile) = Some p ∧
    w'.(self).(_session)
      = SessionManager.new_session p.(FingerprintProfile.ja3)
          p.(FingerprintProfile.akamai) p.(FingerprintProfile.extra_fp) ∧
    w'.(self).(_session).(SessionManager.cookies) = [] ∧
    w'.(self).(_session).(SessionManager.headers) = [] ∧
    w'.(self).(_request_count) = w.(self).(_request_count) ∧
    (w'.(self).(_platform), w'.(self).(_browser), w'.(self).(_browser_version))
      = (w.(self).(_platform), w.(self).(_browser), w.(self).(_browser_version)) ∧
    (w'.(self).(timeout), w'.(self).(proxy_url), w'.(self).(_retry_config))
      = (w.(self).(timeout), w.(self).(proxy_url), w.(self).(_retry_config)) ∧
    w'.(network) = w.(network).
Proof.
  destruct (generate_profile_spec w.(self).(_platform) w.(self).(_browser)
              w.(self).(_browser_version) w.(entropy))
    as (info & ja3 & akamai & x & r1 & r2 & r3 & r' & _ & _ & _ & _ & _ & Hgen).
  unfold randomize. erewrite eff_bind_ok by reflexivity.
  erewrite eff_bind_ok; [|unfold zoom, _generate_profile; by rewrite Hgen].
  erewrite eff_bind_ok by reflexivity.
  erewrite eff_bind_ok by reflexivity.
  eexists _, _. split; [reflexivity|]. by repeat split.
Qed.
End RequestsMore.

Lemma raw_headers_bypass_composer_witness :
  sample_world.(self).(randomize_per_request) = false ∧
  [("x-api-key", "k")] ≠ [] ∧
  ∃ outcome session' network',
    offline {| method := "GET"; url := "https://example.com";
               headers := [("x-api-key", "k")];
               data := None; json := None; params := None;
               proxy := sample_world.(self).(proxy_url);
               request_timeout := sample_world.(self).(timeout) |}
            (sample_world.(self).(_session), sample_world.(network))
      = (outcome, (session', network')) ∧
    _make_request offline "GET" "https://example.com" (Some [("x-api-key", "k")])
                  None None None true "navigate" sample_world
      = (outcome, {| self := set_session session' sample_world.(self);
                     entropy := sample_world.(entropy);
                     network := network' |}).
Proof.
  assert (sample_world.(self).(randomize_per_request) = false) as Hmode
    by reflexivity.
  assert ([("x-api-key", "k")] ≠ ([] : list (string * string))) as Hgiven
    by discriminate.
  split; [exact Hmode|]. split; [exact Hgiven|].
  exact (raw_headers_bypass_composer offline sample_world "GET"
           "https://example.com" [("x-api-key", "k")] None None None
           "navigate" Hmode Hgiven).
Defined.

(** ** The fingerprints of a Chromium-family profile *)

(** X24: every profile [_generate_profile] builds is either classified as
    safari or carries the full Chromium TLS shape: its JA3 extension field is
    an arrangement of the base extensions and the ECH extension, and its
    curve field starts with the hybrid group, because every catalogued
    identity of the Chromium family has a version of at least 141. *)
Theorem chromium_profiles_have_ech_and_hybrid_group plat browser ver r :
  ∃ p r',
    generate_profile plat browser ver r = (Ok p, r') ∧
    (p.(FingerprintProfile.browser_type) = "safari" ∨
     (JA3Generator.extension_field p.(FingerprintProfile.ja3) ≡ₚ
        JA3Generator.BASE_EXTENSIONS ++ [JA3Generator.ECH_EXTENSION] ∧
      JA3Generator.curve_field p.(FingerprintProfile.ja3)
        = [hybrid_group_id; "29"; "23"; "24"])).
Proof.
  destruct (generate_profile_spec plat browser ver r)
    as (info & ja3 & akamai & x & r1 & r2 & r3 & r' & Hinfo & Hja3 & _ & _ & _ & Hgen).
  eexists _, r'. split; [exact Hgen|]. cbn.
  destruct (generated_identity_versions plat browser ver r)
    as (info' & r1' & Hinfo' & Hver).
  rewrite Hinfo in Hinfo'. injection Hinfo' as <- <-.
  destruct Hver as [Hs|Hver]; [by left|right].
  destruct (ja3_generate_shape info.(BrowserInfo.version)
              info.(BrowserInfo.browser_type) r1) as (exts & r2' & Hp & Hshape).
  rewrite Hja3 in Hshape. injection Hshape as -> <-.
  assert (ja3_extensions info.(BrowserInfo.version)
          = JA3Generator.BASE_EXTENSIONS ++ [JA3Generator.ECH_EXTENSION]) as Hext.
  { unfold ja3_extensions. by rewrite bool_decide_eq_true_2 by lia. }
  assert (ja3_curves info.(BrowserInfo.version) = "4588-29-23-24") as Hcur.
  { unfold ja3_curves. by rewrite bool_decide_eq_true_2 by lia. }
  assert (∀ c, c = ","%char ∨ c = "-"%char →
               Forall (λ s, Py.free_of c s = true) exts) as Hfree.
  { intros c Hc. rewrite Hp. by apply ja3_extensions_free. }
  unfold JA3Generator.extension_field, JA3Generator.curve_field.
  rewrite ja3_fields by (auto using ja3_curves_free).
  cbn [lookup list_lookup default id]. split.
  - rewrite split_join; [by rewrite Hp, Hext| |auto].
    intros ->. apply Permutation_nil_l in Hp. rewrite Hext in Hp. discriminate.
  - rewrite Hcur. reflexivity.
Qed.

(** ** The proxy configuration *)

Section ProxyFacts.
Import ProxyConfig.

Lemma strip_prefix_app p s : BrowserInfo.strip_prefix p (p +:+ s) = Some s.
Proof.
  induction p as [|a p IH]; simpl; [by destruct s|].
  by rewrite Ascii.eqb_refl.
Qed.

Lemma strip_prefix_Some p s rest :
  BrowserInfo.strip_prefix p s = Some rest → s = p +:+ rest.
Proof.
  revert s. induction p as [|a p IH]; intros s; simpl.
  - destruct s; intros [= <-]; reflexivity.
  - destruct s as [|b s]; [done|].
    destruct (Ascii.eqb a b) eqn:Hab; [|done].
    apply Ascii.eqb_eq in Hab as ->. intros ->%IH. done.
Qed.

Lemma span_app P s : s = (span P s).1 +:+ (span P s).2.
Proof.
  induction s as [|a s IH]; simpl; [done|].
  destruct (P a); [|done].
  destruct (span P s) as [x y]. cbn [fst snd] in *.
  change (String a s = String a (x +:+ y)). by f_equal.
Qed.

Lemma span_free c x y :
  Py.free_of c x = true →
  span (λ a, negb (Ascii.eqb a c)) (x +:+ String c y) = (x, String c y).
Proof.
  induction x as [|a x IH]; simpl.
  - intros _. by rewrite Ascii.eqb_refl.
  - intros [Ha Hx]%andb_true_iff. by rewrite Ha, IH.
Qed.

Lemma span_free_all c s :
  Py.free_of c s = true → span (λ a, negb (Ascii.eqb a c)) s = (s, EmptyString).
Proof.
  induction s as [|a s IH]; simpl; [done|].
  intros [Ha Hs]%andb_true_iff. by rewrite Ha, IH.
Qed.

Lemma host_to_end_free s :
  s ≠ EmptyString → Py.free_of newline s = true → host_to_end s = Some s.
Proof.
  intros Hs Hfree. unfold host_to_end. rewrite span_free_all by done.
  by destruct s.
Qed.

Lemma credentials_none s : Py.free_of at_sign s = true → credentials s = None.
Proof.
  intros Hfree. unfold credentials.
  pose proof (span_app (λ a, negb (Ascii.eqb a colon)) s) as Hs.
  destruct (span _ s) as [user rest]. simpl in Hs.
  destruct user as [|a user]; [done|]. destruct rest as [|b rest]; [done|].
  assert (Py.free_of at_sign rest = true) as Hrest.
  { rewrite Hs in Hfree. rewrite free_of_app in Hfree.
    apply andb_true_iff in Hfree as [_ Hfree]. simpl in Hfree.
    by apply andb_true_iff in Hfree as [_ Hfree]. }
  rewrite span_free_all by done. by destruct rest.
Qed.

Lemma credentials_some user pass host :
  user ≠ EmptyString → Py.free_of colon user = true →
  pass ≠ EmptyString → Py.free_of at_sign pass = true →
  credentials (user +:+ String colon (pass +:+ String at_sign host))
  = Some (user, pass, host).
Proof.
  intros Hu Hfu Hp Hfp. unfold credentials.
  rewrite span_free by done. destruct user as [|a user]; [done|].
  rewrite span_free by done. by destruct pass.
Qed.

Lemma or_else_skip a b :
  UserAgentGenerator.truthy a = false → or_else a b = b.
Proof. intros Ha. unfold or_else. by rewrite Ha. Qed.

Lemma or_else_take a b :
  UserAgentGenerator.truthy a = true → or_else a b = a.
Proof. intros Ha. unfold or_else. by rewrite Ha. Qed.

(** The variable that decides: the first one with a non-empty value. *)
Lemma from_env_first env before name after v :
  proxy_variables = before ++ name :: after →
  Forall (λ n, UserAgentGenerator.truthy (env !! n) = false) before →
  env !! name = Some v → v ≠ EmptyString →
  from_env env = from_env {[ "HTTPS_PROXY" := v ]}.
Proof.
  intros Hsplit Hbefore Hname Hv.
  assert (UserAgentGenerator.truthy (Some v) = true) as Htv by by destruct v.
  assert (or_else (env !! "HTTPS_PROXY")
            (or_else (env !! "HTTP_PROXY")
               (or_else (env !! "https_proxy") (env !! "http_proxy")))
          = Some v) as Hchain.
  { unfold proxy_variables in Hsplit.
    destruct before as [|b0 [|b1 [|b2 [|b3 before]]]];
      cbn [app] in Hsplit; simplify_eq.
    - rewrite or_else_take; rewrite Hname; done.
    - apply Forall_cons in Hbefore as [H0 _].
      rewrite (or_else_skip _ _ H0).
      rewrite or_else_take; rewrite Hname; done.
    - apply Forall_cons in Hbefore as [H0 [H1 _]%Forall_cons].
      rewrite (or_else_skip _ _ H0), (or_else_skip _ _ H1).
      rewrite or_else_take; rewrite Hname; done.
    - apply Forall_cons in Hbefore as [H0 [H1 [H2 _]%Forall_cons]%Forall_cons].
      by rewrite (or_else_skip _ _ H0), (or_else_skip _ _ H1),
        (or_else_skip _ _ H2).
    - by destruct before. }
  unfold from_env. cbv zeta. rewrite Hchain.
  rewrite lookup_singleton_eq. by rewrite (or_else_take (Some v)).
Qed.

End ProxyFacts.

(** X25: the variables are read in the order HTTPS_PROXY, HTTP_PROXY,
    https_proxy, http_proxy, and the first one that is set to a non-empty
    string decides alone: variables before it that are unset or empty are
    skipped, and variables after it are not looked at. *)
Theorem proxy_first_nonempty_variable_decides env before name after v :
  proxy_variables = before ++ name :: after →
  Forall (λ n, UserAgentGenerator.truthy (env !! n) = false) before →
  env !! name = Some v → v ≠ EmptyString →
  ProxyConfig.from_env env = ProxyConfig.from_env {[ "HTTPS_PROXY" := v ]} ∧
  ProxyConfig.resolve None env = ProxyConfig.resolve None {[ "HTTPS_PROXY" := v ]}.
Proof.
  intros Hsplit Hbefore Hname Hv.
  pose proof (from_env_first env before name after v Hsplit Hbefore Hname Hv) as Heq.
  split; [exact Heq|]. unfold ProxyConfig.resolve. simpl. by rewrite Heq.
Qed.

Lemma proxy_first_nonempty_variable_decides_witness :
  proxy_variables = ["HTTPS_PROXY"] ++ "HTTP_PROXY" :: ["https_proxy"; "http_proxy"] ∧
  Forall (λ n, UserAgentGenerator.truthy
                 (({[ "HTTPS_PROXY" := ""; "HTTP_PROXY" := "proxy:3128";
                      "http_proxy" := "other:8080" ]} : gmap string string) !! n)
               = false) ["HTTPS_PROXY"] ∧
  ({[ "HTTPS_PROXY" := ""; "HTTP_PROXY" := "proxy:3128";
      "http_proxy" := "other:8080" ]} : gmap string string) !! "HTTP_PROXY"
    = Some "proxy:3128" ∧
  "proxy:3128" ≠ EmptyString ∧
  ProxyConfig.from_env {[ "HTTPS_PROXY" := ""; "HTTP_PROXY" := "proxy:3128";
                          "http_proxy" := "other:8080" ]}
    = ProxyConfig.from_env {[ "HTTPS_PROXY" := "proxy:3128" ]} ∧
  ProxyConfig.resolve None {[ "HTTPS_PROXY" := ""; "HTTP_PROXY" := "proxy:3128";
                              "http_proxy" := "other:8080" ]}
    = ProxyConfig.resolve None {[ "HTTPS_PROXY" := "proxy:3128" ]}.
Proof.
  assert (proxy_variables
          = ["HTTPS_PROXY"] ++ "HTTP_PROXY" :: ["https_proxy"; "http_proxy"])
    as Hsplit by reflexivity.
  assert (Forall (λ n, UserAgentGenerator.truthy
                 (({[ "HTTPS_PROXY" := ""; "HTTP_PROXY" := "proxy:3128";
                      "http_proxy" := "other:8080" ]} : gmap string string) !! n)
               = false) ["HTTPS_PROXY"]) as Hbefore
    by (repeat constructor; vm_compute; reflexivity).
  assert (({[ "HTTPS_PROXY" := ""; "HTTP_PROXY" := "proxy:3128";
      "http_proxy" := "other:8080" ]} : gmap string string) !! "HTTP_PROXY"
    = Some "proxy:3128") as Hname by (vm_compute; reflexivity).
  assert ("proxy:3128" ≠ EmptyString) as Hv by discriminate.
  split; [exact Hsplit|]. split; [exact Hbefore|]. split; [exact Hname|].
  split; [exact Hv|].
  exact (proxy_first_nonempty_variable_decides _ _ _ _ _ Hsplit Hbefore Hname Hv).
Defined.

(** X26: a proxy URL with embedded credentials survives the round trip
    through the configuration.  When the deciding variable holds
    scheme, user, colon, password, at-sign, host, with the scheme http:// or
    https://, a non-empty user without a colon, a non-empty password without
    an at-sign and a non-empty host without a line break, [from_env] splits
    it into the URL without credentials, the user and the password, and the
    client resolves its proxy URL to the variable's value, character for
    character. *)
Theorem proxy_credentials_round_trip scheme user pass host :
  scheme ∈ ["http://"; "https://"] →
  user ≠ EmptyString → Py.free_of ":" user = true →
  pass ≠ EmptyString → Py.free_of "@" pass = true →
  host ≠ EmptyString → Py.free_of ProxyConfig.newline host = true →
  ProxyConfig.from_env
    {[ "HTTPS_PROXY" := proxy_url_with_credentials scheme user pass host ]}
  = {| ProxyConfig.url := Some (scheme +:+ host);
       ProxyConfig.username := Some user;
       ProxyConfig.password := Some pass |} ∧
  ProxyConfig.resolve None
    {[ "HTTPS_PROXY" := proxy_url_with_credentials scheme user pass host ]}
  = Some (proxy_url_with_credentials scheme user pass host).
Proof.
  intros Hscheme Hu Hfu Hp Hfp Hh Hfh.
  assert (ProxyConfig.re_match (proxy_url_with_credentials scheme user pass host)
          = Some (Some scheme, Some user, Some pass, host)) as Hmatch.
  { unfold ProxyConfig.re_match, proxy_url_with_credentials.
    assert (ProxyConfig.scheme
              (scheme +:+ user +:+ String ":" (pass +:+ String "@" host))
            = Some (scheme, user +:+ String ":" (pass +:+ String "@" host)))
      as ->.
    { unfold ProxyConfig.scheme.
      apply list_elem_of_In in Hscheme. simpl in Hscheme.
      destruct Hscheme as [<-|[<-|[]]].
      - reflexivity.
      - by rewrite strip_prefix_app. }
    unfold ProxyConfig.rest_groups.
    pose proof (credentials_some user pass host Hu Hfu Hp Hfp) as Hc.
    unfold ProxyConfig.colon, ProxyConfig.at_sign in Hc. rewrite Hc.
    by rewrite host_to_end_free. }
  assert (ProxyConfig.from_env
            {[ "HTTPS_PROXY" := proxy_url_with_credentials scheme user pass host ]}
          = {| ProxyConfig.url := Some (scheme +:+ host);
               ProxyConfig.username := Some user;
               ProxyConfig.password := Some pass |}) as Hcfg.
  { unfold ProxyConfig.from_env. cbv zeta. rewrite lookup_singleton_eq.
    assert (∃ a s, proxy_url_with_credentials scheme user pass host = String a s)
      as (a & s & Hs).
    { apply list_elem_of_In in Hscheme. simpl in Hscheme.
      destruct Hscheme as [<-|[<-|[]]]; by eexists _, _. }
    rewrite or_else_take by (by rewrite Hs).
    rewrite Hs. cbv beta iota. rewrite <-Hs. by rewrite Hmatch. }
  split; [exact Hcfg|].
  unfold ProxyConfig.resolve. cbn [default]. rewrite Hcfg.
  unfold ProxyConfig._get_proxy_url, ProxyConfig.get_proxies_dict.
  cbn [ProxyConfig.url ProxyConfig.username ProxyConfig.password].
  apply list_elem_of_In in Hscheme. simpl in Hscheme.
  destruct user as [|ua user]; [done|]. destruct pass as [|pa pass]; [done|].
  destruct Hscheme as [<-|[<-|[]]]; reflexivity.
Qed.

Lemma proxy_credentials_round_trip_witness :
  "https://" ∈ ["http://"; "https://"] ∧
  "alice" ≠ EmptyString ∧ Py.free_of ":" "alice" = true ∧
  "s3:cret" ≠ EmptyString ∧ Py.free_of "@" "s3:cret" = true ∧
  "proxy.example.com:8080" ≠ EmptyString ∧
  Py.free_of ProxyConfig.newline "proxy.example.com:8080" = true ∧
  ProxyConfig.from_env
    {[ "HTTPS_PROXY" := proxy_url_with_credentials "https://" "alice" "s3:cret"
                          "proxy.example.com:8080" ]}
  = {| ProxyConfig.url := Some ("https://" +:+ "proxy.example.com:8080");
       ProxyConfig.username := Some "alice";
       ProxyConfig.password := Some "s3:cret" |} ∧
  ProxyConfig.resolve None
    {[ "HTTPS_PROXY" := proxy_url_with_credentials "https://" "alice" "s3:cret"
                          "proxy.example.com:8080" ]}
  = Some (proxy_url_with_credentials "https://" "alice" "s3:cret"
            "proxy.example.com:8080").
Proof.
  assert ("https://" ∈ ["http://"; "https://"]) as H1
    by (eapply bool_decide_unpack; vm_compute; exact I).
  assert ("alice" ≠ EmptyString) as H2 by discriminate.
  assert (Py.free_of ":" "alice" = true) as H3 by reflexivity.
  assert ("s3:cret" ≠ EmptyString) as H4 by discriminate.
  assert (Py.free_of "@" "s3:cret" = true) as H5 by reflexivity.
  assert ("proxy.example.com:8080" ≠ EmptyString) as H6 by discriminate.
  assert (Py.free_of ProxyConfig.newline "proxy.example.com:8080" = true) as H7
    by reflexivity.
  repeat (split; [assumption|]).
  exact (proxy_credentials_round_trip "https://" "alice" "s3:cret"
           "proxy.example.com:8080" H1 H2 H3 H4 H5 H6 H7).
Defined.

Lemma scheme_Some s p rest :
  ProxyConfig.scheme s = Some (p, rest) → s = p +:+ rest.
Proof.
  unfold ProxyConfig.scheme.
  destruct (BrowserInfo.strip_prefix "https://" s) as [r|] eqn:H1.
  - intros [= <- <-]. by apply strip_prefix_Some.
  - destruct (BrowserInfo.strip_prefix "http://" s) as [r|] eqn:H2; [|done].
    intros [= <- <-]. by apply strip_prefix_Some.
Qed.

Lemma rest_groups_plain protocol s :
  Py.free_of "@" s = true → Py.free_of ProxyConfig.newline s = true →
  ProxyConfig.rest_groups protocol s
  = match s with
    | EmptyString => None
    | String _ _ => Some (protocol, None, None, s)
    end.
Proof.
  intros Hat Hnl. unfold ProxyConfig.rest_groups.
  rewrite credentials_none by done.
  destruct s as [|a s]; [done|]. by rewrite host_to_end_free.
Qed.

(** X27: a proxy URL without credentials.  When the deciding variable is
    non-empty and has neither an at-sign nor a line break, [from_env] keeps
    it as the URL if it starts with http:// or https:// followed by
    something, and puts http:// in front of it otherwise, also when it is
    nothing but a scheme; no credentials are set, and the client resolves
    its proxy URL to that URL. *)
Theorem proxy_url_without_credentials s :
  s ≠ EmptyString →
  Py.free_of "@" s = true → Py.free_of ProxyConfig.newline s = true →
  ProxyConfig.from_env {[ "HTTPS_PROXY" := s ]}
  = {| ProxyConfig.url :=
         Some (match ProxyConfig.scheme s with
               | Some (_, String _ _) => s
               | _ => "http://" +:+ s
               end);
       ProxyConfig.username := None;
       ProxyConfig.password := None |} ∧
  ProxyConfig.resolve None {[ "HTTPS_PROXY" := s ]}
  = Some (match ProxyConfig.scheme s with
          | Some (_, String _ _) => s
          | _ => "http://" +:+ s
          end).
Proof.
  intros Hs Hat Hnl.
  assert (ProxyConfig.from_env {[ "HTTPS_PROXY" := s ]}
          = {| ProxyConfig.url :=
                 Some (match ProxyConfig.scheme s with
                       | Some (_, String _ _) => s
                       | _ => "http://" +:+ s
                       end);
               ProxyConfig.username := None;
               ProxyConfig.password := None |}) as Hcfg.
  { unfold ProxyConfig.from_env. cbv zeta. rewrite lookup_singleton_eq.
    rewrite or_else_take by (by destruct s).
    assert (ProxyConfig.re_match s
            = Some (match ProxyConfig.scheme s with
                    | Some (p, String _ _) => Some p
                    | _ => None
                    end, None, None,
                    match ProxyConfig.scheme s with
                    | Some (_, String a r) => String a r
                    | _ => s
                    end)) as Hmatch.
    { unfold ProxyConfig.re_match.
      destruct (ProxyConfig.scheme s) as [[p rest]|] eqn:Hsch.
      - assert (Py.free_of "@" rest = true ∧
                Py.free_of ProxyConfig.newline rest = true) as [Hat' Hnl'].
        { apply scheme_Some in Hsch. rewrite Hsch in Hat, Hnl.
          rewrite free_of_app in Hat, Hnl.
          apply andb_true_iff in Hat as [_ Hat].
          by apply andb_true_iff in Hnl as [_ Hnl]. }
        rewrite (rest_groups_plain (Some p) rest) by done.
        destruct rest as [|a rest]; [|done].
        rewrite rest_groups_plain by done. by destruct s.
      - rewrite rest_groups_plain by done. by destruct s. }
    destruct s as [|a0 s0] eqn:Es; [done|]. rewrite <-Es in *.
    rewrite Hmatch.
    destruct (ProxyConfig.scheme s) as [[p [|a rest]]|] eqn:Hsch; try done.
    apply scheme_Some in Hsch. cbn [default id]. by rewrite <-Hsch. }
  split; [exact Hcfg|].
  unfold ProxyConfig.resolve. cbn [default]. rewrite Hcfg.
  unfold ProxyConfig._get_proxy_url, ProxyConfig.get_proxies_dict.
  cbn [ProxyConfig.url ProxyConfig.username ProxyConfig.password].
  destruct (ProxyConfig.scheme s) as [[p [|a rest]]|]; try done;
    by destruct s.
Qed.

Lemma proxy_url_without_credentials_witness :
  "http://" ≠ EmptyString ∧
  Py.free_of "@" "http://" = true ∧
  Py.free_of ProxyConfig.newline "http://" = true ∧
  ProxyConfig.from_env {[ "HTTPS_PROXY" := "http://" ]}
  = {| ProxyConfig.url :=
         Some (match ProxyConfig.scheme "http://" with
               | Some (_, String _ _) => "http://"
               | _ => "http://" +:+ "http://"
               end);
       ProxyConfig.username := None;
       ProxyConfig.password := None |} ∧
  ProxyConfig.resolve None {[ "HTTPS_PROXY" := "http://" ]}
  = Some (match ProxyConfig.scheme "http://" with
          | Some (_, String _ _) => "http://"
          | _ => "http://" +:+ "http://"
          end).
Proof.
  assert ("http://" ≠ EmptyString) as H1 by discriminate.
  assert (Py.free_of "@" "http://" = true) as H2 by reflexivity.
  assert (Py.free_of ProxyConfig.newline "http://" = true) as H3 by reflexivity.
  repeat (split; [assumption|]).
  exact (proxy_url_without_credentials "http://" H1 H2 H3).
Defined.

(** ** Loading cookies and sessions *)

Section Loading.
Import SessionManager.











End Loading.









(** ** Extracting the text between two delimiters *)

Section StringIndex.
Implicit Types (s x y z sub : string).

Lemma append_cons a x y : String a x +:+ y = String a (x +:+ y).
Proof. reflexivity. Qed.

Lemma append_assoc x y z : (x +:+ y) +:+ z = x +:+ (y +:+ z).
Proof.
  induction x as [|a x IH]; [done|]. rewrite !append_cons. by f_equal.
Qed.

Lemma append_length x y :
  String.length (x +:+ y) = (String.length x + String.length y)%nat.
Proof.
  induction x as [|a x IH]; [done|]. rewrite append_cons. simpl. by rewrite IH.
Qed.

Lemma append_inv_head x y z : x +:+ y = x +:+ z → y = z.
Proof.
  induction x as [|a x IH]; [done|]. rewrite !append_cons.
  intros [=]. by apply IH.
Qed.

(** Two ways to cut one string: the shorter head is a head of the longer. *)
Lemma append_eq_le x y x' y' :
  x +:+ y = x' +:+ y' → (String.length x ≤ String.length x')%nat →
  ∃ w, x' = x +:+ w ∧ y = w +:+ y'.
Proof.
  revert x'. induction x as [|a x IH]; intros x' Heq Hle.
  - by exists x'.
  - destruct x' as [|a' x']; [simpl in Hle; lia|].
    rewrite !append_cons in Heq. injection Heq as -> Heq.
    destruct (IH x' Heq ltac:(simpl in Hle; lia)) as (w & -> & ->).
    by exists w.
Qed.

Lemma prefix_append sub y : String.prefix sub (sub +:+ y) = true.
Proof.
  induction sub as [|a sub IH]; [by destruct y|].
  rewrite append_cons. simpl. by destruct (ascii_dec a a).
Qed.

Lemma prefix_true sub s : String.prefix sub s = true → ∃ y, s = sub +:+ y.
Proof.
  revert s. induction sub as [|a sub IH]; intros s; simpl.
  - intros _. by exists s.
  - destruct s as [|b s]; simpl; [by destruct sub|].
    destruct (ascii_dec a b) as [->|]; [|done].
    intros (y & ->)%IH. by exists y.
Qed.

Lemma index_found sub s i :
  String.index 0 sub s = Some i →
  ∃ x y, s = x +:+ sub +:+ y ∧ String.length x = i.
Proof.
  revert i. induction s as [|b s IH]; intros i; cbn [String.index].
  - destruct sub; [|done]. intros [= <-]. by exists EmptyString, EmptyString.
  - destruct (String.prefix sub (String b s)) eqn:Hp.
    + intros [= <-]. apply prefix_true in Hp as (y & Hy).
      by exists EmptyString, y.
    + destruct (String.index 0 sub s) as [j|]; [|done].
      intros [= <-]. destruct (IH j eq_refl) as (x & y & -> & <-).
      by exists (String b x), y.
Qed.

Lemma index_prefix sub s :
  String.prefix sub s = true → String.index 0 sub s = Some O.
Proof.
  intros Hp. destruct s as [|b s].
  - by destruct sub.
  - cbn [String.index]. by rewrite Hp.
Qed.

Lemma index_leftmost sub x y :
  ∃ i, String.index 0 sub (x +:+ sub +:+ y) = Some i ∧
       (i ≤ String.length x)%nat.
Proof.
  induction x as [|a x (i & IH & Hle)].
  - exists O. split; [|done].
    change (EmptyString +:+ sub +:+ y) with (sub +:+ y).
    apply index_prefix, prefix_append.
  - rewrite append_cons. cbn [String.index].
    destruct (String.prefix sub _).
    + exists O. split; [done|]. simpl. lia.
    + rewrite IH. exists (S i). split; [done|]. simpl. lia.
Qed.

Lemma index_skip sub x s :
  String.index (String.length x) sub (x +:+ s)
  = (λ i, (String.length x + i)%nat) <$> String.index 0 sub s.
Proof.
  induction x as [|a x IH].
  - change (EmptyString +:+ s) with s. cbn [String.length].
    by destruct (String.index 0 sub s).
  - rewrite append_cons.
    cbn [String.length String.index]. rewrite IH.
    by destruct (String.index 0 sub s).
Qed.

Lemma substring_head m y :
  String.substring 0 (String.length m) (m +:+ y) = m.
Proof.
  induction m as [|a m IH]; [by destruct y|].
  rewrite append_cons. simpl. by rewrite IH.
Qed.

Lemma substring_mid x m y :
  String.substring (String.length x) (String.length m) (x +:+ m +:+ y) = m.
Proof.
  induction x as [|a x IH].
  - change (EmptyString +:+ m +:+ y) with (m +:+ y). apply substring_head.
  - rewrite append_cons. exact IH.
Qed.

Lemma free_of_remove_char c s : Py.free_of c (Extract.remove_char c s) = true.
Proof.
  induction s as [|a s IH]; simpl; [done|].
  destruct (Ascii.eqb a c) eqn:Hac; [done|]. simpl. by rewrite Hac.
Qed.

Lemma free_of_remove_other c d s :
  Py.free_of c s = true → Py.free_of c (Extract.remove_char d s) = true.
Proof.
  induction s as [|a s IH]; simpl; [done|].
  intros [Ha Hs]%andb_true_iff.
  destruct (Ascii.eqb a d); [by apply IH|]. simpl. by rewrite Ha, IH.
Qed.

End StringIndex.

(** X15: [_extract_between] returns a value exactly when the text can be
    cut into a head, the start delimiter, a middle, the end delimiter and a
    tail.  The value is then the middle of the cut with the shortest head
    and, for that head, the shortest middle (the first start delimiter and
    the first end delimiter after it), with every space and line break
    removed; it is [None] when there is no such cut. *)
Theorem extract_between_first_cut text start_text end_text :
  match Extract._extract_between text start_text end_text with
  | Some r =>
      ∃ before mid after,
        text = before +:+ start_text +:+ mid +:+ end_text +:+ after ∧
        r = Extract.remove_char ProxyConfig.newline (Extract.remove_char " " mid) ∧
        Py.free_of " " r = true ∧ Py.free_of ProxyConfig.newline r = true ∧
        (∀ b m a, text = b +:+ start_text +:+ m +:+ end_text +:+ a →
                  (String.length before ≤ String.length b)%nat) ∧
        (∀ m a, text = before +:+ start_text +:+ m +:+ end_text +:+ a →
                (String.length mid ≤ String.length m)%nat)
  | None =>
      ∀ before mid after,
        text ≠ before +:+ start_text +:+ mid +:+ end_text +:+ after
  end.
Proof.
  unfold Extract._extract_between, Extract.find.
  destruct (String.index 0 start_text text) as [i|] eqn:Hstart.
  - destruct (index_found _ _ _ Hstart) as (x & y & Htext & Hi).
    assert (∀ b z, text = b +:+ start_text +:+ z →
                   (String.length x ≤ String.length b)%nat) as Hfirst.
    { intros b z Hb. destruct (index_leftmost start_text b z) as (i' & Hi' & Hle).
      rewrite <-Hb, Hstart in Hi'. injection Hi' as <-. lia. }
    assert (i + String.length start_text
            = String.length (x +:+ start_text))%nat as Hlen.
    { rewrite append_length. lia. }
    cbv zeta. rewrite Hlen.
    assert (text = (x +:+ start_text) +:+ y) as Htext'.
    { by rewrite append_assoc. }
    assert (String.index (String.length (x +:+ start_text)) end_text text
            = (λ j, (String.length (x +:+ start_text) + j)%nat) <$>
              String.index 0 end_text y) as ->.
    { rewrite Htext'. apply index_skip. }
    destruct (String.index 0 end_text y) as [j|] eqn:Hend; cbn [fmap option_fmap option_map].
    + destruct (index_found _ _ _ Hend) as (m & a & Hy & Hj).
      exists x, m, a.
      assert (Extract.slice text (String.length (x +:+ start_text))
                (String.length (x +:+ start_text) + j) = m) as ->.
      { unfold Extract.slice.
        replace (String.length (x +:+ start_text) + j
                 - String.length (x +:+ start_text))%nat
          with (String.length m) by lia.
        rewrite Htext', Hy. apply substring_mid. }
      split; [by rewrite Htext, Hy|]. split; [done|].
      split; [apply free_of_remove_other, free_of_remove_char|].
      split; [apply free_of_remove_char|]. split.
      * intros b m' a' Hb. by eapply Hfirst.
      * intros m' a' Hm. rewrite Htext in Hm.
        apply append_inv_head, append_inv_head in Hm.
        destruct (index_leftmost end_text m' a') as (j' & Hj' & Hle).
        rewrite <-Hm, Hend in Hj'. injection Hj' as <-. lia.
    + intros b m a Hb.
      pose proof (Hfirst b _ Hb) as Hle.
      rewrite Htext' in Hb.
      assert (b +:+ start_text +:+ m +:+ end_text +:+ a
              = (b +:+ start_text +:+ m) +:+ end_text +:+ a) as Hb'.
      { by rewrite !append_assoc. }
      rewrite Hb' in Hb.
      destruct (append_eq_le _ _ _ _ Hb) as (w & _ & Hy).
      { rewrite !append_length. lia. }
      destruct (index_leftmost end_text w a) as (j & Hj & _).
      rewrite <-Hy, Hend in Hj. discriminate.
  - intros b m a Hb.
    destruct (index_leftmost start_text b (m +:+ end_text +:+ a)) as (i & Hi & _).
    rewrite <-Hb, Hstart in Hi. discriminate.
Qed.
